(** * UCPoolCo store: the order pricing and quoting engine

    A shallow embedding of the pricing code of [store/models.py] and
    [store/utils.py]: distance resolution ([haversine_miles],
    [Order.calculate_distance]), the shipping, install and permit
    estimators, [Order.apply_pricing], [Order.recalc_totals] and
    [Order.assign_install_queue_position]; the slug loop of
    [StoreItem.save]; and, of [store/views.py], the distance of
    [builder_pool_options], the re-pricing of the cart views and the
    pricing and queueing of [cart_checkout].

    Conventions of the embedding.
    - A Django model class is a module holding the record [t] of the columns
      the pricing code reads or writes, and the methods that need no
      database.  Methods that query or save are stated after the record [DB]
      of the tables, under their source names.
    - A nullable column or foreign key is an [option]; a related object is
      held by value, as the ORM instance holds it once loaded.
    - [decimal.Decimal] is a coefficient and an exponent, and [+], [-] and
      [*] give the exact result with the exponent Python gives it; the
      rounding of the default context to 28 significant digits is not
      modelled.  Amounts are compared by value ([Decimal.value]).
    - A Python [float] is a binary64 primitive float.  The C library
      functions and the [str] conversion of a float are an interface
      ([PyMath]).
    - Exceptions are results: a method that can raise returns [Raise e].
    - [save(update_fields=...)] copies the listed columns into the row with
      the instance's primary key, and a saved value is read back as written:
      what a database backend does to a Decimal on its way into a column is
      outside the model. *)

From Stdlib Require Import ZArith NArith QArith Qpower Qminmax Lia Bool List String.
From Stdlib Require Import Floats.PrimFloat.
From stdpp Require Import gmap strings pretty.

Local Open Scope Z_scope.

(** ** Python values *)

Module Decimal.

(** The value of [mk c e] is [c * 10^e]. *)
Record t := mk { coef : Z; expo : Z }.

(** [Decimal("0.00")] *)
Definition zero_00 : t := mk 0 (-2).

(** [Decimal(str(n))] for an int [n] *)
Definition of_int (n : Z) : t := mk n 0.

(** [bool(d)]: a Decimal is falsy exactly when it is zero. *)
Definition truthy (d : t) : bool := negb (coef d =? 0).

(** [a or b] *)
Definition or_ (a b : t) : t := if truthy a then a else b.

Definition add (a b : t) : t :=
  let e := Z.min (expo a) (expo b) in
  mk (coef a * 10 ^ (expo a - e) + coef b * 10 ^ (expo b - e)) e.

Definition sub (a b : t) : t :=
  let e := Z.min (expo a) (expo b) in
  mk (coef a * 10 ^ (expo a - e) - coef b * 10 ^ (expo b - e)) e.

Definition mul (a b : t) : t := mk (coef a * coef b) (expo a + expo b).

(** [a < b], a comparison of values *)
Definition ltb (a b : t) : bool := coef (sub a b) <? 0.

(** The rational number a Decimal stands for. *)
Definition value (d : t) : Q := (inject_Z (coef d) * 10 ^ expo d)%Q.

End Decimal.

Inductive exn : Set := TypeError | ValueError | OverflowError.

Inductive result (A : Type) : Type :=
| Ok (a : A)
| Raise (e : exn).
Arguments Ok {A} a.
Arguments Raise {A} e.

Definition result_bind {A B : Type} (r : result A) (k : A -> result B) : result B :=
  match r with
  | Ok a => k a
  | Raise e => Raise e
  end.

Declare Scope py_scope.
Delimit Scope py_scope with py.
Notation "'try' x := r 'in' k" := (result_bind r (fun x => k))
  (at level 10, x name, r at level 100, k at level 200, only parsing) : py_scope.

(** What the pricing code takes from the platform: [math.sin], [math.cos],
    [math.atan2], float [**] (each may raise, as CPython's wrappers do on a
    domain or range error) and [Decimal(str(x))] for a finite float [x]. *)
Class PyMath : Type := {
  sin : float -> result float;
  cos : float -> result float;
  atan2 : float -> float -> float;
  pow : float -> float -> result float;
  Decimal_of_repr : float -> Decimal.t
}.

(** A number passed as [distance_miles]: the float of
    [calculate_distance], or the int [0] of the fall-back. *)
Inductive number : Set :=
| PyInt (n : Z)
| PyFloat (x : float).

(** [Decimal(str(n))] *)
Definition Decimal_of_str {platform : PyMath} (n : number) : Decimal.t :=
  match n with
  | PyInt z => Decimal.of_int z
  | PyFloat x => Decimal_of_repr x
  end.

(** [bool(s)] for a str *)
Definition str_truthy (s : string) : bool := negb (String.eqb s "").

(** ** store/utils.py *)

Section Utils.
Context {platform : PyMath}.
Local Open Scope py_scope.

(** [a - b] on two coordinates: [None] is no operand of [-]. *)
Definition float_sub (a b : option float) : result float :=
  match a, b with
  | Some x, Some y => Ok (x - y)%float
  | _, _ => Raise TypeError
  end.

(** [math.radians] *)
Definition radians (x : float) : float := (x * (0x1.921fb54442d18p+1 / 180))%float.

Definition math_radians (a : option float) : result float :=
  match a with
  | Some x => Ok (radians x)
  | None => Raise TypeError
  end.

(** [math.sqrt]: a negative argument is a domain error. *)
Definition math_sqrt (x : float) : result float :=
  if (x <? 0)%float then Raise ValueError else Ok (PrimFloat.sqrt x).

Definition haversine_miles (lat1 lon1 lat2 lon2 : option float) : result float :=
  (* R = 3958.8, the nearest binary64 *)
  let R := 0x1.eed999999999ap+11%float in
  try d_lat0 := float_sub lat2 lat1 in
  let d_lat := radians d_lat0 in
  try d_lon0 := float_sub lon2 lon1 in
  let d_lon := radians d_lon0 in
  try lat1 := math_radians lat1 in
  try lat2 := math_radians lat2 in
  try s_lat := sin (d_lat / 2)%float in
  try s_lat2 := pow s_lat 2%float in
  try c1 := cos lat1 in
  try c2 := cos lat2 in
  try s_lon := sin (d_lon / 2)%float in
  try s_lon2 := pow s_lon 2%float in
  let a := (s_lat2 + c1 * c2 * s_lon2)%float in
  try sq_a := math_sqrt a in
  try sq_1a := math_sqrt (1 - a)%float in
  let c := (2 * atan2 sq_a sq_1a)%float in
  Ok (R * c)%float.

End Utils.

(** ** store/models.py: catalog models *)

Module ShippingGroup.

Record t := mk {
  base_flat_rate : Decimal.t;
  per_mile_rate : Decimal.t;
  free_with_install : bool
}.

Definition estimate_cost {platform : PyMath} (self : t) (distance_miles : option number)
    (with_install : bool) : Decimal.t :=
  if free_with_install self && with_install then Decimal.zero_00
  else
    let cost := Decimal.or_ (base_flat_rate self) Decimal.zero_00 in
    match distance_miles with
    | Some d =>
        if Decimal.truthy (per_mile_rate self)
        then Decimal.add cost
               (Decimal.mul (Decimal_of_str d)
                  (Decimal.or_ (per_mile_rate self) Decimal.zero_00))
        else cost
    | None => cost
    end.

End ShippingGroup.

Module StoreItem.

Record t := mk {
  price : Decimal.t;
  shipping_group : option ShippingGroup.t;
  is_installable : bool;
  install_base_rate : Decimal.t;
  install_included_miles : N;
  install_per_mile_rate : Decimal.t
}.

Definition estimate_shipping_cost {platform : PyMath} (self : t) (distance_miles : option number)
    (with_install : bool) : Decimal.t :=
  match shipping_group self with
  | Some sg => ShippingGroup.estimate_cost sg distance_miles with_install
  | None => Decimal.zero_00
  end.

Definition estimate_install_cost {platform : PyMath} (self : t) (distance_miles : number) : Decimal.t :=
  if negb (is_installable self) then Decimal.zero_00
  else
    let base := Decimal.or_ (install_base_rate self) Decimal.zero_00 in
    let included := Decimal.of_int (Z.of_N (install_included_miles self)) in
    let distance := Decimal_of_str distance_miles in
    let extra_miles := Decimal.sub distance included in
    let extra_miles :=
      if Decimal.ltb extra_miles (Decimal.of_int 0) then Decimal.zero_00 else extra_miles in
    let per_mile := Decimal.or_ (install_per_mile_rate self) Decimal.zero_00 in
    let mileage_cost := Decimal.mul extra_miles per_mile in
    Decimal.add base mileage_cost.

End StoreItem.

Module PoolVariant.

Record t := mk {
  shipping_group : option ShippingGroup.t;
  variant_price : Decimal.t;
  install_days : Decimal.t;
  install_daily_rate : Decimal.t;
  install_included_miles : N;
  install_per_mile_rate : Decimal.t
}.

Definition estimate_shipping_cost {platform : PyMath} (self : t) (distance_miles : option number)
    (with_install : bool) : Decimal.t :=
  match shipping_group self with
  | Some sg => ShippingGroup.estimate_cost sg distance_miles with_install
  | None => Decimal.zero_00
  end.

Definition estimate_install_cost {platform : PyMath} (self : t) (distance_miles : number) : Decimal.t :=
  let labor_rate := Decimal.or_ (install_daily_rate self) Decimal.zero_00 in
  let days := Decimal.or_ (install_days self) (Decimal.of_int 0) in
  let labor := Decimal.mul labor_rate days in
  let included := Decimal.of_int (Z.of_N (install_included_miles self)) in
  let distance := Decimal_of_str distance_miles in
  let extra_miles := Decimal.sub distance included in
  let extra_miles :=
    if Decimal.ltb extra_miles (Decimal.of_int 0) then Decimal.zero_00 else extra_miles in
  let per_mile := Decimal.or_ (install_per_mile_rate self) Decimal.zero_00 in
  let mileage_cost := Decimal.mul extra_miles per_mile in
  Decimal.add labor mileage_cost.

End PoolVariant.

(** ** store/models.py: service areas, ZIP locations, settings *)

Module ServiceArea.

Record t := mk {
  id : Z;
  permit_pool_fee_base : Decimal.t;
  permit_accessory_fee_base : Decimal.t;
  permit_pool_labor_hours : Decimal.t;
  permit_accessory_labor_hours : Decimal.t
}.

End ServiceArea.

Module ZipLocation.

(** The unique [zip_code] is the key of the table below. *)
Record t := mk {
  latitude : option float;
  longitude : option float;
  service_area : option ServiceArea.t
}.

End ZipLocation.

Module GlobalSettings.

Record t := mk {
  permit_labor_hourly_rate : Decimal.t;
  base_zip_code : string
}.

(** The column defaults, used when [get_or_create] creates the row. *)
Definition defaults : t := mk (Decimal.mk 5000 (-2)) "34491".

End GlobalSettings.

(** ** store/models.py: orders and order items *)

Module OrderItem.

Record t := mk {
  pool_variant : option PoolVariant.t;
  store_item : option StoreItem.t;
  quantity : N;
  unit_price : Decimal.t;
  line_subtotal : Decimal.t;
  install_selected : bool;
  line_install_amount : Decimal.t;
  line_shipping_amount : Decimal.t
}.

Definition set_unit_price (v : Decimal.t) (i : t) : t :=
  mk (pool_variant i) (store_item i) (quantity i) v (line_subtotal i)
     (install_selected i) (line_install_amount i) (line_shipping_amount i).
Definition set_line_subtotal (v : Decimal.t) (i : t) : t :=
  mk (pool_variant i) (store_item i) (quantity i) (unit_price i) v
     (install_selected i) (line_install_amount i) (line_shipping_amount i).
Definition set_line_install_amount (v : Decimal.t) (i : t) : t :=
  mk (pool_variant i) (store_item i) (quantity i) (unit_price i) (line_subtotal i)
     (install_selected i) v (line_shipping_amount i).
Definition set_line_shipping_amount (v : Decimal.t) (i : t) : t :=
  mk (pool_variant i) (store_item i) (quantity i) (unit_price i) (line_subtotal i)
     (install_selected i) (line_install_amount i) v.

(** [Decimal(str(self.quantity or 0))] *)
Definition qty (self : t) : Decimal.t := Decimal.of_int (Z.of_N (quantity self)).

Definition recalc_line_totals (self : t) : t :=
  let q := qty self in
  set_line_subtotal (Decimal.mul (Decimal.or_ (unit_price self) Decimal.zero_00) q) self.

End OrderItem.

Module Order.

Record t := mk {
  id : Z;
  zip_code : string;
  zip_location : option ZipLocation.t;
  install_service_area_id : option Z;
  install_queue_position : option N;
  subtotal : Decimal.t;
  shipping_total : Decimal.t;
  install_total : Decimal.t;
  permit_total : Decimal.t;
  tax_total : Decimal.t;
  grand_total : Decimal.t
}.

Definition set_zip_location (v : option ZipLocation.t) (o : t) : t :=
  mk (id o) (zip_code o) v (install_service_area_id o) (install_queue_position o)
     (subtotal o) (shipping_total o) (install_total o) (permit_total o) (tax_total o)
     (grand_total o).
Definition set_zip_code (v : string) (o : t) : t :=
  mk (id o) v (zip_location o) (install_service_area_id o) (install_queue_position o)
     (subtotal o) (shipping_total o) (install_total o) (permit_total o) (tax_total o)
     (grand_total o).
Definition set_install_service_area_id (v : option Z) (o : t) : t :=
  mk (id o) (zip_code o) (zip_location o) v (install_queue_position o)
     (subtotal o) (shipping_total o) (install_total o) (permit_total o) (tax_total o)
     (grand_total o).
Definition set_install_queue_position (v : option N) (o : t) : t :=
  mk (id o) (zip_code o) (zip_location o) (install_service_area_id o) v
     (subtotal o) (shipping_total o) (install_total o) (permit_total o) (tax_total o)
     (grand_total o).
Definition set_permit_total (v : Decimal.t) (o : t) : t :=
  mk (id o) (zip_code o) (zip_location o) (install_service_area_id o)
     (install_queue_position o)
     (subtotal o) (shipping_total o) (install_total o) v (tax_total o) (grand_total o).

(** The six columns [recalc_totals] and [apply_pricing] write. *)
Definition set_totals (sub ship inst permit tax grand : Decimal.t) (o : t) : t :=
  mk (id o) (zip_code o) (zip_location o) (install_service_area_id o)
     (install_queue_position o) sub ship inst permit tax grand.

End Order.

(** ** The database *)

Record DB := mkDB {
  (** the row with [slug="default"], once created *)
  GlobalSettings_objects : option GlobalSettings.t;
  (** [ZipLocation.objects], by [zip_code] *)
  ZipLocation_objects : gmap string ZipLocation.t;
  (** [Order.objects], by primary key *)
  Order_objects : gmap Z Order.t;
  (** [order.items], by the order's primary key, in row order *)
  OrderItem_objects : gmap Z (list OrderItem.t)
}.

Definition set_GlobalSettings_objects (v : option GlobalSettings.t) (db : DB) : DB :=
  mkDB v (ZipLocation_objects db) (Order_objects db) (OrderItem_objects db).
Definition set_Order_objects (v : gmap Z Order.t) (db : DB) : DB :=
  mkDB (GlobalSettings_objects db) (ZipLocation_objects db) v (OrderItem_objects db).
Definition set_OrderItem_objects (v : gmap Z (list OrderItem.t)) (db : DB) : DB :=
  mkDB (GlobalSettings_objects db) (ZipLocation_objects db) (Order_objects db) v.

(** A method that reads or writes the database and may raise.  A write
    made before an exception stays (autocommit). *)
Definition M (A : Type) : Type := DB -> result A * DB.

Definition ret {A : Type} (a : A) : M A := fun db => (Ok a, db).

Definition bind {A B : Type} (m : M A) (k : A -> M B) : M B :=
  fun db =>
    match m db with
    | (Ok a, db') => k a db'
    | (Raise e, db') => (Raise e, db')
    end.

Definition lift {A : Type} (r : result A) : M A := fun db => (r, db).

Definition get_db : M DB := fun db => (Ok db, db).

Definition modify_db (f : DB -> DB) : M unit := fun db => (Ok tt, f db).

Notation "'do' x <- m ; k" := (bind m (fun x => k))
  (at level 10, x name, m at level 100, k at level 200, only parsing) : py_scope.
Notation "'do_' m ; k" := (bind m (fun _ => k))
  (at level 10, m at level 100, k at level 200, only parsing) : py_scope.

Local Open Scope py_scope.

(** [ZipLocation.objects.filter(zip_code=z).first()] *)
Definition ZipLocation_first (z : string) : M (option ZipLocation.t) :=
  do db <- get_db ; ret (ZipLocation_objects db !! z).

(** [self.items.all()], [list(self.items.select_related(...))] *)
Definition Order_items (self : Order.t) : M (list OrderItem.t) :=
  do db <- get_db ; ret (default [] (OrderItem_objects db !! Order.id self)).

(** [self.save(update_fields=...)] on an order: [copy] writes the listed
    columns of [self] into the row. *)
Definition Order_save (copy : Order.t -> Order.t -> Order.t) (self : Order.t) : M unit :=
  modify_db (fun db => set_Order_objects (alter (copy self) (Order.id self) (Order_objects db)) db).

(** The [item.save(update_fields=...)] of each loaded item of the order. *)
Definition OrderItem_save_all (self : Order.t) (items : list OrderItem.t) : M unit :=
  modify_db (fun db =>
    set_OrderItem_objects (alter (fun _ => items) (Order.id self) (OrderItem_objects db)) db).

(** [GlobalSettings.get_solo] *)
Definition get_solo : M GlobalSettings.t :=
  fun db =>
    match GlobalSettings_objects db with
    | Some obj => (Ok obj, db)
    | None =>
        (Ok GlobalSettings.defaults,
         set_GlobalSettings_objects (Some GlobalSettings.defaults) db)
    end.

(** [ServiceArea._get_hourly_rate] *)
Definition _get_hourly_rate (self : ServiceArea.t) : M Decimal.t :=
  do settings_obj <- get_solo ;
  ret (Decimal.or_ (GlobalSettings.permit_labor_hourly_rate settings_obj) Decimal.zero_00).

(** [ServiceArea.get_pool_permit_charge] *)
Definition get_pool_permit_charge (self : ServiceArea.t) : M Decimal.t :=
  do rate <- _get_hourly_rate self ;
  ret (Decimal.add
         (Decimal.or_ (ServiceArea.permit_pool_fee_base self) Decimal.zero_00)
         (Decimal.mul
            (Decimal.or_ (ServiceArea.permit_pool_labor_hours self) Decimal.zero_00) rate)).

(** [ServiceArea.get_accessory_permit_charge] *)
Definition get_accessory_permit_charge (self : ServiceArea.t) : M Decimal.t :=
  do rate <- _get_hourly_rate self ;
  ret (Decimal.add
         (Decimal.or_ (ServiceArea.permit_accessory_fee_base self) Decimal.zero_00)
         (Decimal.mul
            (Decimal.or_ (ServiceArea.permit_accessory_labor_hours self) Decimal.zero_00)
            rate)).

(** ** store/models.py: distance, totals, pricing, install queue *)

Section Pricing.
Context {platform : PyMath}.

(** [Order.calculate_distance] *)
Definition calculate_distance (self : Order.t) (zip_override : option string)
    : M (option float) :=
  do base_settings <- get_solo ;
  let base_zip := GlobalSettings.base_zip_code base_settings in
  do base_loc <- ZipLocation_first base_zip ;
  let stored : M (option ZipLocation.t) :=
    match Order.zip_location self with
    | Some zl => ret (Some zl)
    | None =>
        if str_truthy (Order.zip_code self)
        then ZipLocation_first (Order.zip_code self)
        else ret None
    end in
  do customer_loc <-
    match zip_override with
    | Some z => if str_truthy z then ZipLocation_first z else stored
    | None => stored
    end ;
  match base_loc, customer_loc with
  | Some base_loc, Some customer_loc =>
      match ZipLocation.latitude base_loc, ZipLocation.latitude customer_loc with
      | Some _, Some _ =>
          do d <- lift (haversine_miles
                          (ZipLocation.latitude base_loc)
                          (ZipLocation.longitude base_loc)
                          (ZipLocation.latitude customer_loc)
                          (ZipLocation.longitude customer_loc)) ;
          ret (Some d)
      | _, _ => ret None
      end
  | _, _ => ret None
  end.

(** One pass of the loop of [Order.recalc_totals]. *)
Definition recalc_totals_step (acc : Decimal.t * Decimal.t * Decimal.t)
    (item : OrderItem.t) : Decimal.t * Decimal.t * Decimal.t :=
  let '(subtotal, shipping_total, install_total) := acc in
  (Decimal.add subtotal (Decimal.or_ (OrderItem.line_subtotal item) Decimal.zero_00),
   Decimal.add shipping_total
     (Decimal.or_ (OrderItem.line_shipping_amount item) Decimal.zero_00),
   Decimal.add install_total
     (Decimal.or_ (OrderItem.line_install_amount item) Decimal.zero_00)).

(** [Order.recalc_totals] *)
Definition recalc_totals (self : Order.t) : M Order.t :=
  do items <- Order_items self ;
  let '(subtotal, shipping_total, install_total) :=
    fold_left recalc_totals_step items
      (Decimal.zero_00, Decimal.zero_00, Decimal.zero_00) in
  let tax_total := Decimal.zero_00 in
  let grand_total :=
    Decimal.add
      (Decimal.add
         (Decimal.add (Decimal.add subtotal shipping_total) install_total)
         (Order.permit_total self))
      tax_total in
  ret (Order.set_totals subtotal shipping_total install_total
         (Order.permit_total self) tax_total grand_total self).

(** The classification of the order by [apply_pricing]. *)
Definition has_pool_install (items : list OrderItem.t) : bool :=
  existsb (fun item =>
             match OrderItem.pool_variant item with
             | Some _ => OrderItem.install_selected item
             | None => false
             end) items.

Definition has_accessory_install (items : list OrderItem.t) : bool :=
  existsb (fun item =>
             match OrderItem.store_item item with
             | Some _ => OrderItem.install_selected item
             | None => false
             end) items.

(** The block of [apply_pricing] that resolves the county from the ZIP:
    the service area found, and the order with its [zip_location] set. *)
Definition resolve_service_area (self : Order.t) : M (option ServiceArea.t * Order.t) :=
  match Order.zip_location self ≫= ZipLocation.service_area with
  | Some sa => ret (Some sa, self)
  | None =>
      if str_truthy (Order.zip_code self) then
        do z <- ZipLocation_first (Order.zip_code self) ;
        match z with
        | Some z =>
            let self := Order.set_zip_location (Some z) self in
            do_ Order_save
                  (fun self row =>
                     Order.set_zip_code (Order.zip_code self)
                       (Order.set_zip_location (Order.zip_location self) row))
                  self ;
            ret (ZipLocation.service_area z, self)
        | None => ret (None, self)
        end
      else ret (None, self)
  end.

(** The body of the per-line loop of [apply_pricing]. *)
Definition apply_pricing_line (distance_miles : number) (has_pool_install : bool)
    (item : OrderItem.t) : OrderItem.t :=
  (* 1a) base unit price *)
  let base_price :=
    match OrderItem.pool_variant item, OrderItem.store_item item with
    | Some pv, _ => Decimal.or_ (PoolVariant.variant_price pv) Decimal.zero_00
    | None, Some si => Decimal.or_ (StoreItem.price si) Decimal.zero_00
    | None, None => Decimal.zero_00
    end in
  let item := OrderItem.set_unit_price base_price item in
  let item := OrderItem.recalc_line_totals item in
  (* 1b) install cost *)
  let install_amount :=
    if OrderItem.install_selected item then
      let per_item_install :=
        match OrderItem.pool_variant item, OrderItem.store_item item with
        | Some pv, _ => PoolVariant.estimate_install_cost pv distance_miles
        | None, Some si => StoreItem.estimate_install_cost si distance_miles
        | None, None => Decimal.zero_00
        end in
      Decimal.mul per_item_install (OrderItem.qty item)
    else Decimal.zero_00 in
  let item := OrderItem.set_line_install_amount install_amount item in
  (* 1c) shipping cost *)
  let with_install_for_shipping :=
    if OrderItem.install_selected item then true
    else
      let sg :=
        match OrderItem.pool_variant item ≫= PoolVariant.shipping_group with
        | Some sg => Some sg
        | None => OrderItem.store_item item ≫= StoreItem.shipping_group
        end in
      match sg with
      | Some sg => has_pool_install && ShippingGroup.free_with_install sg
      | None => false
      end in
  let per_item_ship :=
    match OrderItem.pool_variant item, OrderItem.store_item item with
    | Some pv, _ =>
        PoolVariant.estimate_shipping_cost pv (Some distance_miles) with_install_for_shipping
    | None, Some si =>
        StoreItem.estimate_shipping_cost si (Some distance_miles) with_install_for_shipping
    | None, None => Decimal.zero_00
    end in
  let shipping_amount := Decimal.mul per_item_ship (OrderItem.qty item) in
  OrderItem.set_line_shipping_amount shipping_amount item.

(** The distance [apply_pricing] prices with. *)
Definition resolve_distance (self : Order.t) (distance_miles : option number) : M number :=
  match distance_miles with
  | Some d => ret d
  | None =>
      do d <- calculate_distance self None ;
      match d with
      | Some x => ret (PyFloat x)
      | None => ret (PyInt 0)
      end
  end.

(** The permit block of [apply_pricing]: the county-based permit total. *)
Definition permit_total_for (service_area : option ServiceArea.t)
    (has_pool_install has_accessory_install : bool) : M Decimal.t :=
  let permit_total := Decimal.zero_00 in
  match service_area with
  | Some service_area =>
      if has_pool_install then
        do c <- get_pool_permit_charge service_area ;
        ret (Decimal.add permit_total c)
      else if has_accessory_install then
        do c <- get_accessory_permit_charge service_area ;
        ret (Decimal.add permit_total c)
      else ret permit_total
  | None => ret permit_total
  end.

(** [Order.apply_pricing] *)
Definition apply_pricing (self : Order.t) (distance_miles : option number) : M Order.t :=
  do distance_miles <- resolve_distance self distance_miles ;
  do items <- Order_items self ;
  let has_pool_install := has_pool_install items in
  let has_accessory_install := has_accessory_install items in
  do resolved <- resolve_service_area self ;
  let service_area := fst resolved in
  let self := snd resolved in
  let items := map (apply_pricing_line distance_miles has_pool_install) items in
  do_ OrderItem_save_all self items ;
  do permit_total <- permit_total_for service_area has_pool_install has_accessory_install ;
  let self := Order.set_permit_total permit_total self in
  do self <- recalc_totals self ;
  do_ Order_save
        (fun self row =>
           Order.set_totals (Order.subtotal self) (Order.shipping_total self)
             (Order.install_total self) (Order.permit_total self)
             (Order.tax_total self) (Order.grand_total self) row)
        self ;
  ret self.

(** The orders counted by the queue query: those of the service area
    that have a queue position. *)
Definition queued_in (service_area : ServiceArea.t) (o : Order.t) : bool :=
  bool_decide (Order.install_service_area_id o = Some (ServiceArea.id service_area))
  && bool_decide (Order.install_queue_position o <> None).

Definition queued_count (service_area : ServiceArea.t) (db : DB) : N :=
  N.of_nat (size (filter (fun kv => queued_in service_area (snd kv) = true)
                    (Order_objects db))).

(** [Order.assign_install_queue_position] *)
Definition assign_install_queue_position (self : Order.t) : M Order.t :=
  match Order.zip_location self ≫= ZipLocation.service_area with
  | None => ret self
  | Some service_area =>
      do self <-
        (if bool_decide (Order.install_service_area_id self
                         <> Some (ServiceArea.id service_area))
         then
           let self :=
             Order.set_install_service_area_id (Some (ServiceArea.id service_area)) self in
           do_ Order_save
                 (fun self row =>
                    Order.set_install_service_area_id (Order.install_service_area_id self) row)
                 self ;
           ret self
         else ret self) ;
      match Order.install_queue_position self with
      | Some _ => ret self
      | None =>
          do db <- get_db ;
          let next_pos := (queued_count service_area db + 1)%N in
          let self := Order.set_install_queue_position (Some next_pos) self in
          do_ Order_save
                (fun self row =>
                   Order.set_install_queue_position (Order.install_queue_position self) row)
                self ;
          ret self
      end
  end.

End Pricing.

(** ** store/models.py: the permit charges of a ZIP location, the slug of a
    store item *)

(** [ZipLocation.get_pool_permit_charge] *)
Definition ZipLocation_get_pool_permit_charge (self : ZipLocation.t) : M Decimal.t :=
  match ZipLocation.service_area self with
  | Some service_area => get_pool_permit_charge service_area
  | None => ret Decimal.zero_00
  end.

(** [ZipLocation.get_accessory_permit_charge] *)
Definition ZipLocation_get_accessory_permit_charge (self : ZipLocation.t) : M Decimal.t :=
  match ZipLocation.service_area self with
  | Some service_area => get_accessory_permit_charge service_area
  | None => ret Decimal.zero_00
  end.

(** [StoreItem.objects.filter(slug=s).exclude(pk=pk).exists()], on the slugs
    of the store items by primary key.  An unsaved item has no primary key
    and excludes no row. *)
Definition StoreItem_slug_exists (slugs : gmap Z string) (pk : option Z) (s : string) : bool :=
  bool_decide (map_Exists (fun k v => v = s /\ pk <> Some k) slugs).

(** The [while] loop of [StoreItem.save], run for at most [fuel] passes:
    [None] when the passes are used up. *)
Fixpoint StoreItem_save_loop (fuel : nat) (slugs : gmap Z string) (pk : option Z)
    (base_slug : string) (counter : N) (new_slug : string) : option string :=
  if StoreItem_slug_exists slugs pk new_slug then
    match fuel with
    | O => None
    | S fuel =>
        let counter := (counter + 1)%N in
        let new_slug := base_slug +:+ "-" +:+ pretty counter in
        StoreItem_save_loop fuel slugs pk base_slug counter new_slug
    end
  else Some new_slug.

(** The slug [StoreItem.save] stores: the one the item has, or the first
    free one of [base_slug], [base_slug-2], [base_slug-3], ... where
    [base_slug] is [slugify(self.name)]. *)
Definition StoreItem_save_slug (fuel : nat) (slugs : gmap Z string) (pk : option Z)
    (slug base_slug : string) : option string :=
  if negb (str_truthy slug) then
    let new_slug := base_slug in
    let counter := 1%N in
    StoreItem_save_loop fuel slugs pk base_slug counter new_slug
  else Some slug.

(** ** store/views.py: the callers of the pricing engine *)

Section Views.
Context {platform : PyMath}.

(** The distance of [builder_pool_options]: the haversine distance when the
    base location exists and both locations have both coordinates, else
    [0.0]. *)
Definition builder_pool_options_distance (zip_location : ZipLocation.t) : M float :=
  do settings_obj <- get_solo ;
  let base_zip := GlobalSettings.base_zip_code settings_obj in
  do base_loc <- ZipLocation_first base_zip ;
  match base_loc with
  | Some base_loc =>
      match ZipLocation.latitude base_loc, ZipLocation.longitude base_loc,
            ZipLocation.latitude zip_location, ZipLocation.longitude zip_location with
      | Some _, Some _, Some _, Some _ =>
          lift (haversine_miles
                  (ZipLocation.latitude base_loc) (ZipLocation.longitude base_loc)
                  (ZipLocation.latitude zip_location) (ZipLocation.longitude zip_location))
      | _, _, _, _ => ret 0%float
      end
  | None => ret 0%float
  end.

(** The re-pricing of [cart_update_item], [cart_remove_item] and
    [cart_summary]:
    [distance_miles = order.calculate_distance();
     order.apply_pricing(distance_miles)]. *)
Definition views_reprice (order : Order.t) : M Order.t :=
  do distance_miles <- calculate_distance order None ;
  apply_pricing order (PyFloat <$> distance_miles).

(** The re-pricing of [cart_add_item], for the ZIP code of the request:
    [distance_miles = order.calculate_distance(zip_override=zip_code);
     order.apply_pricing(distance_miles)]. *)
Definition views_reprice_for_zip (order : Order.t) (zip_code : string) : M Order.t :=
  do distance_miles <- calculate_distance order (Some zip_code) ;
  apply_pricing order (PyFloat <$> distance_miles).

(** [cart_checkout] once the request is accepted, on the columns of the
    model: the ZIP code of the form is saved, the order is priced, then
    queued. *)
Definition cart_checkout_accepted (order : Order.t) (zip_code : string) : M Order.t :=
  let order := Order.set_zip_code zip_code order in
  do_ Order_save (fun self row => Order.set_zip_code (Order.zip_code self) row) order ;
  do order <- apply_pricing order None ;
  assign_install_queue_position order.

End Views.

(** ** Notions used in the statements *)

(** The sum of a list of rationals. *)
Definition Qsum (l : list Q) : Q := fold_right Qplus 0%Q l.

(** The distance as the estimators read it: the value of
    [Decimal(str(distance_miles))]. *)
Definition miles {platform : PyMath} (d : number) : Q :=
  Decimal.value (Decimal_of_str d).

(** The settings row [get_solo] returns: the stored one, or the defaults. *)
Definition settings_row (db : DB) : GlobalSettings.t :=
  default GlobalSettings.defaults (GlobalSettings_objects db).

(** The global hourly rate as [_get_hourly_rate] reads it. *)
Definition hourly_rate (db : DB) : Decimal.t :=
  Decimal.or_ (GlobalSettings.permit_labor_hourly_rate (settings_row db)) Decimal.zero_00.

(** The database once [get_solo] has run: the settings row exists. *)
Definition settings_created (db : DB) : DB :=
  set_GlobalSettings_objects (Some (settings_row db)) db.

(** The service area of the order's linked ZIP location. *)
Definition service_area_of (self : Order.t) : option ServiceArea.t :=
  Order.zip_location self ≫= ZipLocation.service_area.

(** The location [calculate_distance] measures to, without an override. *)
Definition customer_location (self : Order.t) (db : DB) : option ZipLocation.t :=
  match Order.zip_location self with
  | Some zl => Some zl
  | None =>
      if str_truthy (Order.zip_code self)
      then ZipLocation_objects db !! Order.zip_code self
      else None
  end.

(** The location pricing leaves the order linked to: the linked one when
    it has a service area, else the location of the order's ZIP code when
    there is one. *)
Definition linked_after (self : Order.t) (db : DB) : option ZipLocation.t :=
  match service_area_of self with
  | Some _ => Order.zip_location self
  | None =>
      if str_truthy (Order.zip_code self) then
        match ZipLocation_objects db !! Order.zip_code self with
        | Some z => Some z
        | None => Order.zip_location self
        end
      else Order.zip_location self
  end.

(** The slugs [StoreItem.save] tries, by the value of [counter]:
    [base_slug], then [base_slug-2], [base_slug-3], ... *)
Definition slug_candidate (base_slug : string) (counter : N) : string :=
  if (counter =? 1)%N then base_slug else base_slug +:+ "-" +:+ pretty counter.

(** Pricing leaves the customer's location where it was: when the linked
    ZIP location has no service area and the order's [zip_code] names a
    location, that location is the linked one. *)
Definition link_stable (self : Order.t) (db : DB) : Prop :=
  forall z0 z1 : ZipLocation.t,
    Order.zip_location self = Some z0 ->
    ZipLocation.service_area z0 = None ->
    str_truthy (Order.zip_code self) = true ->
    ZipLocation_objects db !! Order.zip_code self = Some z1 ->
    z1 = z0.

(** The six totals of an order. *)
Definition totals (o : Order.t) :=
  (Order.subtotal o, Order.shipping_total o, Order.install_total o, Order.permit_total o,
   Order.tax_total o, Order.grand_total o).

(** The order's lines as stored. *)
Definition lines_of (self : Order.t) (db : DB) : list OrderItem.t :=
  default [] (OrderItem_objects db !! Order.id self).

(** ** Example data *)

(** A platform for the examples.  Each example gives the distance as an int
    or reaches the fall-back distance, and none calls into the platform:
    its functions raise, so that a call would show. *)
Definition example_math : PyMath := {|
  sin := fun _ => Raise ValueError;
  cos := fun _ => Raise ValueError;
  atan2 := fun y _ => y;
  pow := fun _ _ => Raise OverflowError;
  Decimal_of_repr := fun _ => Decimal.of_int 0
|}.

(** Shipping 20.00 flat and 0.50 a mile, free with install. *)
Definition parcel : ShippingGroup.t :=
  ShippingGroup.mk (Decimal.mk 2000 (-2)) (Decimal.mk 50 (-2)) true.

(** An installable pump: install 150.00, 50 miles included, 1.50 a mile. *)
Definition pump : StoreItem.t :=
  StoreItem.mk (Decimal.mk 49900 (-2)) (Some parcel) true
    (Decimal.mk 15000 (-2)) 50 (Decimal.mk 150 (-2)).

(** The same pump, not installable. *)
Definition pump_no_install : StoreItem.t :=
  StoreItem.mk (Decimal.mk 49900 (-2)) (Some parcel) false
    (Decimal.mk 15000 (-2)) 50 (Decimal.mk 150 (-2)).

(** Pool freight: 300.00 flat and 2.00 a mile, free with install. *)
Definition freight : ShippingGroup.t :=
  ShippingGroup.mk (Decimal.mk 30000 (-2)) (Decimal.mk 200 (-2)) true.

(** A round pool: 4999.00; install 2.0 days at 800.00, 50 miles included,
    3.00 a mile. *)
Definition round_pool : PoolVariant.t :=
  PoolVariant.mk (Some freight) (Decimal.mk 499900 (-2)) (Decimal.mk 20 (-1))
    (Decimal.mk 80000 (-2)) 50 (Decimal.mk 300 (-2)).

(** A county: pool permit 50.00 and 2 hours, accessory permit 25.00 and
    1 hour. *)
Definition marion : ServiceArea.t :=
  ServiceArea.mk 1 (Decimal.mk 5000 (-2)) (Decimal.mk 2500 (-2))
    (Decimal.mk 200 (-2)) (Decimal.mk 100 (-2)).

Definition zip_34491 : ZipLocation.t :=
  ZipLocation.mk (Some 29.0%float) (Some (-82.0)%float) (Some marion).

(** A location without coordinates and without a service area. *)
Definition zip_bare : ZipLocation.t := ZipLocation.mk None None None.

(** A location with a latitude and no longitude. *)
Definition zip_no_longitude : ZipLocation.t :=
  ZipLocation.mk (Some 30.5%float) None None.

Definition new_line (pv : option PoolVariant.t) (si : option StoreItem.t)
    (quantity : N) (install_selected : bool) : OrderItem.t :=
  OrderItem.mk pv si quantity Decimal.zero_00 Decimal.zero_00 install_selected
    Decimal.zero_00 Decimal.zero_00.

Definition new_order (id : Z) (zip_code : string) (zl : option ZipLocation.t) : Order.t :=
  Order.mk id zip_code zl None None Decimal.zero_00 Decimal.zero_00 Decimal.zero_00
    Decimal.zero_00 Decimal.zero_00 Decimal.zero_00.

(** Order 7: a pool with install, and two pumps without. *)
Definition order_7 : Order.t := new_order 7 "34491" (Some zip_34491).

Definition lines_7 : list OrderItem.t :=
  [new_line (Some round_pool) None 1 true; new_line None (Some pump) 2 false].

(** Hourly rate 25.00. *)
Definition settings_25 : GlobalSettings.t := GlobalSettings.mk (Decimal.mk 2500 (-2)) "34491".

Definition db_7 : DB :=
  mkDB (Some settings_25) {[ "34491"%string := zip_34491 ]} {[ 7 := order_7 ]}
    {[ 7 := lines_7 ]}.

(** Order 8: a line that names neither a pool variant nor a store item,
    install selected, and one pump. *)
Definition order_8 : Order.t := new_order 8 "34491" (Some zip_34491).

Definition lines_8 : list OrderItem.t :=
  [new_line None None 3 true; new_line None (Some pump) 1 false].

Definition db_8 : DB :=
  mkDB (Some settings_25) {[ "34491"%string := zip_34491 ]} {[ 8 := order_8 ]}
    {[ 8 := lines_8 ]}.

(** Order 10: install selected on a pump that is not installable, and a
    pump without install. *)
Definition order_10 : Order.t := new_order 10 "34491" (Some zip_34491).

Definition lines_10 : list OrderItem.t :=
  [new_line None (Some pump_no_install) 1 true; new_line None (Some pump) 1 false].

Definition db_10 : DB :=
  mkDB (Some settings_25) {[ "34491"%string := zip_34491 ]} {[ 10 := order_10 ]}
    {[ 10 := lines_10 ]}.

(** The database of order 7 before any settings row exists. *)
Definition db_7_no_settings : DB :=
  mkDB None {[ "34491"%string := zip_34491 ]} {[ 7 := order_7 ]} {[ 7 := lines_7 ]}.

(** Order 9 is linked to a location without a service area, and its ZIP
    code names another location. *)
Definition order_9 : Order.t := new_order 9 "32003" (Some zip_bare).

Definition lines_9 : list OrderItem.t := [new_line None (Some pump) 1 false].

Definition db_9 : DB :=
  mkDB (Some settings_25)
    {[ "34491"%string := zip_34491; "32003"%string := zip_no_longitude ]}
    {[ 9 := order_9 ]} {[ 9 := lines_9 ]}.

(** Order 11 is linked to the location that has a latitude and no
    longitude. *)
Definition order_11 : Order.t := new_order 11 "32003" (Some zip_no_longitude).

(** Orders 1 and 2 are queued in county 1, order 3 in county 2; order 7 is
    not queued yet. *)
Definition queued_order (id area : Z) (position : N) : Order.t :=
  Order.mk id "34491" (Some zip_34491) (Some area) (Some position) Decimal.zero_00
    Decimal.zero_00 Decimal.zero_00 Decimal.zero_00 Decimal.zero_00 Decimal.zero_00.

Definition db_queue : DB :=
  mkDB (Some settings_25) {[ "34491"%string := zip_34491 ]}
    {[ 1 := queued_order 1 1 1; 2 := queued_order 2 1 2; 3 := queued_order 3 2 1;
       7 := order_7 ]}
    {[ 7 := lines_7 ]}.

(** Order 12: a pool with install and a pump with install. *)
Definition order_12 : Order.t := new_order 12 "34491" (Some zip_34491).

Definition lines_12 : list OrderItem.t :=
  [new_line (Some round_pool) None 1 true; new_line None (Some pump) 1 true].

Definition db_12 : DB :=
  mkDB (Some settings_25) {[ "34491"%string := zip_34491 ]} {[ 12 := order_12 ]}
    {[ 12 := lines_12 ]}.

(** Order 13 is linked to the location without coordinates and has no ZIP
    code of its own. *)
Definition order_13 : Order.t := new_order 13 "" (Some zip_bare).

Definition db_13 : DB :=
  mkDB (Some settings_25) {[ "34491"%string := zip_34491 ]} {[ 13 := order_13 ]}
    {[ 13 := lines_9 ]}.

(** Order 14: one pump with install, and no pool. *)
Definition order_14 : Order.t := new_order 14 "34491" (Some zip_34491).

Definition lines_14 : list OrderItem.t := [new_line None (Some pump) 1 true].

Definition db_14 : DB :=
  mkDB (Some settings_25) {[ "34491"%string := zip_34491 ]} {[ 14 := order_14 ]}
    {[ 14 := lines_14 ]}.

(** Order 15 is linked to the location of its ZIP code, which has no
    coordinates. *)
Definition order_15 : Order.t := new_order 15 "32003" (Some zip_bare).

Definition db_15 : DB :=
  mkDB (Some settings_25)
    {[ "34491"%string := zip_34491; "32003"%string := zip_bare ]}
    {[ 15 := order_15 ]} {[ 15 := lines_9 ]}.

(** Order 1 is queued in county 1; orders 7 and 14, of county 1, are not
    queued yet. *)
Definition db_queue_two : DB :=
  mkDB (Some settings_25) {[ "34491"%string := zip_34491 ]}
    {[ 1 := queued_order 1 1 1; 7 := order_7; 14 := order_14 ]}
    {[ 7 := lines_7; 14 := lines_14 ]}.

(** A location of county 1 without coordinates. *)
Definition zip_34420 : ZipLocation.t := ZipLocation.mk None None (Some marion).

(** Order 16 has no linked location yet; it is queued behind order 1 at
    checkout. *)
Definition order_16 : Order.t := new_order 16 "" None.

Definition db_16 : DB :=
  mkDB (Some settings_25)
    {[ "34491"%string := zip_34491; "34420"%string := zip_34420 ]}
    {[ 1 := queued_order 1 1 1; 16 := order_16 ]}
    {[ 16 := lines_14 ]}.

(** The slugs of three store items. *)
Definition slugs_3 : gmap Z string :=
  {[ 1 := "pump"%string; 2 := "pump-2"%string; 3 := "filter"%string ]}.

(** * Properties *)

(** ** Decimal arithmetic *)

Section DecimalFacts.
Local Open Scope Q_scope.

Lemma ten_neq_0 : ~ 10 == 0.
Proof. discriminate. Qed.

Lemma value_rescale (c e k : Z) :
  (0 <= k)%Z -> inject_Z (c * 10 ^ k) * 10 ^ (e - k) == inject_Z c * 10 ^ e.
Proof.
  intros Hk.
  rewrite inject_Z_mult, Zpower_Qpower by assumption.
  replace e with ((e - k) + k)%Z at 2 by lia.
  rewrite (Qpower_plus 10 (e - k) k ten_neq_0).
  change (inject_Z 10) with 10. ring.
Qed.

Lemma value_add (a b : Decimal.t) :
  Decimal.value (Decimal.add a b) == Decimal.value a + Decimal.value b.
Proof.
  destruct a as [ca ea], b as [cb eb]. unfold Decimal.value, Decimal.add. cbn.
  set (e := Z.min ea eb).
  rewrite inject_Z_plus, Qmult_plus_distr_l.
  replace e with (ea - (ea - e))%Z at 2 by lia.
  replace e with (eb - (eb - e))%Z at 4 by lia.
  rewrite !value_rescale by lia. reflexivity.
Qed.

Lemma value_sub (a b : Decimal.t) :
  Decimal.value (Decimal.sub a b) == Decimal.value a - Decimal.value b.
Proof.
  destruct a as [ca ea], b as [cb eb]. unfold Decimal.value, Decimal.sub. cbn.
  set (e := Z.min ea eb).
  assert (Hdistr : forall (x y : Z) (p : Q),
             inject_Z (x - y) * p == inject_Z x * p - inject_Z y * p).
  { intros x y p. unfold Z.sub. rewrite inject_Z_plus, inject_Z_opp. ring. }
  rewrite Hdistr.
  replace e with (ea - (ea - e))%Z at 2 by lia.
  replace e with (eb - (eb - e))%Z at 4 by lia.
  rewrite !value_rescale by lia. reflexivity.
Qed.

Lemma value_mul (a b : Decimal.t) :
  Decimal.value (Decimal.mul a b) == Decimal.value a * Decimal.value b.
Proof.
  destruct a as [ca ea], b as [cb eb]. unfold Decimal.value, Decimal.mul. cbn.
  rewrite inject_Z_mult, (Qpower_plus 10 ea eb ten_neq_0). ring.
Qed.

Lemma value_zero (e : Z) : Decimal.value (Decimal.mk 0 e) == 0.
Proof. unfold Decimal.value. cbn. ring. Qed.

Lemma value_zero_00 : Decimal.value Decimal.zero_00 == 0.
Proof. apply value_zero. Qed.

Lemma value_of_int (n : Z) : Decimal.value (Decimal.of_int n) == inject_Z n.
Proof. unfold Decimal.value. cbn. ring. Qed.

(** [x or Decimal("0.00")] and [x or 0] keep the value of [x]. *)
Lemma value_or_zero (a : Decimal.t) (e : Z) :
  Decimal.value (Decimal.or_ a (Decimal.mk 0 e)) == Decimal.value a.
Proof.
  unfold Decimal.or_, Decimal.truthy.
  destruct (Z.eqb_spec (Decimal.coef a) 0) as [Hz|]; cbn; [|reflexivity].
  rewrite value_zero. unfold Decimal.value. rewrite Hz. ring.
Qed.

Lemma value_or_zero_00 (a : Decimal.t) :
  Decimal.value (Decimal.or_ a Decimal.zero_00) == Decimal.value a.
Proof. apply value_or_zero. Qed.

Lemma value_or_int_0 (a : Decimal.t) :
  Decimal.value (Decimal.or_ a (Decimal.of_int 0)) == Decimal.value a.
Proof. apply value_or_zero. Qed.

Lemma value_mul_zero_l (a b : Decimal.t) :
  Decimal.value a == 0 -> Decimal.value (Decimal.mul a b) == 0.
Proof. intros Ha. rewrite value_mul, Ha. ring. Qed.

Lemma pow10_pos (e : Z) : 0 < 10 ^ e.
Proof. apply Qpower_0_lt. reflexivity. Qed.

Lemma value_neg_iff (a : Decimal.t) : Decimal.value a < 0 <-> (Decimal.coef a < 0)%Z.
Proof.
  unfold Decimal.value. split.
  - intros Hlt. destruct (Z_lt_ge_dec (Decimal.coef a) 0) as [|Hge]; [assumption|].
    exfalso. apply (Qlt_not_le _ _ Hlt).
    apply Qmult_le_0_compat.
    + change 0 with (inject_Z 0). rewrite <- Zle_Qle. lia.
    + apply Qlt_le_weak, pow10_pos.
  - intros Hc.
    assert (Hlt : inject_Z (Decimal.coef a) * 10 ^ Decimal.expo a
                  < 0 * 10 ^ Decimal.expo a).
    { apply Qmult_lt_compat_r; [apply pow10_pos|].
      change 0 with (inject_Z 0). rewrite <- Zlt_Qlt. assumption. }
    rewrite Qmult_0_l in Hlt. exact Hlt.
Qed.

(** [d < 0] on a Decimal tests the sign of its value. *)
Lemma ltb_zero_spec (a : Decimal.t) :
  Decimal.ltb a (Decimal.of_int 0) = true <-> Decimal.value a < 0.
Proof.
  rewrite value_neg_iff. unfold Decimal.ltb, Decimal.sub, Decimal.of_int. cbn.
  rewrite Z.ltb_lt, Z.sub_0_r.
  assert (0 < 10 ^ (Decimal.expo a - Z.min (Decimal.expo a) 0))%Z
    by (apply Z.pow_pos_nonneg; lia).
  nia.
Qed.

(** [max(0, distance - included)], as both install estimators clamp it. *)
Lemma value_clamped_excess (d inc : Decimal.t) :
  Decimal.value
    (if Decimal.ltb (Decimal.sub d inc) (Decimal.of_int 0)
     then Decimal.zero_00 else Decimal.sub d inc)
  == Qmax 0 (Decimal.value d - Decimal.value inc).
Proof.
  destruct (Decimal.ltb (Decimal.sub d inc) (Decimal.of_int 0)) eqn:Hlt.
  - apply ltb_zero_spec in Hlt. rewrite value_sub in Hlt.
    rewrite value_zero_00, Q.max_l; [reflexivity|]. apply Qlt_le_weak, Hlt.
  - rewrite value_sub, Q.max_r; [reflexivity|].
    apply Qnot_lt_le. intros Hneg. rewrite <- value_sub in Hneg.
    apply ltb_zero_spec in Hneg. congruence.
Qed.

End DecimalFacts.

(** ** The estimators *)

Section InstallEstimate.
Context {platform : PyMath}.
Local Open Scope Q_scope.

(** C5.  For an install-eligible store item the install estimate at distance
    [d] is [install_base_rate + max(0, d - install_included_miles) *
    install_per_mile_rate], so at or below the included miles it is the base
    rate; for an item that is not installable it is 0. *)
Theorem estimate_install_cost_store_item (self : StoreItem.t) (d : number) :
  (StoreItem.is_installable self = true ->
     Decimal.value (StoreItem.estimate_install_cost self d)
     == Decimal.value (StoreItem.install_base_rate self)
        + Qmax 0 (miles d - inject_Z (Z.of_N (StoreItem.install_included_miles self)))
          * Decimal.value (StoreItem.install_per_mile_rate self))
  /\ (StoreItem.is_installable self = true ->
      miles d <= inject_Z (Z.of_N (StoreItem.install_included_miles self)) ->
      Decimal.value (StoreItem.estimate_install_cost self d)
      == Decimal.value (StoreItem.install_base_rate self))
  /\ (StoreItem.is_installable self = false ->
      Decimal.value (StoreItem.estimate_install_cost self d) == 0).
Proof.
  assert (Hmain : StoreItem.is_installable self = true ->
     Decimal.value (StoreItem.estimate_install_cost self d)
     == Decimal.value (StoreItem.install_base_rate self)
        + Qmax 0 (miles d - inject_Z (Z.of_N (StoreItem.install_included_miles self)))
          * Decimal.value (StoreItem.install_per_mile_rate self)).
  { intros Hinst. unfold StoreItem.estimate_install_cost, miles. rewrite Hinst. cbn [negb].
    rewrite value_add, value_mul, value_clamped_excess, !value_or_zero_00, value_of_int.
    reflexivity. }
  split; [exact Hmain|]. split.
  - intros Hinst Hle. rewrite (Hmain Hinst), Q.max_l.
    + ring.
    + apply (Qplus_le_l _ _ (inject_Z (Z.of_N (StoreItem.install_included_miles self)))).
      ring_simplify. exact Hle.
  - intros Hinst. unfold StoreItem.estimate_install_cost. rewrite Hinst. cbn [negb].
    apply value_zero_00.
Qed.

(** X1.  The install estimate of a pool variant: the days of labor at the
    daily rate, plus the miles beyond the included ones at the per-mile rate. *)
Lemma estimate_install_cost_pool_variant (self : PoolVariant.t) (d : number) :
  Decimal.value (PoolVariant.estimate_install_cost self d)
  == Decimal.value (PoolVariant.install_days self)
     * Decimal.value (PoolVariant.install_daily_rate self)
     + Qmax 0 (miles d - inject_Z (Z.of_N (PoolVariant.install_included_miles self)))
       * Decimal.value (PoolVariant.install_per_mile_rate self).
Proof.
  unfold PoolVariant.estimate_install_cost, miles.
  rewrite value_add, !value_mul, value_clamped_excess, !value_or_zero_00, value_or_int_0,
    value_of_int.
  ring.
Qed.

(** X2.  The shipping estimate of a group: 0 when the group is free with
    install and install is bought, else the flat rate plus the distance at the
    per-mile rate. *)
Lemma estimate_cost_shipping_group (self : ShippingGroup.t) (d : number) (with_install : bool) :
  (ShippingGroup.free_with_install self && with_install = true ->
   Decimal.value (ShippingGroup.estimate_cost self (Some d) with_install) == 0)
  /\ (ShippingGroup.free_with_install self && with_install = false ->
      Decimal.value (ShippingGroup.estimate_cost self (Some d) with_install)
      == Decimal.value (ShippingGroup.base_flat_rate self)
         + miles d * Decimal.value (ShippingGroup.per_mile_rate self)).
Proof.
  unfold ShippingGroup.estimate_cost, miles. split; intros ->.
  - apply value_zero_00.
  - unfold Decimal.truthy.
    destruct (Z.eqb_spec (Decimal.coef (ShippingGroup.per_mile_rate self)) 0) as [Hz|Hnz];
      cbn [negb].
    + rewrite value_or_zero_00. unfold Decimal.value at 4. rewrite Hz. ring.
    + rewrite value_add, value_mul, !value_or_zero_00. reflexivity.
Qed.

End InstallEstimate.

(** The scenario of the specification: 150.00 base, 50 miles included, 1.50 a
    mile; 195.00 at 80 miles, 150.00 at 30 miles, and 0 when the item is not
    installable. *)
Lemma estimate_install_cost_store_item_witness :
  (StoreItem.is_installable pump = true
   /\ (Decimal.value (StoreItem.estimate_install_cost (platform:=example_math) pump (PyInt 80))
       == 195)%Q)
  /\ ((Decimal.value (Decimal_of_str (platform:=example_math) (PyInt 30)) <= 50)%Q
      /\ (Decimal.value (StoreItem.estimate_install_cost (platform:=example_math) pump (PyInt 30))
          == 150)%Q)
  /\ (StoreItem.is_installable pump_no_install = false
      /\ (Decimal.value
            (StoreItem.estimate_install_cost (platform:=example_math) pump_no_install (PyInt 80))
          == 0)%Q).
Proof.
  split; [|split].
  - split; [reflexivity|].
    destruct (estimate_install_cost_store_item (platform:=example_math) pump (PyInt 80))
      as [H80 _].
    rewrite (H80 eq_refl). vm_compute. reflexivity.
  - assert (Hle : (Decimal.value (Decimal_of_str (platform:=example_math) (PyInt 30)) <= 50)%Q)
      by (vm_compute; discriminate).
    split; [exact Hle|].
    destruct (estimate_install_cost_store_item (platform:=example_math) pump (PyInt 30))
      as [_ [H30 _]].
    rewrite (H30 eq_refl Hle). vm_compute. reflexivity.
  - split; [reflexivity|].
    destruct (estimate_install_cost_store_item (platform:=example_math) pump_no_install (PyInt 80))
      as [_ [_ H0]].
    exact (H0 eq_refl).
Defined.

(** ** Running the methods *)

(** Case analysis on a bool, an option or a result that the goal matches
    on. *)
Ltac case_scrutinee :=
  match goal with
  | |- context [match ?x with _ => _ end] =>
      lazymatch type of x with
      | bool => destruct x
      | option _ => destruct x
      | result _ => destruct x
      end
  end.

Section Runs.
Context {platform : PyMath}.

Lemma bind_Ok_inv {A B : Type} (m : M A) (k : A -> M B) (db db' : DB) (b : B) :
  bind m k db = (Ok b, db') ->
  exists a db1, m db = (Ok a, db1) /\ k a db1 = (Ok b, db').
Proof.
  unfold bind. destruct (m db) as [[a|e] db1]; [eauto|discriminate].
Qed.

Lemma recalc_totals_fold (items : list OrderItem.t) (a b c a' b' c' : Decimal.t) :
  fold_left recalc_totals_step items (a, b, c) = (a', b', c') ->
  (Decimal.value a'
   == Decimal.value a + Qsum (map (fun i => Decimal.value (OrderItem.line_subtotal i)) items))%Q
  /\ (Decimal.value b'
      == Decimal.value b
         + Qsum (map (fun i => Decimal.value (OrderItem.line_shipping_amount i)) items))%Q
  /\ (Decimal.value c'
      == Decimal.value c
         + Qsum (map (fun i => Decimal.value (OrderItem.line_install_amount i)) items))%Q.
Proof.
  revert a b c. induction items as [|i items IH]; intros a b c Hfold; cbn in Hfold.
  - injection Hfold as <- <- <-. cbn [map Qsum fold_right]. split; [|split]; ring.
  - apply IH in Hfold. destruct Hfold as (Ha & Hb & Hc).
    rewrite value_add, value_or_zero_00 in Ha, Hb, Hc.
    unfold Qsum in *. cbn [map fold_right]. rewrite Ha, Hb, Hc. split; [|split]; ring.
Qed.

(** [recalc_totals] reads the stored lines, writes nothing to the database
    and keeps [permit_total]. *)
Lemma recalc_totals_run (self : Order.t) (db : DB) :
  exists self',
    recalc_totals self db = (Ok self', db)
    /\ Order.id self' = Order.id self
    /\ Order.zip_code self' = Order.zip_code self
    /\ Order.zip_location self' = Order.zip_location self
    /\ Order.permit_total self' = Order.permit_total self
    /\ (Decimal.value (Order.subtotal self')
        == Qsum (map (fun i => Decimal.value (OrderItem.line_subtotal i)) (lines_of self db)))%Q
    /\ (Decimal.value (Order.shipping_total self')
        == Qsum (map (fun i => Decimal.value (OrderItem.line_shipping_amount i))
                   (lines_of self db)))%Q
    /\ (Decimal.value (Order.install_total self')
        == Qsum (map (fun i => Decimal.value (OrderItem.line_install_amount i))
                   (lines_of self db)))%Q
    /\ (Decimal.value (Order.tax_total self') == 0)%Q
    /\ (Decimal.value (Order.grand_total self')
        == Decimal.value (Order.subtotal self') + Decimal.value (Order.shipping_total self')
           + Decimal.value (Order.install_total self') + Decimal.value (Order.permit_total self')
           + Decimal.value (Order.tax_total self'))%Q.
Proof.
  unfold recalc_totals, Order_items, bind, get_db, ret. fold (lines_of self db).
  destruct (fold_left recalc_totals_step (lines_of self db)
              (Decimal.zero_00, Decimal.zero_00, Decimal.zero_00))
    as [[a b] c] eqn:Hfold.
  apply recalc_totals_fold in Hfold. destruct Hfold as (Ha & Hb & Hc).
  rewrite value_zero_00 in Ha, Hb, Hc.
  eexists. split; [reflexivity|].
  cbn [Order.set_totals Order.id Order.zip_code Order.zip_location Order.permit_total
       Order.subtotal Order.shipping_total Order.install_total Order.tax_total
       Order.grand_total].
  do 4 (split; [reflexivity|]).
  split; [rewrite Ha; ring|]. split; [rewrite Hb; ring|]. split; [rewrite Hc; ring|].
  split; [apply value_zero_00|]. rewrite !value_add. reflexivity.
Qed.

Lemma get_solo_run (db : DB) : get_solo db = (Ok (settings_row db), settings_created db).
Proof.
  unfold get_solo, settings_created, settings_row.
  destruct db as [[g|] zips orders items]; reflexivity.
Qed.

Lemma _get_hourly_rate_run (sa : ServiceArea.t) (db : DB) :
  _get_hourly_rate sa db = (Ok (hourly_rate db), settings_created db).
Proof. unfold _get_hourly_rate, bind. rewrite get_solo_run. reflexivity. Qed.

Lemma get_pool_permit_charge_run (sa : ServiceArea.t) (db : DB) :
  get_pool_permit_charge sa db
  = (Ok (Decimal.add
           (Decimal.or_ (ServiceArea.permit_pool_fee_base sa) Decimal.zero_00)
           (Decimal.mul
              (Decimal.or_ (ServiceArea.permit_pool_labor_hours sa) Decimal.zero_00)
              (hourly_rate db))),
     settings_created db).
Proof. unfold get_pool_permit_charge, bind. rewrite _get_hourly_rate_run. reflexivity. Qed.

Lemma get_accessory_permit_charge_run (sa : ServiceArea.t) (db : DB) :
  get_accessory_permit_charge sa db
  = (Ok (Decimal.add
           (Decimal.or_ (ServiceArea.permit_accessory_fee_base sa) Decimal.zero_00)
           (Decimal.mul
              (Decimal.or_ (ServiceArea.permit_accessory_labor_hours sa) Decimal.zero_00)
              (hourly_rate db))),
     settings_created db).
Proof. unfold get_accessory_permit_charge, bind. rewrite _get_hourly_rate_run. reflexivity. Qed.

(** The permit block never raises, writes at most the settings row, and its
    result depends on the database through the hourly rate only. *)
Lemma permit_total_for_run (sa : option ServiceArea.t) (hp ha : bool) (db : DB) :
  exists p db3,
    permit_total_for sa hp ha db = (Ok p, db3)
    /\ (db3 = db \/ db3 = settings_created db)
    /\ forall db0, hourly_rate db0 = hourly_rate db ->
         fst (permit_total_for sa hp ha db0) = Ok p.
Proof.
  unfold permit_total_for, bind, ret.
  destruct sa as [sa|]; [destruct hp; [|destruct ha]|].
  - rewrite get_pool_permit_charge_run. eexists _, _.
    split; [reflexivity|]. split; [now right|].
    intros db0 Hrate. rewrite get_pool_permit_charge_run, Hrate. reflexivity.
  - rewrite get_accessory_permit_charge_run. eexists _, _.
    split; [reflexivity|]. split; [now right|].
    intros db0 Hrate. rewrite get_accessory_permit_charge_run, Hrate. reflexivity.
  - eexists _, _. split; [reflexivity|]. split; [now left|]. reflexivity.
  - eexists _, _. split; [reflexivity|]. split; [now left|]. reflexivity.
Qed.

(** [calculate_distance] writes the settings row and nothing else. *)
Lemma calculate_distance_db (self : Order.t) (zo : option string) (db db1 : DB)
    (r : result (option float)) :
  calculate_distance self zo db = (r, db1) -> db1 = settings_created db.
Proof.
  unfold calculate_distance, bind, ZipLocation_first, get_db, ret, lift.
  rewrite get_solo_run.
  repeat (cbn -[haversine_miles settings_created]; case_scrutinee);
    cbn -[haversine_miles settings_created]; intros [= _ <-]; reflexivity.
Qed.

(** Without an override, [calculate_distance] depends on the order and the
    database through the settings row, the ZIP table and the customer's
    location only. *)
Lemma calculate_distance_ext (self self2 : Order.t) (db db2 : DB) :
  settings_row db2 = settings_row db ->
  ZipLocation_objects db2 = ZipLocation_objects db ->
  customer_location self2 db2 = customer_location self db ->
  fst (calculate_distance self2 None db2) = fst (calculate_distance self None db).
Proof.
  intros Hrow Hzip Hloc.
  assert (Hshape : forall (o : Order.t) (d : DB),
    fst (calculate_distance o None d)
    = match ZipLocation_objects d !! GlobalSettings.base_zip_code (settings_row d),
            customer_location o d with
      | Some base_loc, Some customer_loc =>
          match ZipLocation.latitude base_loc, ZipLocation.latitude customer_loc with
          | Some _, Some _ =>
              match haversine_miles (ZipLocation.latitude base_loc)
                      (ZipLocation.longitude base_loc)
                      (ZipLocation.latitude customer_loc)
                      (ZipLocation.longitude customer_loc) with
              | Ok x => Ok (Some x)
              | Raise e => Raise e
              end
          | _, _ => Ok None
          end
      | _, _ => Ok None
      end).
  { intros o d. unfold calculate_distance, bind, ZipLocation_first, get_db, ret, lift,
      customer_location.
    rewrite get_solo_run.
    repeat (cbn -[haversine_miles]; case_scrutinee); reflexivity. }
  rewrite !Hshape, Hrow, Hzip, Hloc. reflexivity.
Qed.

Lemma resolve_distance_db (self : Order.t) (d : option number) (db db1 : DB)
    (r : result number) :
  resolve_distance self d db = (r, db1) -> db1 = db \/ db1 = settings_created db.
Proof.
  destruct d as [d|]; cbn.
  - intros [= _ <-]. now left.
  - unfold bind. destruct (calculate_distance self None db) as [[[x|]|e] db0] eqn:Hcd;
      apply calculate_distance_db in Hcd; subst db0; intros [= _ <-]; now right.
Qed.

Lemma ZipLocation_first_run (z : string) (db : DB) :
  ZipLocation_first z db = (Ok (ZipLocation_objects db !! z), db).
Proof. reflexivity. Qed.

Lemma Order_items_run (self : Order.t) (db : DB) :
  Order_items self db = (Ok (lines_of self db), db).
Proof. reflexivity. Qed.

Lemma set_zip_location_same (o : Order.t) (z : option ZipLocation.t) :
  Order.zip_location o = z -> Order.set_zip_location z o = o.
Proof. intros <-. destruct o; reflexivity. Qed.

(** The county block never raises; it returns the service area of the
    order's location as it leaves it, and writes the order row only. *)
Lemma resolve_service_area_run (self : Order.t) (db : DB) :
  exists self1 db2,
    resolve_service_area self db = (Ok (service_area_of self1, self1), db2)
    /\ Order.id self1 = Order.id self
    /\ Order.zip_code self1 = Order.zip_code self
    /\ GlobalSettings_objects db2 = GlobalSettings_objects db
    /\ ZipLocation_objects db2 = ZipLocation_objects db
    /\ OrderItem_objects db2 = OrderItem_objects db
    /\ (self1 = self
        \/ exists z, service_area_of self = None
                     /\ str_truthy (Order.zip_code self) = true
                     /\ ZipLocation_objects db !! Order.zip_code self = Some z
                     /\ self1 = Order.set_zip_location (Some z) self).
Proof.
  unfold resolve_service_area. fold (service_area_of self).
  destruct (service_area_of self) as [sa|] eqn:Hsa.
  { exists self, db. rewrite Hsa. cbn. repeat split; auto. }
  destruct (str_truthy (Order.zip_code self)) eqn:Hzc; cycle 1.
  { exists self, db. rewrite Hsa. cbn. repeat split; auto. }
  unfold bind. rewrite ZipLocation_first_run.
  destruct (ZipLocation_objects db !! Order.zip_code self) as [z|] eqn:Hz; cycle 1.
  { exists self, db. rewrite Hsa. cbn. repeat split; auto. }
  eexists (Order.set_zip_location (Some z) self), _.
  split; [reflexivity|]. cbn. repeat split; eauto 10.
Qed.

(** Run again on an order that kept the location and the ZIP code, the
    county block finds the same service area and leaves the order as is. *)
Lemma resolve_service_area_again (self self1 : Order.t) (db db2 : DB)
    (sa : option ServiceArea.t) :
  resolve_service_area self db = (Ok (sa, self1), db2) ->
  forall (o : Order.t) (dbB : DB),
    Order.zip_location o = Order.zip_location self1 ->
    Order.zip_code o = Order.zip_code self1 ->
    ZipLocation_objects dbB = ZipLocation_objects db ->
    exists dbB2,
      resolve_service_area o dbB = (Ok (sa, o), dbB2)
      /\ GlobalSettings_objects dbB2 = GlobalSettings_objects dbB
      /\ ZipLocation_objects dbB2 = ZipLocation_objects dbB
      /\ OrderItem_objects dbB2 = OrderItem_objects dbB.
Proof.
  intros Hrun o dbB Hzl Hzc Hzips.
  destruct (resolve_service_area_run self db)
    as (s1 & d2 & Hrun' & _ & Hzc1 & _ & _ & _ & Hcase).
  rewrite Hrun in Hrun'. injection Hrun' as -> -> ->.
  unfold resolve_service_area at 1. fold (service_area_of o).
  assert (Hsao : service_area_of o = service_area_of s1)
    by (unfold service_area_of; now rewrite Hzl).
  rewrite Hsao.
  destruct (service_area_of s1) as [a|] eqn:Hsa1.
  { exists dbB. repeat split; auto. }
  rewrite Hzc, Hzc1.
  destruct Hcase as [-> | (z & Hsa & Htr & Hz & ->)].
  - unfold resolve_service_area in Hrun. fold (service_area_of self) in Hrun.
    rewrite Hsa1 in Hrun.
    destruct (str_truthy (Order.zip_code self)) eqn:Htr; cycle 1.
    { exists dbB. repeat split; auto. }
    unfold bind in *. rewrite ZipLocation_first_run in *. rewrite Hzips.
    destruct (ZipLocation_objects db !! Order.zip_code self) as [z|] eqn:Hz; cycle 1.
    { exists dbB. repeat split; auto. }
    (* the first run re-linked the order, and yet returned it as it was *)
    injection Hrun as Hsaz Hself _.
    assert (Hzlo : Order.zip_location o = Some z)
      by (rewrite Hzl, <- Hself; reflexivity).
    rewrite (set_zip_location_same o (Some z) Hzlo).
    unfold Order_save, modify_db, ret. rewrite Hsaz.
    eexists. split; [reflexivity|]. cbn. repeat split; auto.
  - rewrite Htr. unfold bind. rewrite ZipLocation_first_run, Hzips, Hz.
    assert (Hzlo : Order.zip_location o = Some z) by (rewrite Hzl; reflexivity).
    assert (Hsz : ZipLocation.service_area z = None) by exact Hsa1.
    rewrite (set_zip_location_same o (Some z) Hzlo).
    unfold Order_save, modify_db, ret. rewrite Hsz.
    eexists. split; [reflexivity|]. cbn. repeat split; auto.
Qed.

Lemma lines_saved (m : gmap Z (list OrderItem.t)) (k : Z) (f : OrderItem.t -> OrderItem.t) :
  default [] (alter (fun _ => map f (default [] (m !! k))) k m !! k)
  = map f (default [] (m !! k)).
Proof. rewrite lookup_alter_eq. destruct (m !! k); reflexivity. Qed.

(** [recalc_totals] depends on the order and the database through the
    stored lines and [permit_total] only. *)
Lemma recalc_totals_ext (o1 o2 o2' : Order.t) (d1 d2 d2' : DB) :
  lines_of o1 d1 = lines_of o2 d2 ->
  Order.permit_total o1 = Order.permit_total o2 ->
  recalc_totals o2 d2 = (Ok o2', d2') ->
  recalc_totals o1 d1
  = (Ok (Order.set_totals (Order.subtotal o2') (Order.shipping_total o2')
           (Order.install_total o2') (Order.permit_total o2') (Order.tax_total o2')
           (Order.grand_total o2') o1), d1).
Proof.
  intros Hlines Hpermit. unfold recalc_totals, bind. rewrite !Order_items_run, Hlines, Hpermit.
  destruct (fold_left recalc_totals_step (lines_of o2 d2)
              (Decimal.zero_00, Decimal.zero_00, Decimal.zero_00)) as [[a b] c].
  unfold ret. intros [= <- _]. reflexivity.
Qed.

Lemma hourly_rate_settings (db db0 : DB) :
  GlobalSettings_objects db0 = GlobalSettings_objects db -> hourly_rate db0 = hourly_rate db.
Proof. unfold hourly_rate, settings_row. now intros ->. Qed.

Lemma hourly_rate_row (db db0 : DB) :
  settings_row db0 = settings_row db -> hourly_rate db0 = hourly_rate db.
Proof. unfold hourly_rate. now intros ->. Qed.

(** Once the distance is resolved, [apply_pricing] returns.  The lemma
    names what each block of the method contributed. *)
Lemma apply_pricing_run (self : Order.t) (d : option number) (db db1 : DB) (dist : number) :
  resolve_distance self d db = (Ok dist, db1) ->
  let items := lines_of self db1 in
  let hp := has_pool_install items in
  let ha := has_accessory_install items in
  let items' := map (apply_pricing_line dist hp) items in
  exists self1 db2 permit self' db',
    apply_pricing self d db = (Ok self', db')
    /\ resolve_service_area self db1 = (Ok (service_area_of self1, self1), db2)
    /\ (forall db0, hourly_rate db0 = hourly_rate db1 ->
          fst (permit_total_for (service_area_of self1) hp ha db0) = Ok permit)
    /\ (exists db3, recalc_totals (Order.set_permit_total permit self1) db3 = (Ok self', db3)
                    /\ lines_of (Order.set_permit_total permit self1) db3 = items')
    /\ lines_of self' db' = items'
    /\ Order.id self' = Order.id self
    /\ Order.zip_code self' = Order.zip_code self
    /\ Order.zip_location self' = Order.zip_location self1
    /\ Order.permit_total self' = permit
    /\ settings_row db' = settings_row db1
    /\ ZipLocation_objects db' = ZipLocation_objects db1.
Proof.
  intros Hdist items hp ha items'.
  destruct (resolve_service_area_run self db1)
    as (self1 & db2 & Hrsa & Hid & Hzc & Hgs & Hzips & Hitems & _).
  pose (dbi := set_OrderItem_objects
                 (alter (fun _ => items') (Order.id self1) (OrderItem_objects db2)) db2).
  destruct (permit_total_for_run (service_area_of self1) hp ha dbi)
    as (permit & db3 & Hp & Hdb3 & Hext).
  destruct (recalc_totals_run (Order.set_permit_total permit self1) db3)
    as (self' & Hrec & Hid' & Hzc' & Hzl' & Hpt' & _).
  cbn [Order.id Order.zip_code Order.zip_location Order.permit_total
       Order.set_permit_total] in Hid', Hzc', Hzl', Hpt'.
  assert (Hrate : hourly_rate dbi = hourly_rate db1)
    by (apply hourly_rate_settings; exact Hgs).
  assert (Hlines3 : lines_of (Order.set_permit_total permit self1) db3 = items').
  { unfold lines_of.
    assert (Hoi : OrderItem_objects db3 = OrderItem_objects dbi)
      by (destruct Hdb3 as [-> | ->]; reflexivity).
    rewrite Hoi. cbn [Order.id Order.set_permit_total dbi set_OrderItem_objects
                      OrderItem_objects].
    rewrite Hitems, Hid. apply lines_saved. }
  exists self1, db2, permit, self'.
  eexists. split.
  { unfold apply_pricing, bind. rewrite Hdist, Order_items_run, Hrsa.
    cbn [fst snd]. unfold OrderItem_save_all, modify_db.
    fold items. fold hp. fold ha. fold items'. fold dbi.
    rewrite Hp, Hrec. reflexivity. }
  split; [exact Hrsa|].
  split; [intros db0 Hdb0; apply Hext; congruence|].
  split; [exists db3; split; [exact Hrec | exact Hlines3]|].
  split.
  { unfold lines_of in *. cbn [Order.id Order.set_permit_total] in *.
    rewrite Hid'. exact Hlines3. }
  split; [congruence|]. split; [congruence|].
  split; [exact Hzl'|]. split; [exact Hpt'|].
  assert (Hgs3 : settings_row db3 = settings_row db1).
  { destruct Hdb3 as [-> | ->]; unfold settings_row; cbn; now rewrite Hgs. }
  assert (Hz3 : ZipLocation_objects db3 = ZipLocation_objects db1).
  { destruct Hdb3 as [-> | ->]; cbn; exact Hzips. }
  split; [exact Hgs3 | exact Hz3].
Qed.

(** What [apply_pricing] returned, it returned from a resolved distance. *)
Lemma apply_pricing_Ok_distance (self self' : Order.t) (d : option number) (db db' : DB) :
  apply_pricing self d db = (Ok self', db') ->
  exists dist db1, resolve_distance self d db = (Ok dist, db1).
Proof.
  unfold apply_pricing. intros Hrun. apply bind_Ok_inv in Hrun.
  destruct Hrun as (dist & db1 & Hdist & _). eauto.
Qed.

Lemma resolve_distance_reads (self : Order.t) (d : option number) (db db1 : DB)
    (r : result number) :
  resolve_distance self d db = (r, db1) ->
  OrderItem_objects db1 = OrderItem_objects db
  /\ ZipLocation_objects db1 = ZipLocation_objects db
  /\ settings_row db1 = settings_row db.
Proof.
  intros Hrun. apply resolve_distance_db in Hrun. destruct Hrun as [-> | ->]; auto.
Qed.

(** The stored lines after [apply_pricing]: each line of the order, priced
    by the loop body at the resolved distance. *)
Lemma apply_pricing_lines (self self' : Order.t) (d : option number) (db db' : DB) :
  apply_pricing self d db = (Ok self', db') ->
  exists dist db1,
    resolve_distance self d db = (Ok dist, db1)
    /\ lines_of self' db'
       = map (apply_pricing_line dist (has_pool_install (lines_of self db)))
           (lines_of self db).
Proof.
  intros Hrun. destruct (apply_pricing_Ok_distance _ _ _ _ _ Hrun) as (dist & db1 & Hdist).
  exists dist, db1. split; [exact Hdist|].
  destruct (apply_pricing_run _ _ _ _ _ Hdist)
    as (self1 & db2 & permit & s' & d' & Hrun' & _ & _ & _ & Hlines & _).
  rewrite Hrun in Hrun'. injection Hrun' as <- <-.
  destruct (resolve_distance_reads _ _ _ _ _ Hdist) as (Hoi & _).
  assert (Hl : lines_of self db1 = lines_of self db) by (unfold lines_of; now rewrite Hoi).
  rewrite Hlines, Hl. reflexivity.
Qed.

(** The permit total after [apply_pricing]: the permit block, run for the
    service area of the order's location and the hourly rate. *)
Lemma apply_pricing_permit (self self' : Order.t) (d : option number) (db db' : DB) :
  apply_pricing self d db = (Ok self', db') ->
  fst (permit_total_for (service_area_of self')
         (has_pool_install (lines_of self db))
         (has_accessory_install (lines_of self db)) db)
  = Ok (Order.permit_total self').
Proof.
  intros Hrun. destruct (apply_pricing_Ok_distance _ _ _ _ _ Hrun) as (dist & db1 & Hdist).
  destruct (apply_pricing_run _ _ _ _ _ Hdist)
    as (self1 & db2 & permit & s' & d' & Hrun' & _ & Hpermit & _ & _ & _ & _ & Hzl & Hpt & _).
  rewrite Hrun in Hrun'. injection Hrun' as <- <-.
  destruct (resolve_distance_reads _ _ _ _ _ Hdist) as (Hoi & _ & Hrow).
  assert (Hl : lines_of self db1 = lines_of self db) by (unfold lines_of; now rewrite Hoi).
  assert (Hsa : service_area_of self' = service_area_of self1)
    by (unfold service_area_of; now rewrite Hzl).
  rewrite Hsa, <- Hl, Hpt. apply Hpermit. symmetry. apply hourly_rate_row. exact Hrow.
Qed.

Lemma has_pool_install_true (items : list OrderItem.t) :
  has_pool_install items = true
  <-> exists item, In item items /\ OrderItem.pool_variant item <> None
                   /\ OrderItem.install_selected item = true.
Proof.
  unfold has_pool_install. rewrite existsb_exists. split.
  - intros (item & Hin & Hsel). exists item. split; [exact Hin|].
    destruct (OrderItem.pool_variant item); [auto|discriminate].
  - intros (item & Hin & Hpv & Hsel). exists item. split; [exact Hin|].
    destruct (OrderItem.pool_variant item); [exact Hsel|congruence].
Qed.

Lemma has_accessory_install_true (items : list OrderItem.t) :
  has_accessory_install items = true
  <-> exists item, In item items /\ OrderItem.store_item item <> None
                   /\ OrderItem.install_selected item = true.
Proof.
  unfold has_accessory_install. rewrite existsb_exists. split.
  - intros (item & Hin & Hsel). exists item. split; [exact Hin|].
    destruct (OrderItem.store_item item); [auto|discriminate].
  - intros (item & Hin & Hsi & Hsel). exists item. split; [exact Hin|].
    destruct (OrderItem.store_item item); [exact Hsel|congruence].
Qed.

(** The value of the permit block in each of its four cases. *)
Lemma permit_total_for_pool (sa : ServiceArea.t) (ha : bool) (db : DB) (p : Decimal.t) :
  fst (permit_total_for (Some sa) true ha db) = Ok p ->
  (Decimal.value p
   == Decimal.value (ServiceArea.permit_pool_fee_base sa)
      + Decimal.value (ServiceArea.permit_pool_labor_hours sa)
        * Decimal.value (hourly_rate db))%Q.
Proof.
  unfold permit_total_for, bind. rewrite get_pool_permit_charge_run. cbn [fst ret].
  intros [= <-].
  rewrite !value_add, value_mul, !value_or_zero_00, value_zero_00. ring.
Qed.

Lemma permit_total_for_accessory (sa : ServiceArea.t) (db : DB) (p : Decimal.t) :
  fst (permit_total_for (Some sa) false true db) = Ok p ->
  (Decimal.value p
   == Decimal.value (ServiceArea.permit_accessory_fee_base sa)
      + Decimal.value (ServiceArea.permit_accessory_labor_hours sa)
        * Decimal.value (hourly_rate db))%Q.
Proof.
  unfold permit_total_for, bind. rewrite get_accessory_permit_charge_run. cbn [fst ret].
  intros [= <-].
  rewrite !value_add, value_mul, !value_or_zero_00, value_zero_00. ring.
Qed.

Lemma permit_total_for_none (sa : option ServiceArea.t) (hp ha : bool) (db : DB)
    (p : Decimal.t) :
  sa = None \/ (hp = false /\ ha = false) ->
  fst (permit_total_for sa hp ha db) = Ok p ->
  (Decimal.value p == 0)%Q.
Proof.
  intros [-> | [-> ->]]; [|destruct sa]; cbn; intros [= <-]; apply value_zero_00.
Qed.

End Runs.

(** ** Order totals *)

Section Totals.
Context {platform : PyMath}.
Local Open Scope Q_scope.

(** C1.  After [apply_pricing], [subtotal], [shipping_total] and
    [install_total] are the sums of [line_subtotal], [line_shipping_amount]
    and [line_install_amount] over the order's lines, [tax_total] is 0 and
    [grand_total] is [subtotal + shipping_total + install_total +
    permit_total + tax_total]. *)
Theorem apply_pricing_totals (self : Order.t) (d : option number) (db : DB)
    (self' : Order.t) (db' : DB) :
  apply_pricing self d db = (Ok self', db') ->
  let lines := lines_of self' db' in
  Decimal.value (Order.subtotal self')
  == Qsum (map (fun i => Decimal.value (OrderItem.line_subtotal i)) lines)
  /\ Decimal.value (Order.shipping_total self')
     == Qsum (map (fun i => Decimal.value (OrderItem.line_shipping_amount i)) lines)
  /\ Decimal.value (Order.install_total self')
     == Qsum (map (fun i => Decimal.value (OrderItem.line_install_amount i)) lines)
  /\ Decimal.value (Order.tax_total self') == 0
  /\ Decimal.value (Order.grand_total self')
     == Decimal.value (Order.subtotal self') + Decimal.value (Order.shipping_total self')
        + Decimal.value (Order.install_total self') + Decimal.value (Order.permit_total self')
        + Decimal.value (Order.tax_total self').
Proof.
  intros Hrun lines.
  destruct (apply_pricing_Ok_distance _ _ _ _ _ Hrun) as (dist & db1 & Hdist).
  destruct (apply_pricing_run _ _ _ _ _ Hdist)
    as (self1 & db2 & permit & s' & d' & Hrun' & _ & _ & (db3 & Hrec & Hlines3) & Hlines & _).
  rewrite Hrun in Hrun'. injection Hrun' as <- <-.
  destruct (recalc_totals_run (Order.set_permit_total permit self1) db3)
    as (s'' & Hrec' & _ & _ & _ & _ & Hsub & Hship & Hinst & Htax & Hgrand).
  rewrite Hrec in Hrec'. injection Hrec' as <-.
  unfold lines. rewrite Hlines, <- Hlines3. auto.
Qed.

End Totals.

(** Order 7 at 80 miles: a pool with install (4999.00, install 1690.00) and
    two pumps (998.00), shipping free throughout, pool permit 100.00. *)
Lemma apply_pricing_totals_witness :
  exists self' db',
    apply_pricing (platform:=example_math) order_7 (Some (PyInt 80)) db_7 = (Ok self', db')
    /\ (Decimal.value (Order.subtotal self') == 5997)%Q
    /\ (Decimal.value (Order.shipping_total self') == 0)%Q
    /\ (Decimal.value (Order.install_total self') == 1690)%Q
    /\ (Decimal.value (Order.permit_total self') == 100)%Q
    /\ (Decimal.value (Order.grand_total self')
        == Decimal.value (Order.subtotal self') + Decimal.value (Order.shipping_total self')
           + Decimal.value (Order.install_total self')
           + Decimal.value (Order.permit_total self')
           + Decimal.value (Order.tax_total self'))%Q.
Proof.
  destruct (apply_pricing_run (platform:=example_math) order_7 (Some (PyInt 80)) db_7 db_7 (PyInt 80)
              eq_refl)
    as (self1 & db2 & permit & self' & db' & Hrun & _).
  exists self', db'. split; [exact Hrun|].
  pose proof (apply_pricing_totals (platform:=example_math) _ _ _ _ _ Hrun) as Htotals.
  cbv zeta in Htotals. destruct Htotals as (_ & _ & _ & _ & Hgrand).
  vm_compute in Hrun. injection Hrun as <- <-.
  do 4 (split; [vm_compute; reflexivity|]). exact Hgrand.
Defined.

(** ** The pricing of one line *)

Section Lines.
Context {platform : PyMath}.
Local Open Scope Q_scope.

Lemma lookup_map {A B : Type} (f : A -> B) (l : list A) (i : nat) :
  map f l !! i = f <$> l !! i.
Proof.
  revert i. induction l as [|a l IH]; intros [|i]; cbn; auto.
Qed.

(** The loop body keeps what identifies the line and what the customer
    chose. *)
Lemma apply_pricing_line_keeps (dist : number) (hp : bool) (item : OrderItem.t) :
  OrderItem.pool_variant (apply_pricing_line dist hp item) = OrderItem.pool_variant item
  /\ OrderItem.store_item (apply_pricing_line dist hp item) = OrderItem.store_item item
  /\ OrderItem.quantity (apply_pricing_line dist hp item) = OrderItem.quantity item
  /\ OrderItem.install_selected (apply_pricing_line dist hp item)
     = OrderItem.install_selected item.
Proof. destruct item. cbn. auto. Qed.

(** A line with neither a pool variant nor a store item is priced as
    zero. *)
Lemma apply_pricing_line_no_priceable (dist : number) (hp : bool) (item : OrderItem.t) :
  OrderItem.pool_variant item = None ->
  OrderItem.store_item item = None ->
  let item' := apply_pricing_line dist hp item in
  OrderItem.unit_price item' = Decimal.zero_00
  /\ Decimal.value (OrderItem.line_subtotal item') == 0
  /\ Decimal.value (OrderItem.line_install_amount item') == 0
  /\ Decimal.value (OrderItem.line_shipping_amount item') == 0.
Proof.
  destruct item as [pv si q up ls sel lin lsh]. cbn [OrderItem.pool_variant OrderItem.store_item].
  intros -> ->. cbn -[Decimal.value Decimal.mul].
  split; [reflexivity|].
  split; [apply value_mul_zero_l, value_zero_00|].
  split; [destruct sel|]; try apply value_mul_zero_l; apply value_zero_00.
Qed.

(** With a pool install in the order, a line whose shipping group is free
    with install ships for 0, whether or not its own install is selected. *)
Lemma apply_pricing_line_free_shipping (dist : number) (item : OrderItem.t)
    (sg : ShippingGroup.t) :
  ((exists pv, OrderItem.pool_variant item = Some pv
               /\ PoolVariant.shipping_group pv = Some sg)
   \/ (OrderItem.pool_variant item = None
       /\ exists si, OrderItem.store_item item = Some si
                     /\ StoreItem.shipping_group si = Some sg)) ->
  ShippingGroup.free_with_install sg = true ->
  Decimal.value (OrderItem.line_shipping_amount (apply_pricing_line dist true item)) == 0.
Proof.
  destruct item as [pv si q up ls sel lin lsh].
  cbn [OrderItem.pool_variant OrderItem.store_item].
  intros [(pv0 & -> & Hsg) | (-> & si0 & -> & Hsg)] Hfree;
    cbn -[Decimal.value Decimal.mul ShippingGroup.estimate_cost];
    unfold PoolVariant.estimate_shipping_cost, StoreItem.estimate_shipping_cost;
    rewrite Hsg; cbn -[Decimal.value Decimal.mul ShippingGroup.estimate_cost];
    apply value_mul_zero_l;
    unfold ShippingGroup.estimate_cost; rewrite Hfree; destruct sel;
    cbn -[Decimal.value]; apply value_zero_00.
Qed.

(** A selected install on a store item that is not installable costs 0. *)
Lemma apply_pricing_line_not_installable (dist : number) (hp : bool) (item : OrderItem.t)
    (si : StoreItem.t) :
  OrderItem.pool_variant item = None ->
  OrderItem.store_item item = Some si ->
  StoreItem.is_installable si = false ->
  Decimal.value (OrderItem.line_install_amount (apply_pricing_line dist hp item)) == 0.
Proof.
  destruct item as [pv si0 q up ls sel lin lsh].
  cbn [OrderItem.pool_variant OrderItem.store_item].
  intros -> -> Hinst. cbn -[Decimal.value Decimal.mul StoreItem.estimate_install_cost].
  destruct sel; [|apply value_zero_00].
  apply value_mul_zero_l. unfold StoreItem.estimate_install_cost. rewrite Hinst.
  apply value_zero_00.
Qed.

End Lines.

(** ** Permit total *)

Section Permit.
Context {platform : PyMath}.
Local Open Scope Q_scope.

(** C2.  Once the distance is resolved, [apply_pricing] returns, with or
    without a service area.  The permit total is set once for the order:
    with a service area resolved, it is the pool permit charge (pool base fee
    plus pool labor hours times the hourly rate) when a line with a pool
    variant has install selected, whatever the accessory lines; else the
    accessory permit charge when a line with a store item has install
    selected; else 0.  With no service area resolved it is 0. *)
Theorem apply_pricing_permit_total (self : Order.t) (d : option number) (db db1 : DB)
    (dist : number) :
  resolve_distance self d db = (Ok dist, db1) ->
  let items := lines_of self db in
  let pool :=
    exists item, In item items /\ OrderItem.pool_variant item <> None
                 /\ OrderItem.install_selected item = true in
  let accessory :=
    exists item, In item items /\ OrderItem.store_item item <> None
                 /\ OrderItem.install_selected item = true in
  exists self' db',
    apply_pricing self d db = (Ok self', db')
    /\ (exists self1 db2,
          resolve_service_area self db1 = (Ok (service_area_of self', self1), db2))
    /\ match service_area_of self' with
       | Some sa =>
           (pool ->
            Decimal.value (Order.permit_total self')
            == Decimal.value (ServiceArea.permit_pool_fee_base sa)
               + Decimal.value (ServiceArea.permit_pool_labor_hours sa)
                 * Decimal.value (hourly_rate db))
           /\ (~ pool -> accessory ->
               Decimal.value (Order.permit_total self')
               == Decimal.value (ServiceArea.permit_accessory_fee_base sa)
                  + Decimal.value (ServiceArea.permit_accessory_labor_hours sa)
                    * Decimal.value (hourly_rate db))
           /\ (~ pool -> ~ accessory -> Decimal.value (Order.permit_total self') == 0)
       | None => Decimal.value (Order.permit_total self') == 0
       end.
Proof.
  intros Hdist items pool accessory.
  destruct (apply_pricing_run _ _ _ _ _ Hdist)
    as (self1 & db2 & permit & self' & db' & Hrun & Hrsa & _ & _ & _ & _ & _ & Hzl & _).
  exists self', db'. split; [exact Hrun|].
  assert (Hsa : service_area_of self' = service_area_of self1)
    by (unfold service_area_of; now rewrite Hzl).
  split; [exists self1, db2; now rewrite Hsa|].
  pose proof (apply_pricing_permit _ _ _ _ _ Hrun) as Hpermit. fold items in Hpermit.
  pose proof (has_pool_install_true items) as Hpool. fold pool in Hpool.
  pose proof (has_accessory_install_true items) as Hacc. fold accessory in Hacc.
  destruct (service_area_of self') as [sa|].
  - split; [|split].
    + intros Hp. apply Hpool in Hp. rewrite Hp in Hpermit.
      exact (permit_total_for_pool _ _ _ _ Hpermit).
    + intros Hnp Ha. apply Hacc in Ha.
      destruct (has_pool_install items); [exfalso; apply Hnp, Hpool; reflexivity|].
      rewrite Ha in Hpermit. exact (permit_total_for_accessory _ _ _ Hpermit).
    + intros Hnp Hna.
      destruct (has_pool_install items); [exfalso; apply Hnp, Hpool; reflexivity|].
      destruct (has_accessory_install items); [exfalso; apply Hna, Hacc; reflexivity|].
      apply (permit_total_for_none _ _ _ _ _ (or_intror (conj eq_refl eq_refl)) Hpermit).
  - apply (permit_total_for_none _ _ _ _ _ (or_introl eq_refl) Hpermit).
Qed.

(** C10.  The permit fee follows the [install_selected] flag, not install
    eligibility: when the only line with install selected names a store item
    that is not installable, that line's install amount is 0 and the permit
    total is the full accessory permit charge of the resolved service
    area. *)
Theorem apply_pricing_permit_for_not_installable (self : Order.t) (d : option number)
    (db : DB) (self' : Order.t) (db' : DB) (sa : ServiceArea.t) (i : nat)
    (item : OrderItem.t) (si : StoreItem.t) :
  apply_pricing self d db = (Ok self', db') ->
  service_area_of self' = Some sa ->
  lines_of self db !! i = Some item ->
  OrderItem.pool_variant item = None ->
  OrderItem.store_item item = Some si ->
  StoreItem.is_installable si = false ->
  OrderItem.install_selected item = true ->
  (forall j other, j <> i -> lines_of self db !! j = Some other ->
                   OrderItem.install_selected other = false) ->
  (exists item', lines_of self' db' !! i = Some item'
                 /\ OrderItem.install_selected item' = true
                 /\ Decimal.value (OrderItem.line_install_amount item') == 0)
  /\ Decimal.value (Order.permit_total self')
     == Decimal.value (ServiceArea.permit_accessory_fee_base sa)
        + Decimal.value (ServiceArea.permit_accessory_labor_hours sa)
          * Decimal.value (hourly_rate db).
Proof.
  intros Hrun Hsa Hi Hpv Hsi Hinst Hsel Hothers.
  destruct (apply_pricing_lines _ _ _ _ _ Hrun) as (dist & db1 & _ & Hlines).
  split.
  - eexists. rewrite Hlines, lookup_map, Hi. split; [reflexivity|]. split.
    + destruct (apply_pricing_line_keeps dist (has_pool_install (lines_of self db)) item)
        as (_ & _ & _ & ->). exact Hsel.
    + apply (apply_pricing_line_not_installable _ _ _ si); assumption.
  - pose proof (apply_pricing_permit _ _ _ _ _ Hrun) as Hpermit. rewrite Hsa in Hpermit.
    assert (Hnp : has_pool_install (lines_of self db) = false).
    { destruct (has_pool_install (lines_of self db)) eqn:Hp; [|reflexivity].
      apply has_pool_install_true in Hp. destruct Hp as (p & Hin & Hpvp & Hselp).
      apply list_elem_of_In, list_elem_of_lookup in Hin. destruct Hin as (j & Hj).
      destruct (Nat.eq_dec j i) as [-> | Hne].
      - rewrite Hi in Hj. injection Hj as <-. congruence.
      - rewrite (Hothers j p Hne Hj) in Hselp. discriminate. }
    assert (Ha : has_accessory_install (lines_of self db) = true).
    { apply has_accessory_install_true. exists item. split; [|split].
      - apply list_elem_of_In, list_elem_of_lookup. eauto.
      - congruence.
      - exact Hsel. }
    rewrite Hnp, Ha in Hpermit. exact (permit_total_for_accessory _ _ _ Hpermit).
Qed.

End Permit.

(** Order 12 has a pool install and an accessory install: the permit total
    is the pool charge 50.00 + 2 * 25.00, neither the sum of both charges
    (150.00) nor the accessory charge (50.00). *)
Lemma apply_pricing_permit_total_witness :
  exists self' db',
    apply_pricing (platform:=example_math) order_12 (Some (PyInt 80)) db_12 = (Ok self', db')
    /\ service_area_of self' = Some marion
    /\ (Decimal.value (Order.permit_total self') == 100)%Q.
Proof.
  destruct (apply_pricing_permit_total (platform:=example_math) order_12 (Some (PyInt 80)) db_12
              db_12 (PyInt 80) eq_refl)
    as (self' & db' & Hrun & _ & Hcase).
  exists self', db'. split; [exact Hrun|].
  cbv zeta in Hcase. vm_compute in Hrun. injection Hrun as <- <-.
  split; [reflexivity|].
  change (service_area_of _) with (Some marion) in Hcase. cbv iota beta in Hcase.
  destruct Hcase as (Hpool & _). rewrite Hpool; [vm_compute; reflexivity|].
  eexists. split; [left; reflexivity|]. split; [discriminate|reflexivity].
Defined.

(** Order 10: install is selected on a pump that is not installable.  Its
    install amount is 0 and the permit total is the accessory charge
    25.00 + 1 * 25.00. *)
Lemma apply_pricing_permit_for_not_installable_witness :
  exists self' db',
    apply_pricing (platform:=example_math) order_10 (Some (PyInt 80)) db_10 = (Ok self', db')
    /\ (exists item', lines_of self' db' !! 0%nat = Some item'
                      /\ OrderItem.install_selected item' = true
                      /\ (Decimal.value (OrderItem.line_install_amount item') == 0)%Q)
    /\ (Decimal.value (Order.permit_total self') == 50)%Q.
Proof.
  destruct (apply_pricing_run (platform:=example_math) order_10 (Some (PyInt 80)) db_10 db_10
              (PyInt 80) eq_refl)
    as (self1 & db2 & permit & self' & db' & Hrun & _).
  exists self', db'. split; [exact Hrun|].
  assert (Hsa : service_area_of self' = Some marion)
    by (vm_compute in Hrun; injection Hrun as <- <-; reflexivity).
  destruct (apply_pricing_permit_for_not_installable (platform:=example_math) order_10
              (Some (PyInt 80)) db_10 self' db' marion 0%nat
              (new_line None (Some pump_no_install) 1 true) pump_no_install
              Hrun Hsa eq_refl eq_refl eq_refl eq_refl eq_refl)
    as (Hline & Hpermit).
  - intros [|[|j]] other Hne Hj; [congruence| |discriminate].
    injection Hj as <-. reflexivity.
  - split; [exact Hline|]. rewrite Hpermit. vm_compute. reflexivity.
Defined.

(** ** Shipping across lines, and lines without a priceable *)

Section LinePricing.
Context {platform : PyMath}.
Local Open Scope Q_scope.

(** C3.  When a line with a pool variant has install selected, every line
    of the order whose shipping group is free with install gets a
    [line_shipping_amount] of 0 from [apply_pricing], also when its own
    install is not selected. *)
Theorem apply_pricing_free_shipping_with_pool_install (self : Order.t) (d : option number)
    (db : DB) (self' : Order.t) (db' : DB) :
  apply_pricing self d db = (Ok self', db') ->
  (exists p, In p (lines_of self db) /\ OrderItem.pool_variant p <> None
             /\ OrderItem.install_selected p = true) ->
  forall (i : nat) (item : OrderItem.t) (sg : ShippingGroup.t),
    lines_of self db !! i = Some item ->
    ((exists pv, OrderItem.pool_variant item = Some pv
                 /\ PoolVariant.shipping_group pv = Some sg)
     \/ (OrderItem.pool_variant item = None
         /\ exists si, OrderItem.store_item item = Some si
                       /\ StoreItem.shipping_group si = Some sg)) ->
    ShippingGroup.free_with_install sg = true ->
    exists item',
      lines_of self' db' !! i = Some item'
      /\ OrderItem.install_selected item' = OrderItem.install_selected item
      /\ Decimal.value (OrderItem.line_shipping_amount item') == 0.
Proof.
  intros Hrun Hpool i item sg Hi Hsg Hfree.
  destruct (apply_pricing_lines _ _ _ _ _ Hrun) as (dist & db1 & _ & Hlines).
  apply has_pool_install_true in Hpool. rewrite Hpool in Hlines.
  eexists. rewrite Hlines, lookup_map, Hi. split; [reflexivity|]. split.
  - apply apply_pricing_line_keeps.
  - apply (apply_pricing_line_free_shipping dist item sg Hsg Hfree).
Qed.

(** C6, as the code has it.  A line that names neither a pool variant nor a
    store item raises nothing: once the distance is resolved [apply_pricing]
    returns, and it prices each such line as zero ([unit_price] 0.00, and a
    subtotal, install amount and shipping amount of 0). *)
Theorem apply_pricing_line_without_priceable (self : Order.t) (d : option number)
    (db db1 : DB) (dist : number) :
  resolve_distance self d db = (Ok dist, db1) ->
  exists self' db',
    apply_pricing self d db = (Ok self', db')
    /\ forall (i : nat) (item : OrderItem.t),
         lines_of self db !! i = Some item ->
         OrderItem.pool_variant item = None ->
         OrderItem.store_item item = None ->
         exists item',
           lines_of self' db' !! i = Some item'
           /\ OrderItem.unit_price item' = Decimal.zero_00
           /\ Decimal.value (OrderItem.line_subtotal item') == 0
           /\ Decimal.value (OrderItem.line_install_amount item') == 0
           /\ Decimal.value (OrderItem.line_shipping_amount item') == 0.
Proof.
  intros Hdist.
  destruct (apply_pricing_run _ _ _ _ _ Hdist)
    as (self1 & db2 & permit & self' & db' & Hrun & _).
  exists self', db'. split; [exact Hrun|].
  intros i item Hi Hpv Hsi.
  destruct (apply_pricing_lines _ _ _ _ _ Hrun) as (dist' & db1' & _ & Hlines).
  eexists. rewrite Hlines, lookup_map, Hi. split; [reflexivity|].
  apply apply_pricing_line_no_priceable; assumption.
Qed.

End LinePricing.

(** Order 7 has a pool with install; its pumps, without install, ship in a
    group that is free with install: their shipping is 0. *)
Lemma apply_pricing_free_shipping_with_pool_install_witness :
  exists self' db' item',
    apply_pricing (platform:=example_math) order_7 (Some (PyInt 80)) db_7 = (Ok self', db')
    /\ lines_of self' db' !! 1%nat = Some item'
    /\ OrderItem.install_selected item' = false
    /\ (Decimal.value (OrderItem.line_shipping_amount item') == 0)%Q.
Proof.
  destruct (apply_pricing_run (platform:=example_math) order_7 (Some (PyInt 80)) db_7 db_7
              (PyInt 80) eq_refl)
    as (self1 & db2 & permit & self' & db' & Hrun & _).
  destruct (apply_pricing_free_shipping_with_pool_install (platform:=example_math) order_7
              (Some (PyInt 80)) db_7 self' db' Hrun) with
    (i := 1%nat) (item := new_line None (Some pump) 2 false) (sg := parcel)
    as (item' & Hi & Hsel & Hship).
  - exists (new_line (Some round_pool) None 1 true).
    split; [left; reflexivity|]. split; [discriminate|reflexivity].
  - reflexivity.
  - right. split; [reflexivity|]. exists pump. split; reflexivity.
  - reflexivity.
  - exists self', db', item'. auto.
Defined.

(** Order 8 at 80 miles: the line without a priceable is priced as zero. *)
Lemma apply_pricing_line_without_priceable_witness :
  exists self' db' item',
    apply_pricing (platform:=example_math) order_8 (Some (PyInt 80)) db_8 = (Ok self', db')
    /\ lines_of self' db' !! 0%nat = Some item'
    /\ OrderItem.unit_price item' = Decimal.zero_00
    /\ (Decimal.value (OrderItem.line_subtotal item') == 0)%Q
    /\ (Decimal.value (OrderItem.line_install_amount item') == 0)%Q
    /\ (Decimal.value (OrderItem.line_shipping_amount item') == 0)%Q.
Proof.
  destruct (apply_pricing_line_without_priceable (platform:=example_math) order_8
              (Some (PyInt 80)) db_8 db_8 (PyInt 80) eq_refl)
    as (self' & db' & Hrun & Hlines).
  destruct (Hlines 0%nat (new_line None None 3 true) eq_refl eq_refl eq_refl)
    as (item' & Hi & Hzero).
  exists self', db', item'. auto.
Defined.

(** C6 fails on the code: order 8 has a line that names no priceable, and
    [apply_pricing] raises nothing; it returns, the line priced as zero and
    the order totalled with it (559.00: the pump and its shipping). *)
Lemma apply_pricing_no_priceable_returns :
  (exists item, In item (lines_of order_8 db_8)
                /\ OrderItem.pool_variant item = None
                /\ OrderItem.store_item item = None)
  /\ (forall e db',
        apply_pricing (platform:=example_math) order_8 (Some (PyInt 80)) db_8 <> (Raise e, db'))
  /\ exists self' db',
       apply_pricing (platform:=example_math) order_8 (Some (PyInt 80)) db_8 = (Ok self', db')
       /\ lines_of self' db' !! 0%nat
          = Some (OrderItem.mk None None 3 Decimal.zero_00 (Decimal.mk 0 (-2)) true
                    (Decimal.mk 0 (-2)) (Decimal.mk 0 (-2)))
       /\ Order.grand_total self' = Decimal.mk 55900 (-2).
Proof.
  split; [|split].
  - eexists. split; [left; reflexivity|]. split; reflexivity.
  - intros e db'. vm_compute. discriminate.
  - eexists _, _. split; [vm_compute; reflexivity|]. split; vm_compute; reflexivity.
Defined.

(** ** The global hourly rate *)

Section HourlyRate.
Context {platform : PyMath}.
Local Open Scope Q_scope.

(** C7, as the code has it.  [_get_hourly_rate] never raises.  With a
    settings row it returns the stored [permit_labor_hourly_rate], a zero
    rate read as [Decimal("0.00")]; with no settings row, [get_solo] creates
    the row from the column defaults and the rate is 50.00.  Both permit
    charges are computed from it, and the permit block of [apply_pricing]
    returns in either case. *)
Theorem hourly_rate_falls_back (sa : ServiceArea.t) (db : DB) :
  (exists rate db',
     _get_hourly_rate sa db = (Ok rate, db')
     /\ match GlobalSettings_objects db with
        | Some g =>
            Decimal.value rate == Decimal.value (GlobalSettings.permit_labor_hourly_rate g)
            /\ db' = db
        | None =>
            rate = Decimal.mk 5000 (-2)
            /\ GlobalSettings_objects db' = Some GlobalSettings.defaults
        end)
  /\ (exists charge db', get_pool_permit_charge sa db = (Ok charge, db'))
  /\ (exists charge db', get_accessory_permit_charge sa db = (Ok charge, db'))
  /\ (forall (service_area : option ServiceArea.t) (hp ha : bool),
        exists permit db', permit_total_for service_area hp ha db = (Ok permit, db')).
Proof.
  split; [|split; [|split]].
  - rewrite _get_hourly_rate_run. eexists _, _. split; [reflexivity|].
    unfold hourly_rate, settings_row, settings_created.
    destruct db as [[g|] zips orders items]; cbn -[Decimal.value Decimal.or_].
    + split; [apply value_or_zero_00|reflexivity].
    + split; reflexivity.
  - rewrite get_pool_permit_charge_run. eauto.
  - rewrite get_accessory_permit_charge_run. eauto.
  - intros service_area hp ha.
    destruct (permit_total_for_run service_area hp ha db) as (p & db3 & Hp & _). eauto.
Qed.

End HourlyRate.

(** C7 fails on the code: with no settings row, pricing order 7 raises
    nothing; the row is created from the defaults and the pool permit is
    charged at the default rate, 50.00 + 2 * 50.00. *)
Lemma apply_pricing_without_settings_row :
  GlobalSettings_objects db_7_no_settings = None
  /\ (forall e db',
        apply_pricing (platform:=example_math) order_7 (Some (PyInt 80)) db_7_no_settings
        <> (Raise e, db'))
  /\ exists self' db',
       apply_pricing (platform:=example_math) order_7 (Some (PyInt 80)) db_7_no_settings
       = (Ok self', db')
       /\ (Decimal.value (Order.permit_total self') == 150)%Q
       /\ GlobalSettings_objects db' = Some GlobalSettings.defaults.
Proof.
  split; [reflexivity|]. split.
  - intros e db'. vm_compute. discriminate.
  - eexists _, _. split; [vm_compute; reflexivity|]. split; vm_compute; reflexivity.
Defined.

(** ** The distance resolver *)

Section Distance.
Context {platform : PyMath}.

(** X3.  The resolver returns [None] when a location is missing or has no
    latitude. *)
Lemma calculate_distance_unknown (self : Order.t) (db : DB) :
  match ZipLocation_objects db !! GlobalSettings.base_zip_code (settings_row db),
        customer_location self db with
  | Some base_loc, Some customer_loc =>
      ZipLocation.latitude base_loc = None \/ ZipLocation.latitude customer_loc = None
  | _, _ => True
  end ->
  fst (calculate_distance self None db) = Ok None.
Proof.
  unfold calculate_distance, bind, customer_location. rewrite get_solo_run, ZipLocation_first_run.
  change (ZipLocation_objects (settings_created db)) with (ZipLocation_objects db).
  destruct (ZipLocation_objects db !! GlobalSettings.base_zip_code (settings_row db))
    as [b|];
    destruct (Order.zip_location self) as [zl|];
    try destruct (str_truthy (Order.zip_code self));
    try rewrite ZipLocation_first_run;
    change (ZipLocation_objects (settings_created db)) with (ZipLocation_objects db);
    try destruct (ZipLocation_objects db !! Order.zip_code self) as [c|];
    cbn -[haversine_miles]; try reflexivity.
  all: intros [Hlat | Hlat]; rewrite Hlat; try reflexivity.
  all: destruct (ZipLocation.latitude b); reflexivity.
Qed.


(** A location with a latitude and no longitude passes the check of the
    resolver, and the subtraction of the longitudes raises. *)
Lemma calculate_distance_no_longitude (self : Order.t) (db : DB)
    (base_loc customer_loc : ZipLocation.t) (lat1 lat2 : float) :
  ZipLocation_objects db !! GlobalSettings.base_zip_code (settings_row db) = Some base_loc ->
  Order.zip_location self = Some customer_loc ->
  ZipLocation.latitude base_loc = Some lat1 ->
  ZipLocation.latitude customer_loc = Some lat2 ->
  ZipLocation.longitude base_loc = None \/ ZipLocation.longitude customer_loc = None ->
  fst (calculate_distance self None db) = Raise TypeError.
Proof.
  intros Hb Hc Hlat1 Hlat2 Hlon.
  unfold calculate_distance, bind. rewrite get_solo_run, ZipLocation_first_run.
  change (ZipLocation_objects (settings_created db)) with (ZipLocation_objects db).
  rewrite Hb, Hc. cbn -[haversine_miles]. rewrite Hlat1, Hlat2.
  unfold lift, haversine_miles.
  destruct Hlon as [-> | ->];
    [destruct (ZipLocation.longitude customer_loc)
    |destruct (ZipLocation.longitude base_loc)]; reflexivity.
Qed.

(** C8, at the failing input.  Order 11 is linked to a location with
    latitude 30.5 and no longitude; the base location has both coordinates.
    The resolver does not return [None]: it raises [TypeError], on every
    platform. *)
Theorem calculate_distance_raises_without_longitude :
  ZipLocation.longitude zip_no_longitude = None
  /\ fst (calculate_distance order_11 None db_9) = Raise TypeError
  /\ fst (calculate_distance order_11 None db_9) <> Ok None.
Proof.
  split; [reflexivity|].
  assert (Hraise : fst (calculate_distance order_11 None db_9) = Raise TypeError).
  { apply (calculate_distance_no_longitude order_11 db_9 zip_34491 zip_no_longitude
             29.0%float 30.5%float); auto; reflexivity. }
  split; [exact Hraise|]. rewrite Hraise. discriminate.
Qed.

End Distance.

(** ** The install queue *)

Section Queue.
Context {platform : PyMath}.

(** Saving a row that the queue query counted neither before nor after
    leaves the count. *)
Lemma queued_count_alter (sa : ServiceArea.t) (db : DB) (k : Z) (f : Order.t -> Order.t) :
  (forall row, Order_objects db !! k = Some row ->
               queued_in sa row = false /\ queued_in sa (f row) = false) ->
  queued_count sa (set_Order_objects (alter f k (Order_objects db)) db) = queued_count sa db.
Proof.
  intros Hrow. unfold queued_count. cbn [Order_objects set_Order_objects].
  f_equal. f_equal. apply map_eq. intros j.
  rewrite !map_lookup_filter, lookup_alter.
  destruct (decide (k = j)) as [<- | Hne]; [|reflexivity].
  destruct (Order_objects db !! k) as [row|] eqn:Hk; [|reflexivity].
  destruct (Hrow row eq_refl) as (Hold & Hnew). cbn.
  rewrite !option_guard_False; [reflexivity | |]; cbn; congruence.
Qed.

Lemma queued_in_no_position (sa : ServiceArea.t) (o : Order.t) :
  Order.install_queue_position o = None -> queued_in sa o = false.
Proof.
  intros Hpos. unfold queued_in. rewrite Hpos.
  rewrite (bool_decide_eq_false_2 (None <> None)); [apply andb_false_r|]. auto.
Qed.

(** C9.  Queue assignment does nothing for an order without a service area.
    For an order whose queue position is set, it leaves the position, on the
    order and on its row.  Otherwise it sets the position to the count of
    the orders of that service area that have a queue position, plus 1. *)
Theorem assign_install_queue_position_spec (self : Order.t) (db : DB) :
  (service_area_of self = None ->
   assign_install_queue_position self db = (Ok self, db))
  /\ (forall (sa : ServiceArea.t) (pos : N),
        service_area_of self = Some sa ->
        Order.install_queue_position self = Some pos ->
        exists self' db',
          assign_install_queue_position self db = (Ok self', db')
          /\ Order.install_queue_position self' = Some pos
          /\ Order.install_queue_position <$> Order_objects db' !! Order.id self
             = Order.install_queue_position <$> Order_objects db !! Order.id self)
  /\ (forall sa : ServiceArea.t,
        service_area_of self = Some sa ->
        Order.install_queue_position self = None ->
        (forall row, Order_objects db !! Order.id self = Some row ->
                     Order.install_queue_position row = None) ->
        exists self' db',
          assign_install_queue_position self db = (Ok self', db')
          /\ Order.install_queue_position self' = Some (queued_count sa db + 1)%N
          /\ Order.install_service_area_id self' = Some (ServiceArea.id sa)
          /\ Order.install_queue_position <$> Order_objects db' !! Order.id self
             = (fun _ => Some (queued_count sa db + 1)%N) <$> Order_objects db !! Order.id self).
Proof.
  unfold assign_install_queue_position. fold (service_area_of self).
  split; [|split].
  - intros ->. reflexivity.
  - intros sa pos -> Hpos. unfold bind, Order_save, modify_db, ret, get_db.
    destruct (bool_decide (Order.install_service_area_id self <> Some (ServiceArea.id sa)));
      cbn [Order.install_queue_position Order.set_install_service_area_id];
      rewrite Hpos; eexists _, _; (split; [reflexivity|]); (split; [exact Hpos|]);
      [|reflexivity].
    cbn [Order_objects set_Order_objects Order.id Order.set_install_service_area_id].
    rewrite lookup_alter_eq. destruct (Order_objects db !! Order.id self); reflexivity.
  - intros sa -> Hpos Hrow. unfold bind, Order_save, modify_db, ret, get_db.
    destruct (bool_decide (Order.install_service_area_id self <> Some (ServiceArea.id sa)))
      eqn:Harea;
      cbn [Order.install_queue_position Order.set_install_service_area_id];
      rewrite Hpos.
    + rewrite queued_count_alter.
      * eexists _, _. split; [reflexivity|].
        cbn [Order_objects set_Order_objects Order.id Order.set_install_service_area_id
             Order.set_install_queue_position Order.install_queue_position
             Order.install_service_area_id].
        split; [reflexivity|]. split; [reflexivity|].
        rewrite !lookup_alter_eq.
        destruct (Order_objects db !! Order.id self); reflexivity.
      * intros row Hk. split; apply queued_in_no_position; [|cbn]; exact (Hrow row Hk).
    + eexists _, _. split; [reflexivity|].
      cbn [Order_objects set_Order_objects Order.id Order.set_install_service_area_id
           Order.set_install_queue_position Order.install_queue_position
           Order.install_service_area_id].
      split; [reflexivity|]. split.
      * apply bool_decide_eq_false in Harea.
        destruct (decide (Order.install_service_area_id self = Some (ServiceArea.id sa)));
          [assumption|contradiction].
      * rewrite lookup_alter_eq.
        destruct (Order_objects db !! Order.id self); reflexivity.
Qed.

End Queue.

(** Two orders are queued in county 1 and one in county 2: order 7, of
    county 1, gets position 3.  Assigned again, it keeps it. *)
Lemma assign_install_queue_position_spec_witness :
  exists self' db',
    assign_install_queue_position order_7 db_queue = (Ok self', db')
    /\ Order.install_queue_position self' = Some 3%N
    /\ exists db'',
         assign_install_queue_position self' db' = (Ok self', db'')
         /\ Order.install_queue_position <$> Order_objects db'' !! 7
            = Some (Some 3%N).
Proof.
  destruct (assign_install_queue_position_spec order_7 db_queue) as (_ & _ & Hnew).
  destruct (Hnew marion eq_refl eq_refl) as (self' & db' & Hrun & Hpos & Harea & Hrow).
  { intros row Hk. vm_compute in Hk. injection Hk as <-. reflexivity. }
  exists self', db'. split; [exact Hrun|].
  assert (Hcount : queued_count marion db_queue = 2%N) by (vm_compute; reflexivity).
  rewrite Hcount in Hpos, Hrow. split; [exact Hpos|].
  destruct (assign_install_queue_position_spec self' db') as (_ & Hkeep & _).
  assert (Hsa : service_area_of self' = Some marion)
    by (vm_compute in Hrun; injection Hrun as <- <-; reflexivity).
  destruct (Hkeep marion 3%N Hsa Hpos) as (self'' & db'' & Hrun' & Hpos' & Hrow').
  assert (Hid : Order.id self' = 7)
    by (vm_compute in Hrun; injection Hrun as <- <-; reflexivity).
  assert (Hself : self'' = self').
  { vm_compute in Hrun. injection Hrun as <- <-. vm_compute in Hrun'.
    injection Hrun' as <- _. reflexivity. }
  subst self''. exists db''. split; [exact Hrun'|].
  rewrite Hid in Hrow'. rewrite Hrow'. vm_compute in Hrun. injection Hrun as <- <-.
  vm_compute. reflexivity.
Defined.

(** ** Pricing twice *)

Section Idempotence.
Context {platform : PyMath}.

(** The loop body reads the catalog, the quantity and the install flag, and
    overwrites the four amounts: pricing a priced line changes nothing. *)
Lemma apply_pricing_line_idem (dist : number) (hp : bool) (item : OrderItem.t) :
  apply_pricing_line dist hp (apply_pricing_line dist hp item)
  = apply_pricing_line dist hp item.
Proof. destruct item as [[pv|] [si|] q up ls sel lin lsh]; reflexivity. Qed.

Lemma has_pool_install_priced (dist : number) (hp : bool) (items : list OrderItem.t) :
  has_pool_install (map (apply_pricing_line dist hp) items) = has_pool_install items.
Proof.
  unfold has_pool_install. induction items as [|item items IH]; [reflexivity|].
  cbn [map existsb]. rewrite IH.
  destruct (apply_pricing_line_keeps dist hp item) as (-> & _ & _ & ->). reflexivity.
Qed.

Lemma has_accessory_install_priced (dist : number) (hp : bool) (items : list OrderItem.t) :
  has_accessory_install (map (apply_pricing_line dist hp) items)
  = has_accessory_install items.
Proof.
  unfold has_accessory_install. induction items as [|item items IH]; [reflexivity|].
  cbn [map existsb]. rewrite IH.
  destruct (apply_pricing_line_keeps dist hp item) as (_ & -> & _ & ->). reflexivity.
Qed.

Lemma map_apply_pricing_line_idem (dist : number) (hp : bool) (items : list OrderItem.t) :
  map (apply_pricing_line dist hp) (map (apply_pricing_line dist hp) items)
  = map (apply_pricing_line dist hp) items.
Proof.
  induction items as [|item items IH]; [reflexivity|].
  cbn [map]. now rewrite apply_pricing_line_idem, IH.
Qed.

Lemma set_totals_same (o : Order.t) (p : Decimal.t) :
  Order.set_totals (Order.subtotal o) (Order.shipping_total o) (Order.install_total o)
    (Order.permit_total o) (Order.tax_total o) (Order.grand_total o)
    (Order.set_permit_total p o)
  = o.
Proof. destruct o; reflexivity. Qed.

(** After a run, the customer's location is where it was, when the link is
    stable. *)
Lemma customer_location_after (self self1 : Order.t) (db db2 : DB)
    (sa : option ServiceArea.t) :
  resolve_service_area self db = (Ok (sa, self1), db2) ->
  link_stable self db ->
  customer_location self1 db = customer_location self db.
Proof.
  intros Hrun Hstable.
  destruct (resolve_service_area_run self db)
    as (s1 & d2 & Hrun' & _ & _ & _ & _ & _ & Hcase).
  rewrite Hrun in Hrun'. injection Hrun' as _ <- _.
  destruct Hcase as [-> | (z & Hsa & Htr & Hz & ->)]; [reflexivity|].
  unfold customer_location. cbn [Order.zip_location Order.set_zip_location].
  destruct (Order.zip_location self) as [z0|] eqn:Hzl.
  - f_equal. apply (Hstable z0 z); auto.
    unfold service_area_of in Hsa. rewrite Hzl in Hsa. exact Hsa.
  - now rewrite Htr, Hz.
Qed.

Lemma customer_location_ext (o1 o2 : Order.t) (d1 d2 : DB) :
  Order.zip_location o1 = Order.zip_location o2 ->
  Order.zip_code o1 = Order.zip_code o2 ->
  ZipLocation_objects d1 = ZipLocation_objects d2 ->
  customer_location o1 d1 = customer_location o2 d2.
Proof. unfold customer_location. now intros -> -> ->. Qed.

Lemma link_stable_ext (o : Order.t) (d1 d2 : DB) :
  ZipLocation_objects d1 = ZipLocation_objects d2 -> link_stable o d2 -> link_stable o d1.
Proof. unfold link_stable. intros ->. auto. Qed.

(** C4, as the code has it.  Pricing a priced order again, with the same
    distance argument and nothing changed in between, returns the same order
    (all six totals included) and stores the same lines, when the distance
    is given, or when it is omitted and pricing does not move the order to
    another ZIP location. *)
Theorem apply_pricing_idempotent (self : Order.t) (d : option number) (db : DB)
    (self' : Order.t) (db' : DB) :
  apply_pricing self d db = (Ok self', db') ->
  (d = None -> link_stable self db) ->
  exists db'',
    apply_pricing self' d db' = (Ok self', db'')
    /\ lines_of self' db'' = lines_of self' db'.
Proof.
  intros Hrun Hstable.
  destruct (apply_pricing_Ok_distance _ _ _ _ _ Hrun) as (dist & db1 & Hdist).
  destruct (apply_pricing_run _ _ _ _ _ Hdist)
    as (self1 & db2 & permit & s' & d' & Hrun1 & Hrsa & Hpermit & (db3 & Hrec & Hlines3)
        & Hlines & Hid & Hzc & Hzl & Hpt & Hrow & Hzips).
  rewrite Hrun in Hrun1. injection Hrun1 as <- <-.
  destruct (resolve_distance_reads _ _ _ _ _ Hdist) as (Hoi1 & Hzips1 & Hrow1).
  destruct (resolve_service_area_run self db1)
    as (s1 & d2 & Hrsa' & _ & Hzc1 & _).
  rewrite Hrsa in Hrsa'. injection Hrsa' as _ <- <-.
  (* the second run resolves the same distance *)
  assert (Hdist2 : exists db1', resolve_distance self' d db' = (Ok dist, db1')).
  { destruct d as [d0|].
    - cbn in Hdist. injection Hdist as <- <-. exists db'. reflexivity.
    - cbn in Hdist |- *. unfold bind in *.
      assert (Hcd : fst (calculate_distance self' None db')
                    = fst (calculate_distance self None db)).
      { apply calculate_distance_ext.
        - congruence.
        - congruence.
        - transitivity (customer_location self1 db1);
            [apply customer_location_ext; congruence|].
          transitivity (customer_location self db1);
            [|apply customer_location_ext; congruence].
          apply (customer_location_after self self1 db1 db2 _ Hrsa).
          apply (link_stable_ext _ _ db); auto. }
      destruct (calculate_distance self None db) as [r0 dA] eqn:HA.
      destruct (calculate_distance self' None db') as [r1 dB] eqn:HB.
      cbn in Hcd. subst r1.
      destruct r0 as [[x|]|e]; cbn in Hdist |- *; [| |discriminate];
        injection Hdist as <- <-; eauto. }
  destruct Hdist2 as (db1' & Hdist2).
  destruct (resolve_distance_reads _ _ _ _ _ Hdist2) as (Hoi2 & Hzips2 & Hrow2).
  destruct (apply_pricing_run _ _ _ _ _ Hdist2)
    as (self2 & db2' & permit' & s'' & d'' & Hrun2 & Hrsa2 & Hpermit2
        & (db3' & Hrec2 & Hlines3') & Hlines2 & _).
  (* it prices the same lines *)
  assert (Hl : lines_of self' db1' = lines_of self' db')
    by (unfold lines_of; now rewrite Hoi2).
  rewrite Hl, Hlines in Hpermit2, Hlines3', Hlines2.
  rewrite has_pool_install_priced in Hpermit2, Hlines3', Hlines2.
  rewrite has_accessory_install_priced in Hpermit2.
  rewrite map_apply_pricing_line_idem in Hlines3', Hlines2.
  (* for the same service area *)
  destruct (resolve_service_area_again _ _ _ _ _ Hrsa self' db1')
    as (dB2 & Hagain & _); [exact Hzl | congruence | congruence |].
  rewrite Hagain in Hrsa2. injection Hrsa2 as Hsa2 <- _.
  (* at the same permit total *)
  assert (Hp : permit' = permit).
  { assert (Hr : hourly_rate db1' = hourly_rate db1)
      by (apply hourly_rate_row; congruence).
    pose proof (Hpermit db1' Hr) as E1. pose proof (Hpermit2 db1' eq_refl) as E2.
    rewrite <- Hsa2, E1 in E2. now injection E2. }
  subst permit'.
  (* and totals them alike *)
  assert (Hs : s'' = self').
  { rewrite (recalc_totals_ext _ (Order.set_permit_total permit self1) self' _ db3 db3)
      in Hrec2; [| congruence | reflexivity | exact Hrec].
    injection Hrec2 as <-. apply set_totals_same. }
  subst s''. exists d''. split; [exact Hrun2|].
  rewrite Hlines2, Hlines. reflexivity.
Qed.

End Idempotence.

(** Order 13, priced without a distance argument: the customer's location
    has no coordinates, the distance falls back to 0, the pump costs 499.00
    and ships for 20.00; priced again, the order and its lines are the
    same. *)
Lemma apply_pricing_idempotent_witness :
  exists self' db' db'',
    apply_pricing (platform:=example_math) order_13 None db_13 = (Ok self', db')
    /\ link_stable order_13 db_13
    /\ Order.grand_total self' = Decimal.mk 51900 (-2)
    /\ apply_pricing (platform:=example_math) self' None db' = (Ok self', db'')
    /\ lines_of self' db'' = lines_of self' db'.
Proof.
  assert (Hstable : link_stable order_13 db_13).
  { intros z0 z1 _ _ Htruthy _. discriminate Htruthy. }
  assert (Hrun : exists self' db',
             apply_pricing (platform:=example_math) order_13 None db_13 = (Ok self', db')
             /\ Order.grand_total self' = Decimal.mk 51900 (-2)).
  { eexists _, _. split; vm_compute; reflexivity. }
  destruct Hrun as (self' & db' & Hrun & Htotal).
  destruct (apply_pricing_idempotent (platform:=example_math) order_13 None db_13 self' db' Hrun
              (fun _ => Hstable))
    as (db'' & Hagain & Hlines).
  exists self', db', db''. auto.
Defined.

(** How a second run can differ: when the linked location has no service
    area and the order's ZIP code names a location, pricing links the order
    to that location, after it has measured the distance to the old one. *)
Lemma apply_pricing_moves_location {platform : PyMath} (self self' : Order.t) (db db' : DB)
    (z0 z1 : ZipLocation.t) :
  apply_pricing self None db = (Ok self', db') ->
  Order.zip_location self = Some z0 ->
  ZipLocation.service_area z0 = None ->
  str_truthy (Order.zip_code self) = true ->
  ZipLocation_objects db !! Order.zip_code self = Some z1 ->
  customer_location self db = Some z0 /\ customer_location self' db' = Some z1.
Proof.
  intros Hrun Hzl Hsa Htruthy Hz1.
  split; [unfold customer_location; now rewrite Hzl|].
  destruct (apply_pricing_Ok_distance _ _ _ _ _ Hrun) as (dist & db1 & Hdist).
  destruct (apply_pricing_run _ _ _ _ _ Hdist)
    as (self1 & db2 & permit & s' & d' & Hrun1 & Hrsa & _ & _ & _ & _ & _ & Hzl' & _).
  rewrite Hrun in Hrun1. injection Hrun1 as <- <-.
  destruct (resolve_distance_reads _ _ _ _ _ Hdist) as (_ & Hzips1 & _).
  unfold resolve_service_area in Hrsa. rewrite Hzl in Hrsa. cbn [mbind option_bind] in Hrsa.
  rewrite Hsa, Htruthy in Hrsa. unfold bind in Hrsa.
  rewrite ZipLocation_first_run, Hzips1, Hz1 in Hrsa.
  injection Hrsa as _ Hself1 _.
  unfold customer_location. rewrite Hzl', <- Hself1. reflexivity.
Qed.

(** C4 fails on the code.  Order 9 is linked to a location without
    coordinates and without a service area, and its ZIP code names a location
    that has a latitude and no longitude.  Priced without a distance
    argument, it is priced at the fall-back distance 0 and linked to the
    location of its ZIP code; priced again, with nothing changed in between,
    the distance to the new location is wanted and the run raises. *)
Lemma apply_pricing_twice_differs :
  exists self' db',
    apply_pricing (platform:=example_math) order_9 None db_9 = (Ok self', db')
    /\ Order.grand_total self' = Decimal.mk 51900 (-2)
    /\ customer_location order_9 db_9 = Some zip_bare
    /\ customer_location self' db' = Some zip_no_longitude
    /\ apply_pricing (platform:=example_math) self' None db' = (Raise TypeError, db').
Proof.
  eexists _, _. split; [vm_compute; reflexivity|].
  split; [vm_compute; reflexivity|].
  split; [reflexivity|]. split; [reflexivity|].
  vm_compute. reflexivity.
Defined.

(** ** Scenarios of the specification *)

(** Shipping 20.00 flat and 0.50 a mile, 40 miles, no install: 40.00. *)
Example shipping_scenario :
  (Decimal.value
     (ShippingGroup.estimate_cost (platform:=example_math) parcel (Some (PyInt 40)) false)
   == 40)%Q.
Proof. vm_compute. reflexivity. Qed.

(** Pool permit 50.00 and 2 hours at an hourly rate of 25.00: 100.00. *)
Example pool_permit_scenario :
  exists charge,
    fst (get_pool_permit_charge marion db_7) = Ok charge
    /\ (Decimal.value charge == 100)%Q.
Proof. eexists. split; vm_compute; reflexivity. Qed.

(** * Further properties of the code *)

(** ** The estimators and the distance *)

Section EstimatorsInDistance.
Context {platform : PyMath}.
Local Open Scope Q_scope.

Lemma clamped_excess_mono (a b c : Q) : a <= b -> Qmax 0 (a - c) <= Qmax 0 (b - c).
Proof.
  intros Hab. apply Q.max_le_compat_l. unfold Qminus. apply Qplus_le_compat; [exact Hab|].
  apply Qle_refl.
Qed.

(** X5.  [ShippingGroup.estimate_cost] never decreases with the distance,
    for a group whose per-mile rate is not negative, with or without
    install. *)
Theorem estimate_cost_monotone (self : ShippingGroup.t) (d1 d2 : number) (with_install : bool) :
  0 <= Decimal.value (ShippingGroup.per_mile_rate self) ->
  miles d1 <= miles d2 ->
  Decimal.value (ShippingGroup.estimate_cost self (Some d1) with_install)
  <= Decimal.value (ShippingGroup.estimate_cost self (Some d2) with_install).
Proof.
  intros Hrate Hd. unfold ShippingGroup.estimate_cost, miles in *.
  destruct (ShippingGroup.free_with_install self && with_install); [apply Qle_refl|].
  destruct (Decimal.truthy (ShippingGroup.per_mile_rate self)); [|apply Qle_refl].
  rewrite !value_add, !value_mul, !value_or_zero_00.
  apply Qplus_le_compat; [apply Qle_refl|].
  apply Qmult_le_compat_r; assumption.
Qed.

(** X6.  Both install estimates never decrease with the distance, for a
    per-mile rate that is not negative, and are never below the part that
    does not depend on the distance: the base rate of a store item, the
    labor (days at the daily rate) of a pool variant. *)
Theorem estimate_install_cost_monotone (d1 d2 : number) :
  miles d1 <= miles d2 ->
  (forall si : StoreItem.t,
     0 <= Decimal.value (StoreItem.install_per_mile_rate si) ->
     Decimal.value (StoreItem.estimate_install_cost si d1)
     <= Decimal.value (StoreItem.estimate_install_cost si d2)
     /\ (StoreItem.is_installable si = true ->
         Decimal.value (StoreItem.install_base_rate si)
         <= Decimal.value (StoreItem.estimate_install_cost si d1)))
  /\ (forall pv : PoolVariant.t,
        0 <= Decimal.value (PoolVariant.install_per_mile_rate pv) ->
        Decimal.value (PoolVariant.estimate_install_cost pv d1)
        <= Decimal.value (PoolVariant.estimate_install_cost pv d2)
        /\ Decimal.value (PoolVariant.install_daily_rate pv)
           * Decimal.value (PoolVariant.install_days pv)
           <= Decimal.value (PoolVariant.estimate_install_cost pv d1)).
Proof.
  intros Hd. unfold miles in Hd.
  assert (Hpos : forall a c r : Q, 0 <= r -> 0 <= Qmax 0 (a - c) * r).
  { intros a c r Hr. apply Qmult_le_0_compat; [apply Q.le_max_l|exact Hr]. }
  assert (Hbase : forall b m : Q, 0 <= m -> b <= b + m).
  { intros b m Hm. rewrite <- (Qplus_0_r b) at 1. apply Qplus_le_compat; [apply Qle_refl|exact Hm]. }
  split.
  - intros si Hrate. unfold StoreItem.estimate_install_cost.
    destruct (StoreItem.is_installable si); cbn [negb].
    + rewrite !value_add, !value_mul, !value_clamped_excess, !value_or_zero_00. split.
      * apply Qplus_le_compat; [apply Qle_refl|].
        apply Qmult_le_compat_r; [apply clamped_excess_mono; exact Hd|exact Hrate].
      * intros _. apply Hbase, Hpos, Hrate.
    + split; [apply Qle_refl|discriminate].
  - intros pv Hrate. unfold PoolVariant.estimate_install_cost.
    rewrite !value_add, !value_mul, !value_clamped_excess, !value_or_zero_00, value_or_int_0.
    split.
    + apply Qplus_le_compat; [apply Qle_refl|].
      apply Qmult_le_compat_r; [apply clamped_excess_mono; exact Hd|exact Hrate].
    + apply Hbase, Hpos, Hrate.
Qed.

End EstimatorsInDistance.

(** The parcel group at 40 and at 80 miles: 40.00, then 60.00. *)
Lemma estimate_cost_monotone_witness :
  (Decimal.value
     (ShippingGroup.estimate_cost (platform:=example_math) parcel (Some (PyInt 40)) false)
   <= Decimal.value
        (ShippingGroup.estimate_cost (platform:=example_math) parcel (Some (PyInt 80)) false))%Q
  /\ (Decimal.value
        (ShippingGroup.estimate_cost (platform:=example_math) parcel (Some (PyInt 80)) false)
      == 60)%Q.
Proof.
  split; [|vm_compute; reflexivity].
  apply (estimate_cost_monotone (platform:=example_math) parcel (PyInt 40) (PyInt 80) false);
    vm_compute; discriminate.
Defined.

(** The pump at 30 and at 80 miles, the round pool at 30 and at 80 miles. *)
Lemma estimate_install_cost_monotone_witness :
  (Decimal.value (StoreItem.estimate_install_cost (platform:=example_math) pump (PyInt 30))
   <= Decimal.value (StoreItem.estimate_install_cost (platform:=example_math) pump (PyInt 80)))%Q
  /\ (Decimal.value
        (PoolVariant.estimate_install_cost (platform:=example_math) round_pool (PyInt 30))
      <= Decimal.value
           (PoolVariant.estimate_install_cost (platform:=example_math) round_pool (PyInt 80)))%Q
  /\ (Decimal.value
        (PoolVariant.estimate_install_cost (platform:=example_math) round_pool (PyInt 80))
      == 1690)%Q.
Proof.
  destruct (estimate_install_cost_monotone (platform:=example_math) (PyInt 30) (PyInt 80))
    as (Hsi & Hpv); [vm_compute; discriminate|].
  split; [|split].
  - apply Hsi. vm_compute. discriminate.
  - apply Hpv. vm_compute. discriminate.
  - vm_compute. reflexivity.
Defined.

(** ** The distance resolver and the settings row *)

Section DistanceFurther.
Context {platform : PyMath}.

(** X7.  [haversine_miles] raises [TypeError] when any of its four
    coordinates is [None], whatever the platform computes. *)
Theorem haversine_miles_missing_coordinate (lat1 lon1 lat2 lon2 : option float) :
  lat1 = None \/ lon1 = None \/ lat2 = None \/ lon2 = None ->
  haversine_miles lat1 lon1 lat2 lon2 = Raise TypeError.
Proof.
  unfold haversine_miles.
  destruct lat1, lon1, lat2, lon2; cbn; try reflexivity.
  intros [H|[H|[H|H]]]; discriminate H.
Qed.

Lemma calculate_distance_settings_created (self : Order.t) (zo : option string) (db : DB) :
  calculate_distance self zo (settings_created db) = calculate_distance self zo db.
Proof. unfold calculate_distance, bind. rewrite !get_solo_run. reflexivity. Qed.

(** X8.  [calculate_distance] can be asked again: it writes nothing but the
    settings row, and a second call on the database it left returns the same
    result and leaves the database as it is. *)
Theorem calculate_distance_repeatable (self : Order.t) (zo : option string) (db db1 : DB)
    (r : result (option float)) :
  calculate_distance self zo db = (r, db1) ->
  calculate_distance self zo db1 = (r, db1)
  /\ ZipLocation_objects db1 = ZipLocation_objects db
  /\ Order_objects db1 = Order_objects db
  /\ OrderItem_objects db1 = OrderItem_objects db
  /\ GlobalSettings_objects db1 = Some (settings_row db).
Proof.
  intros Hrun. pose proof (calculate_distance_db _ _ _ _ _ Hrun) as ->.
  rewrite calculate_distance_settings_created. auto.
Qed.

(** X9.  A non-empty [zip_override] replaces the order's own location: the
    distance is the one of an order linked to the location of that ZIP, and
    [None] when the ZIP table has no such location.  An empty override is no
    override. *)
Theorem calculate_distance_override (self : Order.t) (z : string) (db : DB) :
  (str_truthy z = true ->
   match ZipLocation_objects db !! z with
   | Some zl =>
       calculate_distance self (Some z) db
       = calculate_distance (Order.set_zip_location (Some zl) self) None db
   | None => fst (calculate_distance self (Some z) db) = Ok None
   end)
  /\ (str_truthy z = false ->
      calculate_distance self (Some z) db = calculate_distance self None db).
Proof.
  unfold calculate_distance, bind. rewrite get_solo_run, ZipLocation_first_run.
  split; intros ->; [|reflexivity].
  rewrite ZipLocation_first_run.
  change (ZipLocation_objects (settings_created db)) with (ZipLocation_objects db).
  destruct (ZipLocation_objects db !! z) as [zl|]; [reflexivity|].
  destruct (ZipLocation_objects db !! GlobalSettings.base_zip_code (settings_row db));
    reflexivity.
Qed.

(** X10.  [GlobalSettings.get_solo] creates the settings row at most once:
    after a call the row exists and is the one returned, a second call
    returns it again and writes nothing, and the other tables are
    untouched. *)
Theorem get_solo_twice (db db1 : DB) (g : GlobalSettings.t) :
  get_solo db = (Ok g, db1) ->
  get_solo db1 = (Ok g, db1)
  /\ GlobalSettings_objects db1 = Some g
  /\ (forall g0, GlobalSettings_objects db = Some g0 -> g = g0 /\ db1 = db)
  /\ (GlobalSettings_objects db = None -> g = GlobalSettings.defaults)
  /\ ZipLocation_objects db1 = ZipLocation_objects db
  /\ Order_objects db1 = Order_objects db
  /\ OrderItem_objects db1 = OrderItem_objects db.
Proof.
  unfold get_solo. destruct db as [[g0|] zips orders items]; cbn; intros [= <- <-]; cbn.
  - split; [reflexivity|]. split; [reflexivity|]. split.
    + intros g1 [= ->]. split; reflexivity.
    + split; [discriminate|]. auto.
  - split; [reflexivity|]. split; [reflexivity|]. split; [discriminate|]. auto.
Qed.

End DistanceFurther.

(** A missing longitude of the second location. *)
Lemma haversine_miles_missing_coordinate_witness :
  haversine_miles (platform:=example_math) (Some 29.0%float) (Some (-82.0)%float)
    (Some 30.5%float) None
  = Raise TypeError.
Proof.
  apply (haversine_miles_missing_coordinate (platform:=example_math)). auto.
Defined.

(** Order 13 is linked to a location without coordinates: the distance is
    unknown. *)
Lemma calculate_distance_unknown_witness :
  fst (calculate_distance (platform:=example_math) order_13 None db_13) = Ok None.
Proof.
  apply (calculate_distance_unknown (platform:=example_math) order_13 db_13).
  right. reflexivity.
Defined.


(** Order 13 asked with the override "34491", and with the empty
    override. *)
Lemma calculate_distance_override_witness :
  calculate_distance (platform:=example_math) order_13 (Some "34491"%string) db_13
  = calculate_distance (platform:=example_math)
      (Order.set_zip_location (Some zip_34491) order_13) None db_13
  /\ calculate_distance (platform:=example_math) order_13 (Some ""%string) db_13
     = (Ok None, db_13).
Proof.
  destruct (calculate_distance_override (platform:=example_math) order_13 "34491" db_13)
    as (Hset & _).
  destruct (calculate_distance_override (platform:=example_math) order_13 "" db_13)
    as (_ & Hempty).
  split.
  - exact (Hset eq_refl).
  - rewrite (Hempty eq_refl). vm_compute. reflexivity.
Defined.

(** Asked twice on the database without a settings row. *)
Lemma calculate_distance_repeatable_witness :
  exists r db1,
    calculate_distance (platform:=example_math) order_7 None db_7_no_settings = (r, db1)
    /\ calculate_distance (platform:=example_math) order_7 None db1 = (r, db1)
    /\ GlobalSettings_objects db1 = Some GlobalSettings.defaults.
Proof.
  destruct (calculate_distance (platform:=example_math) order_7 None db_7_no_settings)
    as [r db1] eqn:Hrun.
  exists r, db1. split; [reflexivity|].
  destruct (calculate_distance_repeatable (platform:=example_math) _ _ _ _ _ Hrun)
    as (Hagain & _ & _ & _ & Hrow).
  split; [exact Hagain|exact Hrow].
Defined.

(** The first call on a database without a settings row creates the
    defaults; the second returns them. *)
Lemma get_solo_twice_witness :
  exists db1,
    get_solo db_7_no_settings = (Ok GlobalSettings.defaults, db1)
    /\ get_solo db1 = (Ok GlobalSettings.defaults, db1)
    /\ GlobalSettings_objects db1 = Some GlobalSettings.defaults.
Proof.
  eexists. split; [reflexivity|].
  destruct (get_solo_twice db_7_no_settings _ GlobalSettings.defaults eq_refl)
    as (Hagain & Hrow & _).
  split; [exact Hagain|exact Hrow].
Defined.

(** ** What pricing writes *)

Section PricingWrites.
Context {platform : PyMath}.

Lemma recalc_totals_shape (o : Order.t) (db : DB) :
  exists a b c e f g : Decimal.t,
    recalc_totals o db = (Ok (Order.set_totals a b c e f g o), db).
Proof.
  unfold recalc_totals, bind. rewrite Order_items_run.
  destruct (fold_left recalc_totals_step (lines_of o db)
              (Decimal.zero_00, Decimal.zero_00, Decimal.zero_00)) as [[a b] c].
  eexists _, _, _, _, _, _. reflexivity.
Qed.

(** The county block either leaves the order and its row, or links both to
    the location of the order's ZIP code. *)
Lemma resolve_service_area_writes (self self1 : Order.t) (db db2 : DB)
    (sa : option ServiceArea.t) :
  resolve_service_area self db = (Ok (sa, self1), db2) ->
  (self1 = self /\ db2 = db)
  \/ exists z,
       ZipLocation_objects db !! Order.zip_code self = Some z
       /\ self1 = Order.set_zip_location (Some z) self
       /\ db2 = set_Order_objects
                  (alter (fun row =>
                            Order.set_zip_code (Order.zip_code self)
                              (Order.set_zip_location (Some z) row))
                     (Order.id self) (Order_objects db)) db.
Proof.
  unfold resolve_service_area.
  destruct (Order.zip_location self ≫= ZipLocation.service_area);
    [intros [= _ <- <-]; now left|].
  destruct (str_truthy (Order.zip_code self)); [|intros [= _ <- <-]; now left].
  unfold bind. rewrite ZipLocation_first_run.
  destruct (ZipLocation_objects db !! Order.zip_code self) as [z|];
    [|intros [= _ <- <-]; now left].
  intros [= _ <- <-]. right. exists z. auto.
Qed.

(** Where a priced order and its database differ from what they were. *)
Lemma apply_pricing_writes (self self' : Order.t) (d : option number) (db db' : DB) :
  apply_pricing self d db = (Ok self', db') ->
  ZipLocation_objects db' = ZipLocation_objects db
  /\ (forall k, k <> Order.id self ->
        Order_objects db' !! k = Order_objects db !! k
        /\ OrderItem_objects db' !! k = OrderItem_objects db !! k)
  /\ Order.install_service_area_id self' = Order.install_service_area_id self
  /\ Order.install_queue_position self' = Order.install_queue_position self
  /\ match Order_objects db !! Order.id self with
     | Some row =>
         exists row',
           Order_objects db' !! Order.id self = Some row'
           /\ totals row' = totals self'
           /\ Order.id row' = Order.id row
           /\ Order.install_service_area_id row' = Order.install_service_area_id row
           /\ Order.install_queue_position row' = Order.install_queue_position row
           /\ ((Order.zip_location row' = Order.zip_location row
                /\ Order.zip_code row' = Order.zip_code row
                /\ Order.zip_location self' = Order.zip_location self)
               \/ (Order.zip_location row' = Order.zip_location self'
                   /\ Order.zip_code row' = Order.zip_code self'))
     | None => Order_objects db' !! Order.id self = None
     end.
Proof.
  intros Hrun.
  destruct (apply_pricing_Ok_distance _ _ _ _ _ Hrun) as (dist & db1 & Hdist).
  destruct (resolve_distance_db _ _ _ _ _ Hdist) as [Hdb1 | Hdb1].
  all: destruct (resolve_service_area_run self db1)
         as (self1 & db2 & Hrsa & Hid & Hzc & _).
  all: unfold apply_pricing, bind in Hrun;
       rewrite Hdist, Order_items_run, Hrsa in Hrun; cbn [fst snd] in Hrun;
       unfold OrderItem_save_all, modify_db in Hrun.
  all: match type of Hrun with
       | context [permit_total_for ?sa ?hp ?ha ?dbi] =>
           destruct (permit_total_for_run sa hp ha dbi) as (permit & db3 & Hp & Hdb3 & _);
           rewrite Hp in Hrun
       end.
  all: destruct (recalc_totals_shape (Order.set_permit_total permit self1) db3)
         as (a & b & c & e & f & g & Hrec);
       rewrite Hrec in Hrun; unfold Order_save, modify_db, ret in Hrun;
       injection Hrun as <- <-.
  all: destruct (resolve_service_area_writes _ _ _ _ _ Hrsa)
         as [[-> ->] | (z & Hz & -> & ->)];
       destruct Hdb3 as [-> | ->]; subst db1;
       cbn [Order.set_totals Order.set_permit_total Order.set_zip_location Order.id
            Order.install_service_area_id Order.install_queue_position
            Order.zip_location Order.zip_code
            Order_objects OrderItem_objects ZipLocation_objects
            set_Order_objects set_OrderItem_objects set_GlobalSettings_objects
            settings_created].
  all: (split; [reflexivity|]);
       (split; [intros k Hk; rewrite ?lookup_alter_ne by congruence; auto|]);
       (split; [reflexivity|]); (split; [reflexivity|]).
  all: rewrite ?lookup_alter_eq; destruct (Order_objects db !! Order.id self) as [row|];
       [|reflexivity].
  all: cbn [fmap option_fmap option_map]; eexists; (split; [reflexivity|]);
       unfold totals;
       cbn [Order.set_totals Order.set_zip_code Order.set_zip_location Order.id
            Order.subtotal Order.shipping_total Order.install_total Order.permit_total
            Order.tax_total Order.grand_total
            Order.install_service_area_id Order.install_queue_position
            Order.zip_location Order.zip_code];
       (split; [reflexivity|]); (split; [reflexivity|]); (split; [reflexivity|]);
       (split; [reflexivity|]).
  all: first [left; split; [reflexivity|split; reflexivity]
             | right; split; reflexivity].
Qed.

(** X11.  Pricing an order leaves the ZIP table, the rows of the other orders
    and the lines of the other orders as they are. *)
Theorem apply_pricing_other_orders_untouched (self self' : Order.t) (d : option number)
    (db db' : DB) :
  apply_pricing self d db = (Ok self', db') ->
  ZipLocation_objects db' = ZipLocation_objects db
  /\ forall k, k <> Order.id self ->
       Order_objects db' !! k = Order_objects db !! k
       /\ OrderItem_objects db' !! k = OrderItem_objects db !! k.
Proof.
  intros Hrun. destruct (apply_pricing_writes _ _ _ _ _ Hrun) as (Hz & Hk & _). auto.
Qed.

(** X12.  Pricing never touches the install queue: the service area of the
    install and the queue position stay as they are, on the order and on
    its row. *)
Theorem apply_pricing_keeps_queue (self self' : Order.t) (d : option number) (db db' : DB) :
  apply_pricing self d db = (Ok self', db') ->
  Order.install_service_area_id self' = Order.install_service_area_id self
  /\ Order.install_queue_position self' = Order.install_queue_position self
  /\ Order.install_service_area_id <$> Order_objects db' !! Order.id self
     = Order.install_service_area_id <$> Order_objects db !! Order.id self
  /\ Order.install_queue_position <$> Order_objects db' !! Order.id self
     = Order.install_queue_position <$> Order_objects db !! Order.id self.
Proof.
  intros Hrun. destruct (apply_pricing_writes _ _ _ _ _ Hrun) as (_ & _ & Ha & Hq & Hrow).
  split; [exact Ha|]. split; [exact Hq|].
  destruct (Order_objects db !! Order.id self) as [row|].
  - destruct Hrow as (row' & Hr & _ & _ & Ha' & Hq' & _).
    rewrite Hr. cbn. rewrite Ha', Hq'. auto.
  - rewrite Hrow. auto.
Qed.


End PricingWrites.

(** Order 7 priced in the database of the queue: the rows of orders 1, 2
    and 3 are as they were. *)
Lemma apply_pricing_other_orders_untouched_witness :
  exists self' db',
    apply_pricing (platform:=example_math) order_7 (Some (PyInt 80)) db_queue = (Ok self', db')
    /\ Order_objects db' !! 1 = Some (queued_order 1 1 1)
    /\ Order_objects db' !! 3 = Some (queued_order 3 2 1)
    /\ ZipLocation_objects db' = ZipLocation_objects db_queue.
Proof.
  destruct (apply_pricing_run (platform:=example_math) order_7 (Some (PyInt 80)) db_queue
              db_queue (PyInt 80) eq_refl)
    as (self1 & db2 & permit & self' & db' & Hrun & _).
  exists self', db'. split; [exact Hrun|].
  destruct (apply_pricing_other_orders_untouched (platform:=example_math) _ _ _ _ _ Hrun)
    as (Hz & Hk).
  destruct (Hk 1) as (H1 & _); [discriminate|].
  destruct (Hk 3) as (H3 & _); [discriminate|].
  rewrite H1, H3. auto.
Defined.

(** Order 2, queued second in county 1, priced: it is still second. *)
Lemma apply_pricing_keeps_queue_witness :
  exists self' db',
    apply_pricing (platform:=example_math) (queued_order 2 1 2) (Some (PyInt 80)) db_queue
    = (Ok self', db')
    /\ Order.install_queue_position self' = Some 2%N
    /\ Order.install_queue_position <$> Order_objects db' !! 2 = Some (Some 2%N).
Proof.
  destruct (apply_pricing_run (platform:=example_math) (queued_order 2 1 2)
              (Some (PyInt 80)) db_queue db_queue (PyInt 80) eq_refl)
    as (self1 & db2 & permit & self' & db' & Hrun & _).
  exists self', db'. split; [exact Hrun|].
  destruct (apply_pricing_keeps_queue (platform:=example_math) _ _ _ _ _ Hrun)
    as (_ & Hq & _ & Hrow).
  split; [exact Hq|exact Hrow].
Defined.


(** ** What pricing computes for a line, and for an order without lines *)

Section PricingAmounts.
Context {platform : PyMath}.
Local Open Scope Q_scope.

(** The amounts the loop body gives a line. *)
Lemma apply_pricing_line_values (dist : number) (hp : bool) (item : OrderItem.t) :
  let item' := apply_pricing_line dist hp item in
  let qty := inject_Z (Z.of_N (OrderItem.quantity item)) in
  Decimal.value (OrderItem.line_subtotal item')
  == Decimal.value (OrderItem.unit_price item') * qty
  /\ (OrderItem.install_selected item = false ->
      Decimal.value (OrderItem.line_install_amount item') == 0)
  /\ (forall pv, OrderItem.pool_variant item = Some pv ->
        Decimal.value (OrderItem.unit_price item')
        == Decimal.value (PoolVariant.variant_price pv)
        /\ (OrderItem.install_selected item = true ->
            Decimal.value (OrderItem.line_install_amount item')
            == Decimal.value (PoolVariant.estimate_install_cost pv dist) * qty))
  /\ (forall si, OrderItem.pool_variant item = None -> OrderItem.store_item item = Some si ->
        Decimal.value (OrderItem.unit_price item') == Decimal.value (StoreItem.price si)
        /\ (OrderItem.install_selected item = true ->
            Decimal.value (OrderItem.line_install_amount item')
            == Decimal.value (StoreItem.estimate_install_cost si dist) * qty)).
Proof.
  destruct item as [pv si q up ls sel lin lsh].
  cbn -[Decimal.value Decimal.mul Decimal.or_ PoolVariant.estimate_install_cost
        StoreItem.estimate_install_cost Z.of_N].
  unfold OrderItem.qty.
  cbn -[Decimal.value Decimal.mul Decimal.or_ PoolVariant.estimate_install_cost
        StoreItem.estimate_install_cost Z.of_N].
  split; [rewrite value_mul, value_or_zero_00, value_of_int; reflexivity|].
  split; [intros ->; apply value_zero_00|].
  split.
  - intros pv0 [= ->]. split; [apply value_or_zero_00|].
    intros ->. rewrite value_mul, value_of_int. reflexivity.
  - intros si0 -> [= ->]. split; [apply value_or_zero_00|].
    intros ->. rewrite value_mul, value_of_int. reflexivity.
Qed.

(** A line with install selected ships for 0 when its shipping group is
    free with install, whatever the other lines are. *)
Lemma apply_pricing_line_own_install (dist : number) (hp : bool) (item : OrderItem.t)
    (sg : ShippingGroup.t) :
  OrderItem.install_selected item = true ->
  ((exists pv, OrderItem.pool_variant item = Some pv
               /\ PoolVariant.shipping_group pv = Some sg)
   \/ (OrderItem.pool_variant item = None
       /\ exists si, OrderItem.store_item item = Some si
                     /\ StoreItem.shipping_group si = Some sg)) ->
  ShippingGroup.free_with_install sg = true ->
  Decimal.value (OrderItem.line_shipping_amount (apply_pricing_line dist hp item)) == 0.
Proof.
  destruct item as [pv si q up ls sel lin lsh].
  cbn [OrderItem.pool_variant OrderItem.store_item OrderItem.install_selected].
  intros -> [(pv0 & -> & Hsg) | (-> & si0 & -> & Hsg)] Hfree;
    cbn -[Decimal.value Decimal.mul ShippingGroup.estimate_cost];
    unfold PoolVariant.estimate_shipping_cost, StoreItem.estimate_shipping_cost;
    rewrite Hsg; apply value_mul_zero_l;
    unfold ShippingGroup.estimate_cost; rewrite Hfree; apply value_zero_00.
Qed.


(** X15.  A line with install selected whose shipping group is free with
    install ships for 0, at any distance and with no pool install in the
    order: an accessory install frees its own shipping. *)
Theorem apply_pricing_free_shipping_own_install (self self' : Order.t) (d : option number)
    (db db' : DB) (i : nat) (item : OrderItem.t) (sg : ShippingGroup.t) :
  apply_pricing self d db = (Ok self', db') ->
  lines_of self db !! i = Some item ->
  OrderItem.install_selected item = true ->
  ((exists pv, OrderItem.pool_variant item = Some pv
               /\ PoolVariant.shipping_group pv = Some sg)
   \/ (OrderItem.pool_variant item = None
       /\ exists si, OrderItem.store_item item = Some si
                     /\ StoreItem.shipping_group si = Some sg)) ->
  ShippingGroup.free_with_install sg = true ->
  exists item',
    lines_of self' db' !! i = Some item'
    /\ Decimal.value (OrderItem.line_shipping_amount item') == 0.
Proof.
  intros Hrun Hi Hsel Hsg Hfree.
  destruct (apply_pricing_lines _ _ _ _ _ Hrun) as (dist & db1 & _ & Hlines).
  eexists. rewrite Hlines, lookup_map, Hi. split; [reflexivity|].
  apply (apply_pricing_line_own_install _ _ _ sg); assumption.
Qed.

(** X16.  An order without lines is priced at zero: once the distance is
    resolved [apply_pricing] returns with the five component totals
    [Decimal("0.00")], the permit total included even when a service area
    is resolved, and a grand total of 0. *)
Theorem apply_pricing_no_lines (self : Order.t) (d : option number) (db db1 : DB)
    (dist : number) :
  resolve_distance self d db = (Ok dist, db1) ->
  lines_of self db = [] ->
  exists self' db',
    apply_pricing self d db = (Ok self', db')
    /\ Order.subtotal self' = Decimal.zero_00
    /\ Order.shipping_total self' = Decimal.zero_00
    /\ Order.install_total self' = Decimal.zero_00
    /\ Order.permit_total self' = Decimal.zero_00
    /\ Order.tax_total self' = Decimal.zero_00
    /\ Decimal.value (Order.grand_total self') == 0
    /\ lines_of self' db' = [].
Proof.
  intros Hdist Hempty.
  destruct (resolve_distance_reads _ _ _ _ _ Hdist) as (Hoi & _).
  assert (Hl : lines_of self db1 = []) by (unfold lines_of in *; now rewrite Hoi).
  destruct (apply_pricing_run _ _ _ _ _ Hdist)
    as (self1 & db2 & permit & self' & db' & Hrun & _ & Hpermit & (db3 & Hrec & Hlines3)
        & Hlines & _).
  rewrite Hl in Hpermit, Hlines3, Hlines. cbn in Hpermit, Hlines3, Hlines.
  assert (Hp : permit = Decimal.zero_00).
  { specialize (Hpermit db1 eq_refl). destruct (service_area_of self1); cbn in Hpermit;
      now injection Hpermit. }
  subst permit.
  exists self', db'. split; [exact Hrun|].
  unfold recalc_totals, bind in Hrec. rewrite Order_items_run, Hlines3 in Hrec.
  cbn in Hrec. injection Hrec as <-.
  cbn [Order.set_totals Order.subtotal Order.shipping_total Order.install_total
       Order.permit_total Order.tax_total Order.grand_total].
  do 5 (split; [reflexivity|]). split; [vm_compute; reflexivity|exact Hlines].
Qed.

End PricingAmounts.


(** Order 14 has no pool; its pump, with install, ships for 0. *)
Lemma apply_pricing_free_shipping_own_install_witness :
  exists self' db' item',
    apply_pricing (platform:=example_math) order_14 (Some (PyInt 80)) db_14 = (Ok self', db')
    /\ has_pool_install (lines_of order_14 db_14) = false
    /\ lines_of self' db' !! 0%nat = Some item'
    /\ (Decimal.value (OrderItem.line_shipping_amount item') == 0)%Q.
Proof.
  destruct (apply_pricing_run (platform:=example_math) order_14 (Some (PyInt 80)) db_14 db_14
              (PyInt 80) eq_refl)
    as (self1 & db2 & permit & self' & db' & Hrun & _).
  destruct (apply_pricing_free_shipping_own_install (platform:=example_math) _ _ _ _ _
              0%nat (new_line None (Some pump) 1 true) parcel Hrun eq_refl eq_refl)
    as (item' & Hi & Hship).
  - right. split; [reflexivity|]. exists pump. split; reflexivity.
  - reflexivity.
  - exists self', db', item'. split; [exact Hrun|]. split; [reflexivity|]. auto.
Defined.

(** Order 1 of the queue has no lines, and a service area: all totals are
    zero. *)
Lemma apply_pricing_no_lines_witness :
  exists self' db',
    apply_pricing (platform:=example_math) (queued_order 1 1 1) (Some (PyInt 80)) db_queue
    = (Ok self', db')
    /\ service_area_of self' = Some marion
    /\ Order.permit_total self' = Decimal.zero_00
    /\ (Decimal.value (Order.grand_total self') == 0)%Q.
Proof.
  destruct (apply_pricing_no_lines (platform:=example_math) (queued_order 1 1 1)
              (Some (PyInt 80)) db_queue db_queue (PyInt 80) eq_refl eq_refl)
    as (self' & db' & Hrun & _ & _ & _ & Hpermit & _ & Hgrand & _).
  exists self', db'. split; [exact Hrun|].
  split; [vm_compute in Hrun; injection Hrun as <- _; reflexivity|]. auto.
Defined.

(** ** The order's ZIP code, and the re-pricing of the views *)

Section PricingCallers.
Context {platform : PyMath}.

(** X17.  When the linked ZIP location has a service area, pricing does not
    read the order's [zip_code]: with any other ZIP code on the order, the
    amounts, the totals and the database come out the same. *)
Theorem apply_pricing_ignores_zip_code (self : Order.t) (d : option number) (db db' : DB)
    (sa : ServiceArea.t) (z : string) (r : result Order.t) :
  service_area_of self = Some sa ->
  apply_pricing self d db = (r, db') ->
  apply_pricing (Order.set_zip_code z self) d db
  = (match r with
     | Ok self' => Ok (Order.set_zip_code z self')
     | Raise e => Raise e
     end, db').
Proof.
  unfold service_area_of.
  destruct self as [id zc [zl|] isa iqp a b c e f g]; cbn [Order.zip_location mbind option_bind];
    [|discriminate].
  intros Hsa Hrun.
  assert (Hdist : resolve_distance (Order.set_zip_code z (Order.mk id zc (Some zl) isa iqp a b c e f g))
                    d db
                  = resolve_distance (Order.mk id zc (Some zl) isa iqp a b c e f g) d db)
    by (destruct d; reflexivity).
  unfold apply_pricing, bind in *. rewrite Hdist.
  destruct (resolve_distance (Order.mk id zc (Some zl) isa iqp a b c e f g) d db)
    as [[dist|err] db1]; [|injection Hrun as <- <-; reflexivity].
  rewrite !Order_items_run in *. unfold resolve_service_area in *.
  cbn [Order.zip_location Order.set_zip_code mbind option_bind] in *. rewrite Hsa in *.
  unfold ret at 1. unfold ret at 1 in Hrun.
  cbn [fst snd] in *. unfold OrderItem_save_all, modify_db in *.
  unfold lines_of in *. cbn [Order.id Order.set_zip_code] in *.
  match goal with
  | |- context [permit_total_for ?s ?hp ?ha ?dbi] =>
      destruct (permit_total_for s hp ha dbi) as [[permit|err] db3];
        [|injection Hrun as <- <-; reflexivity]
  end.
  unfold recalc_totals, bind in *. rewrite !Order_items_run in *.
  unfold lines_of in *. cbn [Order.id Order.set_permit_total Order.set_zip_code] in *.
  destruct (fold_left recalc_totals_step (default [] (OrderItem_objects db3 !! id))
              (Decimal.zero_00, Decimal.zero_00, Decimal.zero_00)) as [[s1 s2] s3].
  cbn in Hrun. injection Hrun as <- <-. reflexivity.
Qed.

(** X18.  The re-pricing of the cart views, which resolves the distance and
    hands it to [apply_pricing], does what [apply_pricing] does when called
    without a distance: the same result and the same database. *)
Theorem views_reprice_is_apply_pricing (order : Order.t) (db : DB) :
  views_reprice order db = apply_pricing order None db.
Proof.
  unfold views_reprice, apply_pricing, bind. cbn [resolve_distance]. unfold bind.
  destruct (calculate_distance order None db) as [[[x|]|e] db1] eqn:Hcd;
    try reflexivity.
  pose proof (calculate_distance_db _ _ _ _ _ Hcd) as ->.
  cbn [fmap option_fmap option_map resolve_distance]. unfold bind.
  rewrite calculate_distance_settings_created, Hcd. reflexivity.
Qed.

(** X19.  For an order linked to the location of the request's ZIP code, as
    [cart_add_item] links it, the re-pricing with that ZIP as override does
    what [apply_pricing] does when called without a distance. *)
Theorem views_reprice_for_zip_is_apply_pricing (order : Order.t) (zip_code : string)
    (zl : ZipLocation.t) (db : DB) :
  str_truthy zip_code = true ->
  ZipLocation_objects db !! zip_code = Some zl ->
  Order.zip_location order = Some zl ->
  views_reprice_for_zip order zip_code db = apply_pricing order None db.
Proof.
  intros Htruthy Hz Hzl.
  assert (Hover : calculate_distance order (Some zip_code) db = calculate_distance order None db).
  { unfold calculate_distance, bind. rewrite get_solo_run, !ZipLocation_first_run, Htruthy, Hzl.
    rewrite ZipLocation_first_run.
    change (ZipLocation_objects (settings_created db)) with (ZipLocation_objects db).
    rewrite Hz. reflexivity. }
  unfold views_reprice_for_zip, apply_pricing, bind. rewrite Hover.
  cbn [resolve_distance]. unfold bind.
  destruct (calculate_distance order None db) as [[[x|]|e] db1] eqn:Hcd;
    try reflexivity.
  pose proof (calculate_distance_db _ _ _ _ _ Hcd) as ->.
  cbn [fmap option_fmap option_map resolve_distance]. unfold bind.
  rewrite calculate_distance_settings_created, Hcd. reflexivity.
Qed.

End PricingCallers.

(** Order 7 priced at 80 miles with the ZIP code 99999 on it: the same
    amounts as with its own ZIP code, and the same database. *)
Lemma apply_pricing_ignores_zip_code_witness :
  exists self' db',
    apply_pricing (platform:=example_math) order_7 (Some (PyInt 80)) db_7 = (Ok self', db')
    /\ apply_pricing (platform:=example_math) (Order.set_zip_code "99999" order_7)
         (Some (PyInt 80)) db_7
       = (Ok (Order.set_zip_code "99999" self'), db').
Proof.
  destruct (apply_pricing (platform:=example_math) order_7 (Some (PyInt 80)) db_7)
    as [[self'|e] db'] eqn:Hrun; [|vm_compute in Hrun; discriminate].
  exists self', db'. split; [reflexivity|].
  exact (apply_pricing_ignores_zip_code (platform:=example_math) order_7 (Some (PyInt 80))
           db_7 db' marion "99999" (Ok self') eq_refl Hrun).
Defined.

(** Order 15, linked to the location of ZIP 32003: re-priced for ZIP 32003,
    it is priced as by [apply_pricing] alone, at the fall-back distance. *)
Lemma views_reprice_for_zip_is_apply_pricing_witness :
  views_reprice_for_zip (platform:=example_math) order_15 "32003" db_15
  = apply_pricing (platform:=example_math) order_15 None db_15
  /\ exists self' db',
       apply_pricing (platform:=example_math) order_15 None db_15 = (Ok self', db').
Proof.
  split.
  - apply (views_reprice_for_zip_is_apply_pricing (platform:=example_math) order_15 "32003"
             zip_bare db_15); reflexivity.
  - eexists _, _. vm_compute. reflexivity.
Defined.

(** ** The install queue, further *)

Section QueueFurther.
Context {platform : PyMath}.

Lemma set_install_service_area_id_same (o : Order.t) :
  Order.set_install_service_area_id (Order.install_service_area_id o) o = o.
Proof. destruct o; reflexivity. Qed.

(** Saving an order that has a row stores the row with the saved columns. *)
Lemma alter_stored (f : Order.t -> Order.t) (m : gmap Z Order.t) (k : Z) (row : Order.t) :
  m !! k = Some row -> alter f k m = <[k := f row]> m.
Proof.
  intros Hk. apply map_eq. intros j. destruct (decide (k = j)) as [<- | Hne].
  - rewrite lookup_alter_eq, lookup_insert_eq, Hk. reflexivity.
  - rewrite lookup_alter_ne, lookup_insert_ne by assumption. reflexivity.
Qed.

(** Queue assignment for an order that is its own row and has no position
    yet: the order returned and the database left. *)
Lemma assign_install_queue_position_new (self : Order.t) (sa : ServiceArea.t) (db : DB) :
  service_area_of self = Some sa ->
  Order.install_queue_position self = None ->
  Order_objects db !! Order.id self = Some self ->
  let self' :=
    Order.set_install_queue_position (Some (queued_count sa db + 1)%N)
      (Order.set_install_service_area_id (Some (ServiceArea.id sa)) self) in
  assign_install_queue_position self db
  = (Ok self', set_Order_objects (<[Order.id self := self']> (Order_objects db)) db).
Proof.
  intros Hsa Hpos Hrow self'. subst self'.
  unfold assign_install_queue_position. fold (service_area_of self). rewrite Hsa.
  unfold bind, Order_save, modify_db, ret, get_db.
  destruct (bool_decide (Order.install_service_area_id self <> Some (ServiceArea.id sa)))
    eqn:Harea;
    cbn [Order.install_queue_position Order.set_install_service_area_id];
    rewrite Hpos.
  - rewrite queued_count_alter.
    + unfold set_Order_objects.
      cbn [Order_objects GlobalSettings_objects ZipLocation_objects OrderItem_objects
           Order.id Order.set_install_service_area_id Order.set_install_queue_position
           Order.install_service_area_id Order.install_queue_position].
      rewrite (alter_stored _ _ _ _ Hrow), alter_insert_eq.
      reflexivity.
    + intros row Hk. cbn [Order.id Order.set_install_service_area_id] in Hk.
      rewrite Hrow in Hk. injection Hk as <-.
      split; apply queued_in_no_position; [|cbn]; exact Hpos.
  - apply bool_decide_eq_false in Harea.
    assert (Hisa : Order.install_service_area_id self = Some (ServiceArea.id sa))
      by (destruct (decide (Order.install_service_area_id self = Some (ServiceArea.id sa)));
          [assumption|contradiction]).
    rewrite <- Hisa, set_install_service_area_id_same.
    unfold set_Order_objects.
    cbn [Order_objects GlobalSettings_objects ZipLocation_objects OrderItem_objects
         Order.id Order.set_install_queue_position Order.install_queue_position].
    rewrite (alter_stored _ _ _ _ Hrow). reflexivity.
Qed.

(** Storing a queued order of the service area in place of a row the query
    did not count adds one to the count. *)
Lemma queued_count_insert (sa : ServiceArea.t) (db : DB) (k : Z) (row o : Order.t) :
  Order_objects db !! k = Some row ->
  queued_in sa row = false ->
  queued_in sa o = true ->
  queued_count sa (set_Order_objects (<[k := o]> (Order_objects db)) db)
  = (queued_count sa db + 1)%N.
Proof.
  intros Hk Hold Hnew. unfold queued_count. cbn [Order_objects set_Order_objects].
  rewrite map_filter_insert_True by exact Hnew.
  rewrite map_size_insert_None; [lia|].
  apply map_lookup_filter_None. right. intros x Hx. rewrite Hk in Hx. injection Hx as <-.
  cbn. congruence.
Qed.

(** Storing a row that the query counts neither before nor after leaves the
    count. *)
Lemma queued_count_insert_other (sa : ServiceArea.t) (db : DB) (k : Z) (row o : Order.t) :
  Order_objects db !! k = Some row ->
  queued_in sa row = false ->
  queued_in sa o = false ->
  queued_count sa (set_Order_objects (<[k := o]> (Order_objects db)) db) = queued_count sa db.
Proof.
  intros Hk Hold Hnew. unfold queued_count. cbn [Order_objects set_Order_objects].
  f_equal. f_equal. apply map_eq. intros j.
  rewrite !map_lookup_filter.
  destruct (decide (k = j)) as [<- | Hne].
  - rewrite lookup_insert_eq, Hk. cbn.
    rewrite !option_guard_False; [reflexivity | |]; cbn; congruence.
  - rewrite lookup_insert_ne by assumption. reflexivity.
Qed.

(** X20.  A second queue assignment changes nothing: it returns the order
    the first returned and leaves the database the first left. *)
Theorem assign_install_queue_position_twice (self self' : Order.t) (db db' : DB) :
  assign_install_queue_position self db = (Ok self', db') ->
  assign_install_queue_position self' db' = (Ok self', db').
Proof.
  unfold assign_install_queue_position. fold (service_area_of self) (service_area_of self').
  destruct (service_area_of self) as [sa|] eqn:Hsa.
  - unfold bind, Order_save, modify_db, ret, get_db.
    destruct (bool_decide (Order.install_service_area_id self <> Some (ServiceArea.id sa)))
      eqn:Harea;
      cbn [Order.install_queue_position Order.set_install_service_area_id];
      destruct (Order.install_queue_position self) as [pos|] eqn:Hpos;
      intros [= <- <-];
      unfold service_area_of in *;
      cbn [Order.zip_location Order.set_install_service_area_id
           Order.set_install_queue_position];
      rewrite Hsa;
      cbn [Order.install_service_area_id Order.install_queue_position
           Order.set_install_service_area_id Order.set_install_queue_position];
      rewrite ?Harea,
        ?(bool_decide_eq_false_2 (Some (ServiceArea.id sa) <> Some (ServiceArea.id sa)))
        by (intros Hn; exact (Hn eq_refl));
      cbn [Order.install_service_area_id Order.install_queue_position
           Order.set_install_service_area_id Order.set_install_queue_position];
      rewrite ?Hpos; reflexivity.
  - intros [= <- <-]. rewrite Hsa. reflexivity.
Qed.

(** X21.  Queue assignment writes the service area of the install and the
    queue position of the order's row and nothing else: the settings, the
    ZIP table, the lines and the rows of the other orders stay as they are,
    and so do the ZIP code, the linked location and the six totals of the
    order and of its row. *)
Theorem assign_install_queue_position_writes (self self' : Order.t) (db db' : DB) :
  assign_install_queue_position self db = (Ok self', db') ->
  GlobalSettings_objects db' = GlobalSettings_objects db
  /\ ZipLocation_objects db' = ZipLocation_objects db
  /\ OrderItem_objects db' = OrderItem_objects db
  /\ (forall k, k <> Order.id self -> Order_objects db' !! k = Order_objects db !! k)
  /\ Order.id self' = Order.id self
  /\ Order.zip_code self' = Order.zip_code self
  /\ Order.zip_location self' = Order.zip_location self
  /\ totals self' = totals self
  /\ Order.zip_code <$> Order_objects db' !! Order.id self
     = Order.zip_code <$> Order_objects db !! Order.id self
  /\ Order.zip_location <$> Order_objects db' !! Order.id self
     = Order.zip_location <$> Order_objects db !! Order.id self
  /\ totals <$> Order_objects db' !! Order.id self
     = totals <$> Order_objects db !! Order.id self.
Proof.
  unfold assign_install_queue_position. fold (service_area_of self).
  destruct (service_area_of self) as [sa|].
  - unfold bind, Order_save, modify_db, ret, get_db.
    destruct (bool_decide (Order.install_service_area_id self <> Some (ServiceArea.id sa)));
      cbn [Order.install_queue_position Order.set_install_service_area_id];
      destruct (Order.install_queue_position self) as [pos|];
      intros [= <- <-];
      cbn [GlobalSettings_objects ZipLocation_objects OrderItem_objects Order_objects
           set_Order_objects Order.id Order.zip_code Order.zip_location
           Order.set_install_service_area_id Order.set_install_queue_position];
      (split; [reflexivity|]); (split; [reflexivity|]); (split; [reflexivity|]);
      (split; [intros k Hk; rewrite ?lookup_alter_ne by congruence; reflexivity|]);
      (split; [reflexivity|]); (split; [reflexivity|]); (split; [reflexivity|]);
      (split; [reflexivity|]);
      rewrite ?lookup_alter_eq;
      destruct (Order_objects db !! Order.id self) as [row|]; cbn; auto.
  - intros [= <- <-]. repeat split; reflexivity.
Qed.

(** X22.  Queueing an order that has no position yet stores the returned
    order as its row, adds one to the count of its service area and leaves
    the count of every other service area. *)
Theorem assign_install_queue_position_counted (self : Order.t) (sa : ServiceArea.t) (db : DB) :
  service_area_of self = Some sa ->
  Order.install_queue_position self = None ->
  Order_objects db !! Order.id self = Some self ->
  exists self' db',
    assign_install_queue_position self db = (Ok self', db')
    /\ Order_objects db' !! Order.id self = Some self'
    /\ queued_count sa db' = (queued_count sa db + 1)%N
    /\ forall sa2 : ServiceArea.t,
         ServiceArea.id sa2 <> ServiceArea.id sa ->
         queued_count sa2 db' = queued_count sa2 db.
Proof.
  intros Hsa Hpos Hrow.
  eexists _, _. split; [exact (assign_install_queue_position_new self sa db Hsa Hpos Hrow)|].
  split; [cbn [Order_objects set_Order_objects]; apply lookup_insert_eq|].
  split.
  - apply (queued_count_insert sa db _ self); [exact Hrow| |].
    + apply queued_in_no_position, Hpos.
    + unfold queued_in.
      cbn [Order.install_service_area_id Order.install_queue_position
           Order.set_install_queue_position Order.set_install_service_area_id].
      rewrite !bool_decide_eq_true_2; [reflexivity | discriminate | reflexivity].
  - intros sa2 Hne. apply (queued_count_insert_other sa2 db _ self); [exact Hrow| |].
    + apply queued_in_no_position, Hpos.
    + unfold queued_in.
      cbn [Order.install_service_area_id Order.install_queue_position
           Order.set_install_queue_position Order.set_install_service_area_id].
      rewrite (bool_decide_eq_false_2 (Some (ServiceArea.id sa) = Some (ServiceArea.id sa2)));
        [reflexivity|congruence].
Qed.

(** X23.  Two orders of one service area, neither queued yet, queued one
    after the other, get consecutive positions: the count of the service
    area plus 1, and plus 2. *)
Theorem assign_install_queue_position_consecutive (o1 o2 : Order.t) (sa : ServiceArea.t)
    (db : DB) :
  service_area_of o1 = Some sa ->
  service_area_of o2 = Some sa ->
  Order.id o1 <> Order.id o2 ->
  Order_objects db !! Order.id o1 = Some o1 ->
  Order_objects db !! Order.id o2 = Some o2 ->
  Order.install_queue_position o1 = None ->
  Order.install_queue_position o2 = None ->
  exists o1' db1 o2' db2,
    assign_install_queue_position o1 db = (Ok o1', db1)
    /\ assign_install_queue_position o2 db1 = (Ok o2', db2)
    /\ Order.install_queue_position o1' = Some (queued_count sa db + 1)%N
    /\ Order.install_queue_position o2' = Some (queued_count sa db + 2)%N.
Proof.
  intros Hsa1 Hsa2 Hne Hrow1 Hrow2 Hpos1 Hpos2.
  pose proof (assign_install_queue_position_new o1 sa db Hsa1 Hpos1 Hrow1) as Hrun1.
  cbv zeta in Hrun1.
  eexists _, _. eexists _, _. split; [exact Hrun1|].
  split.
  - apply assign_install_queue_position_new; [exact Hsa2|exact Hpos2|].
    cbn [Order_objects set_Order_objects]. rewrite lookup_insert_ne by assumption.
    exact Hrow2.
  - split; [reflexivity|].
    cbn [Order.install_queue_position Order.set_install_queue_position]. f_equal.
    rewrite (queued_count_insert sa db _ o1); [lia|exact Hrow1| |].
    + apply queued_in_no_position, Hpos1.
    + unfold queued_in.
      cbn [Order.install_service_area_id Order.install_queue_position
           Order.set_install_queue_position Order.set_install_service_area_id].
      rewrite !bool_decide_eq_true_2; [reflexivity | discriminate | reflexivity].
Qed.

End QueueFurther.

(** Order 7 queued behind orders 1 and 2 of county 1, then assigned
    again. *)
Lemma assign_install_queue_position_twice_witness :
  exists self' db',
    assign_install_queue_position order_7 db_queue = (Ok self', db')
    /\ Order.install_queue_position self' = Some 3%N
    /\ assign_install_queue_position self' db' = (Ok self', db').
Proof.
  destruct (assign_install_queue_position order_7 db_queue) as [[self'|e] db'] eqn:Hrun;
    [|vm_compute in Hrun; discriminate].
  exists self', db'. split; [reflexivity|].
  split; [vm_compute in Hrun; injection Hrun as <- _; reflexivity|].
  exact (assign_install_queue_position_twice order_7 self' db_queue db' Hrun).
Defined.

(** Order 7 queued: its lines and the row of order 1 are as they were, and
    its row still has the ZIP code 34491. *)
Lemma assign_install_queue_position_writes_witness :
  exists self' db',
    assign_install_queue_position order_7 db_queue = (Ok self', db')
    /\ OrderItem_objects db' = OrderItem_objects db_queue
    /\ Order_objects db' !! 1 = Some (queued_order 1 1 1)
    /\ Order.zip_code <$> Order_objects db' !! 7 = Some "34491"%string.
Proof.
  destruct (assign_install_queue_position order_7 db_queue) as [[self'|e] db'] eqn:Hrun;
    [|vm_compute in Hrun; discriminate].
  destruct (assign_install_queue_position_writes order_7 self' db_queue db' Hrun)
    as (_ & _ & Hlines & Hother & _ & _ & _ & _ & Hzip & _).
  exists self', db'. split; [reflexivity|]. split; [exact Hlines|].
  split; [rewrite Hother by discriminate; reflexivity|].
  exact Hzip.
Defined.

(** Order 7 queued: county 1 counts three queued orders instead of two,
    county 2 still one. *)
Lemma assign_install_queue_position_counted_witness :
  exists self' db',
    assign_install_queue_position order_7 db_queue = (Ok self', db')
    /\ Order_objects db' !! 7 = Some self'
    /\ queued_count marion db' = 3%N
    /\ queued_count (ServiceArea.mk 2 Decimal.zero_00 Decimal.zero_00 Decimal.zero_00
                       Decimal.zero_00) db' = 1%N.
Proof.
  destruct (assign_install_queue_position_counted order_7 marion db_queue
              eq_refl eq_refl eq_refl)
    as (self' & db' & Hrun & Hrow & Hcount & Hother).
  exists self', db'. split; [exact Hrun|]. split; [exact Hrow|].
  split; [rewrite Hcount; vm_compute; reflexivity|].
  rewrite Hother by (cbn; discriminate). vm_compute. reflexivity.
Defined.

(** Orders 7 and 14 queued behind order 1 of county 1: positions 2 and 3. *)
Lemma assign_install_queue_position_consecutive_witness :
  exists o1' db1 o2' db2,
    assign_install_queue_position order_7 db_queue_two = (Ok o1', db1)
    /\ assign_install_queue_position order_14 db1 = (Ok o2', db2)
    /\ Order.install_queue_position o1' = Some 2%N
    /\ Order.install_queue_position o2' = Some 3%N.
Proof.
  destruct (assign_install_queue_position_consecutive order_7 order_14 marion db_queue_two
              eq_refl eq_refl)
    as (o1' & db1 & o2' & db2 & Hrun1 & Hrun2 & Hpos1 & Hpos2);
    [discriminate | reflexivity | reflexivity | reflexivity | reflexivity |].
  exists o1', db1, o2', db2. split; [exact Hrun1|]. split; [exact Hrun2|].
  assert (Hcount : queued_count marion db_queue_two = 1%N) by (vm_compute; reflexivity).
  rewrite Hcount in Hpos1, Hpos2. split; [exact Hpos1 | exact Hpos2].
Defined.

(** ** Pricing and queueing at checkout *)

Section Checkout.
Context {platform : PyMath}.

Lemma resolve_service_area_linked (self self1 : Order.t) (db db2 : DB)
    (sa : option ServiceArea.t) :
  resolve_service_area self db = (Ok (sa, self1), db2) ->
  Order.zip_location self1 = linked_after self db.
Proof.
  unfold resolve_service_area, linked_after, service_area_of.
  destruct (Order.zip_location self ≫= ZipLocation.service_area);
    [intros [= _ <- _]; reflexivity|].
  destruct (str_truthy (Order.zip_code self)); [|intros [= _ <- _]; reflexivity].
  unfold bind. rewrite ZipLocation_first_run.
  destruct (ZipLocation_objects db !! Order.zip_code self) as [z|];
    intros [= _ <- _]; reflexivity.
Qed.

Lemma linked_after_ext (self : Order.t) (db1 db2 : DB) :
  ZipLocation_objects db1 = ZipLocation_objects db2 ->
  linked_after self db1 = linked_after self db2.
Proof. unfold linked_after. now intros ->. Qed.

(** The order pricing returns: its id, its ZIP code and its location. *)
Lemma apply_pricing_location (self self' : Order.t) (d : option number) (db db' : DB) :
  apply_pricing self d db = (Ok self', db') ->
  Order.id self' = Order.id self
  /\ Order.zip_code self' = Order.zip_code self
  /\ Order.zip_location self' = linked_after self db.
Proof.
  intros Hrun.
  destruct (apply_pricing_Ok_distance _ _ _ _ _ Hrun) as (dist & db1 & Hdist).
  destruct (apply_pricing_run _ _ _ _ _ Hdist)
    as (self1 & db2 & permit & s' & d' & Hrun1 & Hrsa & _ & _ & _ & Hid & Hzc & Hzl & _).
  rewrite Hrun in Hrun1. injection Hrun1 as <- <-.
  destruct (resolve_distance_reads _ _ _ _ _ Hdist) as (_ & Hzips1 & _).
  split; [exact Hid|]. split; [exact Hzc|].
  rewrite Hzl, (resolve_service_area_linked _ _ _ _ _ Hrsa).
  apply linked_after_ext, Hzips1.
Qed.

Lemma Order_eq (o1 o2 : Order.t) :
  Order.id o1 = Order.id o2 ->
  Order.zip_code o1 = Order.zip_code o2 ->
  Order.zip_location o1 = Order.zip_location o2 ->
  Order.install_service_area_id o1 = Order.install_service_area_id o2 ->
  Order.install_queue_position o1 = Order.install_queue_position o2 ->
  totals o1 = totals o2 ->
  o1 = o2.
Proof.
  destruct o1, o2. unfold totals. cbn. intros -> -> -> -> -> [= -> -> -> -> -> ->].
  reflexivity.
Qed.

(** A priced order that was its own row is its own row afterwards. *)
Lemma apply_pricing_row (self self' : Order.t) (d : option number) (db db' : DB) :
  apply_pricing self d db = (Ok self', db') ->
  Order_objects db !! Order.id self = Some self ->
  Order_objects db' !! Order.id self = Some self'.
Proof.
  intros Hrun Hrow.
  destruct (apply_pricing_location _ _ _ _ _ Hrun) as (Hid & Hzc & _).
  destruct (apply_pricing_writes _ _ _ _ _ Hrun) as (_ & _ & Ha & Hq & Hw).
  rewrite Hrow in Hw. destruct Hw as (row' & Hrow' & Ht & Hid' & Ha' & Hq' & Hzip).
  rewrite Hrow'. f_equal. apply Order_eq; try congruence.
  - destruct Hzip as [(_ & Hz & _) | (_ & Hz)]; congruence.
  - destruct Hzip as [(Hz & _ & Hz') | (Hz & _)]; congruence.
Qed.

(** Rows that differ in the row of one order only, which has no queue
    position on either side, count the same. *)
Lemma queued_count_own_row (sa : ServiceArea.t) (db db' : DB) (k : Z) :
  (forall j, j <> k -> Order_objects db' !! j = Order_objects db !! j) ->
  (forall row, Order_objects db !! k = Some row -> Order.install_queue_position row = None) ->
  (forall row, Order_objects db' !! k = Some row -> Order.install_queue_position row = None) ->
  queued_count sa db' = queued_count sa db.
Proof.
  intros Hother Hold Hnew. unfold queued_count. f_equal. f_equal. apply map_eq. intros j.
  rewrite !map_lookup_filter.
  destruct (decide (j = k)) as [-> | Hne]; [|rewrite Hother by assumption; reflexivity].
  destruct (Order_objects db !! k) as [row|] eqn:Hk;
    destruct (Order_objects db' !! k) as [row'|] eqn:Hk'; cbn;
    rewrite ?option_guard_False; try reflexivity; cbn.
  all: rewrite queued_in_no_position; auto.
Qed.



End Checkout.



(** ** The slug of a store item *)

Section Slug.
Variable pk : option Z.
Variable base_slug : string.

Lemma append_cons_ne (s t : string) (a : Ascii.ascii) : s <> s +:+ String a t.
Proof. induction s as [|b s IH]; cbn; [discriminate|]. intros [= H]. exact (IH H). Qed.

Lemma slug_candidate_next (c : N) :
  (1 <= c)%N -> base_slug +:+ "-" +:+ pretty (c + 1)%N = slug_candidate base_slug (c + 1).
Proof.
  intros Hc. unfold slug_candidate.
  destruct (N.eqb_spec (c + 1) 1) as [Heq | _]; [lia|reflexivity].
Qed.

Lemma slug_candidate_inj (c1 c2 : N) :
  slug_candidate base_slug c1 = slug_candidate base_slug c2 -> c1 = c2.
Proof.
  unfold slug_candidate.
  destruct (N.eqb_spec c1 1) as [-> | H1], (N.eqb_spec c2 1) as [-> | H2];
    [reflexivity | | |].
  - intros H. destruct (append_cons_ne _ _ _ H).
  - intros H. symmetry in H. destruct (append_cons_ne _ _ _ H).
  - intros H. apply (inj (String.append base_slug)) in H.
    injection H as H. exact (inj pretty _ _ H).
Qed.

Lemma StoreItem_slug_exists_delete (slugs : gmap Z string) (k : Z) (v s : string) :
  slugs !! k = Some v -> v <> s ->
  StoreItem_slug_exists (delete k slugs) pk s = StoreItem_slug_exists slugs pk s.
Proof.
  intros Hk Hne. unfold StoreItem_slug_exists. apply bool_decide_ext.
  rewrite !map_Exists_lookup. split.
  - intros (i & x & Hi & Hx). apply lookup_delete_Some in Hi. destruct Hi as (_ & Hi). eauto.
  - intros (i & x & Hi & -> & Hpk). exists i, s. split; [|auto].
    apply lookup_delete_Some. split; [|exact Hi]. intros <-. congruence.
Qed.

(** A row whose slug the loop has passed does not count any more. *)
Lemma StoreItem_save_loop_delete (slugs : gmap Z string) (k : Z) (c0 : N) (fuel : nat) :
  slugs !! k = Some (slug_candidate base_slug c0) ->
  forall c : N,
    (c0 < c)%N ->
    StoreItem_save_loop fuel (delete k slugs) pk base_slug c (slug_candidate base_slug c)
    = StoreItem_save_loop fuel slugs pk base_slug c (slug_candidate base_slug c).
Proof.
  intros Hk. induction fuel as [|fuel IH]; intros c Hc; cbn [StoreItem_save_loop];
    rewrite (StoreItem_slug_exists_delete slugs k _ _ Hk)
      by (intros H; apply slug_candidate_inj in H; lia);
    [reflexivity|].
  destruct (StoreItem_slug_exists slugs pk (slug_candidate base_slug c)); [|reflexivity].
  rewrite slug_candidate_next by lia. apply IH. lia.
Qed.

(** With a pass for each row, the loop ends, at the first candidate from
    [c] on that no other row has. *)
Lemma StoreItem_save_loop_spec (fuel : nat) :
  forall (slugs : gmap Z string) (c : N),
    (1 <= c)%N ->
    (size slugs <= fuel)%nat ->
    exists c' : N,
      (c <= c' <= c + N.of_nat (size slugs))%N
      /\ StoreItem_save_loop fuel slugs pk base_slug c (slug_candidate base_slug c)
         = Some (slug_candidate base_slug c')
      /\ StoreItem_slug_exists slugs pk (slug_candidate base_slug c') = false
      /\ forall c0 : N,
           (c <= c0 < c')%N ->
           StoreItem_slug_exists slugs pk (slug_candidate base_slug c0) = true.
Proof.
  induction fuel as [|fuel IH]; intros slugs c Hc Hsize;
    destruct (StoreItem_slug_exists slugs pk (slug_candidate base_slug c)) eqn:Htaken.
  2, 4: exists c; cbn [StoreItem_save_loop]; rewrite Htaken;
        split; [lia|]; split; [reflexivity|]; split; [reflexivity|]; intros c0 Hc0; lia.
  all: pose proof Htaken as Hrow; unfold StoreItem_slug_exists in Hrow;
       apply bool_decide_eq_true in Hrow; apply map_Exists_lookup in Hrow;
       destruct Hrow as (k & v & Hk & -> & Hpk).
  - assert (Hempty : slugs = ∅) by (apply map_size_empty_inv; lia).
    rewrite Hempty, lookup_empty in Hk. discriminate.
  - assert (Hsize' : size slugs = S (size (delete k slugs)))
      by (pose proof (map_size_delete_Some k slugs (mk_is_Some _ _ Hk));
          pose proof (map_size_ne_0_lookup_2 slugs k (mk_is_Some _ _ Hk)); lia).
    destruct (IH (delete k slugs) (c + 1)%N) as (c' & Hc' & Hrun & Hfree & Hmin);
      [lia | lia |].
    rewrite (StoreItem_save_loop_delete slugs k c fuel Hk) in Hrun by lia.
    rewrite (StoreItem_slug_exists_delete slugs k _ _ Hk) in Hfree
      by (intros H; apply slug_candidate_inj in H; lia).
    exists c'. split; [lia|]. split.
    + cbn [StoreItem_save_loop]. rewrite Htaken, slug_candidate_next by lia. exact Hrun.
    + split; [exact Hfree|]. intros c0 Hc0.
      destruct (decide (c0 = c)) as [-> | Hne]; [exact Htaken|].
      rewrite <- (StoreItem_slug_exists_delete slugs k _ _ Hk)
        by (intros H; apply slug_candidate_inj in H; lia).
      apply Hmin. lia.
Qed.

(** X26.  Saving a store item that has no slug ends once the loop is given
    a pass for each row, whatever the passes beyond: the slug stored is the
    first of [base_slug], [base_slug-2], [base_slug-3], ... that no other
    row has, and it is found among the first [n + 1] of them, [n] being the
    number of rows. *)
Theorem StoreItem_save_slug_first_free (slugs : gmap Z string) (slug : string) :
  str_truthy slug = false ->
  exists c : N,
    (1 <= c <= N.of_nat (size slugs) + 1)%N
    /\ StoreItem_slug_exists slugs pk (slug_candidate base_slug c) = false
    /\ (forall c0 : N,
          (1 <= c0 < c)%N ->
          StoreItem_slug_exists slugs pk (slug_candidate base_slug c0) = true)
    /\ forall fuel : nat,
         (size slugs <= fuel)%nat ->
         StoreItem_save_slug fuel slugs pk slug base_slug
         = Some (slug_candidate base_slug c).
Proof.
  intros Hslug.
  destruct (StoreItem_save_loop_spec (size slugs) slugs 1%N) as (c & Hc & _ & Hfree & Hmin);
    [lia | lia |].
  exists c. split; [lia|]. split; [exact Hfree|]. split; [exact Hmin|].
  intros fuel Hfuel. unfold StoreItem_save_slug. rewrite Hslug. cbn [negb].
  destruct (StoreItem_save_loop_spec fuel slugs 1%N) as (c2 & Hc2 & Hrun & Hfree2 & Hmin2);
    [lia | exact Hfuel |].
  change (StoreItem_save_loop fuel slugs pk base_slug 1 base_slug)
    with (StoreItem_save_loop fuel slugs pk base_slug 1 (slug_candidate base_slug 1)).
  rewrite Hrun.
  assert (Hsame : c2 = c).
  { destruct (N.lt_trichotomy c2 c) as [Hlt | [Heq | Hgt]]; [|exact Heq|].
    - rewrite Hmin in Hfree2 by lia. discriminate.
    - rewrite Hmin2 in Hfree by lia. discriminate. }
  rewrite Hsame. reflexivity.
Qed.

End Slug.

(** A new pump among the items "pump", "pump-2" and "filter": the slug
    stored is "pump-3", with three passes or with ten. *)
Lemma StoreItem_save_slug_first_free_witness :
  StoreItem_save_slug 3%nat slugs_3 None "" "pump" = Some "pump-3"%string
  /\ StoreItem_save_slug 10%nat slugs_3 None "" "pump" = Some "pump-3"%string.
Proof.
  destruct (StoreItem_save_slug_first_free None "pump" slugs_3 "" eq_refl)
    as (c & Hc & Hfree & Hmin & Hrun).
  assert (H3 : size slugs_3 = 3%nat) by (vm_compute; reflexivity).
  assert (Hrun3 := Hrun 3%nat). assert (Hrun10 := Hrun 10%nat).
  rewrite H3 in Hrun3, Hrun10.
  split; [rewrite Hrun3 by lia | rewrite Hrun10 by lia].
  all: rewrite <- Hrun3 by lia; vm_compute; reflexivity.
Defined.

(** ** The distance of the builder, and the permit charge of a location *)

Section BuilderAndLocation.
Context {platform : PyMath}.
Local Open Scope Q_scope.

(** X27.  For a customer location linked to an order, the distance
    [builder_pool_options] computes is the one [Order.calculate_distance]
    resolves, and [0.0] where the resolver has [None].  Where the resolver
    raises, the view raises the same error, or the error is the [TypeError]
    of a missing coordinate and the view falls back to [0.0]. *)
Theorem builder_pool_options_distance_agrees (order : Order.t) (zl : ZipLocation.t)
    (db db1 : DB) (r : result (option float)) :
  Order.zip_location order = Some zl ->
  calculate_distance order None db = (r, db1) ->
  match r with
  | Ok (Some x) => builder_pool_options_distance zl db = (Ok x, db1)
  | Ok None => builder_pool_options_distance zl db = (Ok 0%float, db1)
  | Raise e =>
      builder_pool_options_distance zl db = (Raise e, db1)
      \/ (e = TypeError /\ builder_pool_options_distance zl db = (Ok 0%float, db1))
  end.
Proof.
  intros Hzl. unfold calculate_distance, builder_pool_options_distance, bind.
  rewrite get_solo_run, ZipLocation_first_run, Hzl. unfold ret at 1.
  destruct (ZipLocation_objects (settings_created db)
              !! GlobalSettings.base_zip_code (settings_row db)) as [b|];
    [|intros [= <- <-]; reflexivity].
  destruct (ZipLocation.latitude b) as [lat1|], (ZipLocation.longitude b) as [lon1|],
           (ZipLocation.latitude zl) as [lat2|], (ZipLocation.longitude zl) as [lon2|];
    unfold lift, ret.
  1: destruct (haversine_miles (Some lat1) (Some lon1) (Some lat2) (Some lon2)) as [x|e];
     intros [= <- <-]; auto.
  all: cbn; intros [= <- <-]; auto.
Qed.

(** X28.  The permit total of a priced order is the charge its location
    quotes: the pool permit charge of the location when the order has a pool
    install, the accessory permit charge when it has an accessory install
    and no pool install. *)
Theorem apply_pricing_permit_is_location_charge (self self' : Order.t) (d : option number)
    (db db' : DB) (zl : ZipLocation.t) :
  apply_pricing self d db = (Ok self', db') ->
  Order.zip_location self' = Some zl ->
  (has_pool_install (lines_of self db) = true ->
   exists c, fst (ZipLocation_get_pool_permit_charge zl db) = Ok c
             /\ Decimal.value (Order.permit_total self') == Decimal.value c)
  /\ (has_pool_install (lines_of self db) = false ->
      has_accessory_install (lines_of self db) = true ->
      exists c, fst (ZipLocation_get_accessory_permit_charge zl db) = Ok c
                /\ Decimal.value (Order.permit_total self') == Decimal.value c).
Proof.
  intros Hrun Hzl. pose proof (apply_pricing_permit _ _ _ _ _ Hrun) as Hp.
  unfold service_area_of in Hp. rewrite Hzl in Hp. cbn [mbind option_bind] in Hp.
  unfold ZipLocation_get_pool_permit_charge, ZipLocation_get_accessory_permit_charge.
  unfold permit_total_for, bind in Hp.
  split.
  - intros Hpool. rewrite Hpool in Hp.
    destruct (ZipLocation.service_area zl) as [sa|].
    + rewrite get_pool_permit_charge_run in *. cbn [fst ret] in *. injection Hp as <-.
      eexists. split; [reflexivity|]. rewrite value_add, value_zero_00. ring.
    + cbn [fst ret] in *. injection Hp as <-. eexists. split; reflexivity.
  - intros Hpool Hacc. rewrite Hpool, Hacc in Hp.
    destruct (ZipLocation.service_area zl) as [sa|].
    + rewrite get_accessory_permit_charge_run in *. cbn [fst ret] in *. injection Hp as <-.
      eexists. split; [reflexivity|]. rewrite value_add, value_zero_00. ring.
    + cbn [fst ret] in *. injection Hp as <-. eexists. split; reflexivity.
Qed.

End BuilderAndLocation.

(** Order 13 is linked to a location without coordinates: the resolver has
    [None], the builder [0.0].  Order 11 is linked to a location with a
    latitude and no longitude: the resolver raises [TypeError], the builder
    has [0.0]. *)
Lemma builder_pool_options_distance_agrees_witness :
  (fst (calculate_distance (platform:=example_math) order_13 None db_13) = Ok None
   /\ fst (builder_pool_options_distance (platform:=example_math) zip_bare db_13)
      = Ok 0%float)
  /\ (fst (calculate_distance (platform:=example_math) order_11 None db_9) = Raise TypeError
      /\ fst (builder_pool_options_distance (platform:=example_math) zip_no_longitude db_9)
         = Ok 0%float).
Proof.
  split.
  - destruct (calculate_distance (platform:=example_math) order_13 None db_13)
      as [r db1] eqn:Hrun.
    pose proof (builder_pool_options_distance_agrees (platform:=example_math) order_13
                  zip_bare db_13 db1 r eq_refl Hrun) as H.
    vm_compute in Hrun. injection Hrun as <- <-. rewrite H. split; reflexivity.
  - destruct (calculate_distance (platform:=example_math) order_11 None db_9)
      as [r db1] eqn:Hrun.
    pose proof (builder_pool_options_distance_agrees (platform:=example_math) order_11
                  zip_no_longitude db_9 db1 r eq_refl Hrun) as H.
    split; [vm_compute in Hrun; injection Hrun as <- _; reflexivity|].
    vm_compute. reflexivity.
Defined.

(** Order 7 has a pool install in county 1: its permit total is the pool
    permit charge of its location, 50.00 and 2 hours at 25.00. *)
Lemma apply_pricing_permit_is_location_charge_witness :
  exists self' db' c,
    apply_pricing (platform:=example_math) order_7 (Some (PyInt 80)) db_7 = (Ok self', db')
    /\ fst (ZipLocation_get_pool_permit_charge zip_34491 db_7) = Ok c
    /\ (Decimal.value (Order.permit_total self') == Decimal.value c)%Q
    /\ (Decimal.value c == 100)%Q.
Proof.
  destruct (apply_pricing (platform:=example_math) order_7 (Some (PyInt 80)) db_7)
    as [[self'|e] db'] eqn:Hrun; [|vm_compute in Hrun; discriminate].
  destruct (apply_pricing_permit_is_location_charge (platform:=example_math) order_7 self'
              (Some (PyInt 80)) db_7 db' zip_34491 Hrun) as (Hpool & _).
  { vm_compute in Hrun. injection Hrun as <- _. reflexivity. }
  destruct (Hpool eq_refl) as (c & Hc & Hval).
  exists self', db', c. split; [reflexivity|]. split; [exact Hc|]. split; [exact Hval|].
  vm_compute in Hc. injection Hc as <-. vm_compute. reflexivity.
Defined.

(** The parcel group at 80 miles: 60.00 without install, 0 with it. *)
Lemma estimate_cost_shipping_group_witness :
  (Decimal.value
     (ShippingGroup.estimate_cost (platform:=example_math) parcel (Some (PyInt 80)) false)
   == 60)%Q
  /\ (Decimal.value
        (ShippingGroup.estimate_cost (platform:=example_math) parcel (Some (PyInt 80)) true)
      == 0)%Q.
Proof.
  split.
  - destruct (estimate_cost_shipping_group (platform:=example_math) parcel (PyInt 80) false)
      as (_ & H).
    rewrite H by reflexivity. vm_compute. reflexivity.
  - destruct (estimate_cost_shipping_group (platform:=example_math) parcel (PyInt 80) true)
      as (H & _).
    apply H. reflexivity.
Defined.
